(** * Sale transaction engine of supermercado-api

    A shallow embedding of the sale controller (createSale, cancelSale,
    updatePaymentStatus, getAllSales, getSalesStats) together with the
    Mongoose schemas of [Sale] and [Product] it saves documents through.

    Modelling choices, stated once:
    - a JavaScript Number is a rational ([Q], exact arithmetic) or [NaN];
      rounding of IEEE doubles and the infinities are not modelled;
    - a request field that should hold a number is absent ([JUndefined]),
      [JNull], a number, or a non-empty text that does not read as a number
      ([JNonNumeric], such as 'abc': truthy, NaN as a number, refused by the
      cast of a Number path); ObjectIds are natural numbers (only well-formed
      ids are modelled);
    - the collections are a [gmap] from [_id] to document for products and
      users, and the list of sale documents in insertion order;
    - a MongoDB session is a working copy of the database that replaces it
      on commit and is dropped otherwise;
    - of the timestamps only [createdAt] is kept ([updatedAt] is read by no
      handler); logging is left out; the text of a message is a constructor
      that carries the interpolated values. *)

From Stdlib Require Import QArith DecimalString DecimalNat Ascii String List Bool Lia.
From stdpp Require Import gmap strings list.

Local Open Scope string_scope.
Local Open Scope nat_scope.

(** ** JavaScript values and operators *)

Module JS.

Inductive num : Type :=
| Fin (q : Q)
| NaN.

Inductive jsval : Type :=
| JUndefined
| JNull
| JNum (n : num)
| JNonNumeric (text : string).

Definition number (q : Q) : jsval := JNum (Fin q).

Definition ToNumber (v : jsval) : num :=
  match v with
  | JUndefined => NaN
  | JNull => Fin 0
  | JNum n => n
  | JNonNumeric _ => NaN
  end.

Definition ToBoolean (v : jsval) : bool :=
  match v with
  | JNum (Fin q) => negb (Qeq_bool q 0)
  | JNonNumeric _ => true
  | _ => false
  end.

(** [a || b] *)
Definition or (a b : jsval) : jsval := if ToBoolean a then a else b.

(** [a ?? b] (used by the specification, not by the controller) *)
Definition nullish (a b : jsval) : jsval :=
  match a with
  | JUndefined | JNull => b
  | _ => a
  end.

Definition lift2 (f : Q -> Q -> Q) (a b : num) : num :=
  match a, b with
  | Fin x, Fin y => Fin (f x y)
  | _, _ => NaN
  end.

Definition add : num -> num -> num := lift2 Qplus.
Definition sub : num -> num -> num := lift2 Qminus.
Definition mul : num -> num -> num := lift2 Qmult.

(** [a / b]; a zero divisor gives an infinity or NaN in JavaScript and
    NaN here (the controller only ever divides by 100). *)
Definition div (a b : num) : num :=
  match a, b with
  | Fin x, Fin y => if Qeq_bool y 0 then NaN else Fin (x / y)
  | _, _ => NaN
  end.

(** [a < b] on numbers: false as soon as one side is NaN. *)
Definition lt (a b : num) : bool :=
  match a, b with
  | Fin x, Fin y => negb (Qle_bool y x)
  | _, _ => false
  end.

(** [!s] for a field that holds a string when present. *)
Definition truthy (s : option string) : bool :=
  match s with
  | Some EmptyString | None => false
  | Some _ => true
  end.

(** [n.toString()] for a non-negative integer. *)
Definition toString (n : nat) : string :=
  NilEmpty.string_of_uint (Nat.to_uint n).

Fixpoint zeros (k : nat) : string :=
  match k with
  | O => EmptyString
  | S k' => String "0"%char (zeros k')
  end.

(** [s.padStart(n, '0')] *)
Definition padStart (n : nat) (s : string) : string :=
  String.append (zeros (n - String.length s)) s.

End JS.

Import JS.

Abbreviation ObjectId := nat (only parsing).

(** A [Date], by its UTC calendar fields and the milliseconds elapsed in
    its day. *)
Record Date : Type := mkDate {
  year : nat;
  month : nat;
  dayOfMonth : nat;
  millis : N
}.

Definition date_leb (a b : Date) : bool :=
  if year a <? year b then true else if year b <? year a then false else
  if month a <? month b then true else if month b <? month a then false else
  if dayOfMonth a <? dayOfMonth b then true
  else if dayOfMonth b <? dayOfMonth a then false
  else (millis a <=? millis b)%N.

(** ** Schemas *)

(** productSchema: the paths the sale controller reads or writes. *)
Module Product.
Record t : Type := mk {
  code : string;
  name : string;
  price : Q;
  stock : Q;
  discount : jsval
}.

Definition set_stock (p : t) (s : Q) : t :=
  mk (code p) (name p) (price p) s (discount p).

(** [product.stock = v; await product.save()]: the modified path is cast
    to Number and checked against [min: 0]. *)
Definition save_stock (p : t) (v : num) : option t :=
  match v with
  | Fin s => if Qle_bool 0 s then Some (set_stock p s) else None
  | NaN => None
  end.
End Product.

(** saleItemSchema *)
Module SaleItem.
Record t : Type := mk {
  product : ObjectId;
  productCode : string;
  productName : string;
  quantity : Q;
  unitPrice : Q;
  discount : Q;
  subtotal : Q
}.
End SaleItem.

(** The object pushed on [processedItems], before Mongoose casts it. *)
Module ProcessedItem.
Record t : Type := mk {
  product : ObjectId;
  productCode : string;
  productName : string;
  quantity : jsval;
  unitPrice : Q;
  discount : jsval;
  subtotal : num
}.
End ProcessedItem.

Definition paymentMethodEnum : list string :=
  ["efectivo"; "tarjeta_credito"; "tarjeta_debito"; "transferencia"].

Definition paymentStatusEnum : list string :=
  ["pendiente"; "completado"; "cancelado"].

Definition in_enum (s : string) (enum : list string) : bool :=
  existsb (String.eqb s) enum.

(** saleSchema *)
Module Sale.
Record t : Type := mk {
  _id : ObjectId;
  saleNumber : string;
  customer : option ObjectId;
  items : list SaleItem.t;
  totalAmount : Q;
  paymentMethod : string;
  paymentStatus : string;
  seller : ObjectId;
  notes : option string;
  tax : Q;
  createdAt : Date
}.

Definition set_paymentStatus (s : t) (v : string) : t :=
  mk (_id s) (saleNumber s) (customer s) (items s) (totalAmount s)
     (paymentMethod s) v (seller s) (notes s) (tax s) (createdAt s).

Definition set_paymentMethod (s : t) (v : string) : t :=
  mk (_id s) (saleNumber s) (customer s) (items s) (totalAmount s)
     v (paymentStatus s) (seller s) (notes s) (tax s) (createdAt s).
End Sale.

(** The paths of a user document that [populate] selects. *)
Module User.
Record t : Type := mk {
  firstName : string;
  lastName : string;
  username : string
}.
End User.

(** Casting by a Number path. *)
Inductive cast : Type :=
| CastNum (q : Q)
| CastNone
| CastError.

Definition castNumber (v : jsval) : cast :=
  match v with
  | JUndefined | JNull => CastNone
  | JNum (Fin q) => CastNum q
  | JNum NaN | JNonNumeric _ => CastError
  end.

(** quantity: [{ type: Number, required: true, min: 1 }] *)
Definition validate_quantity (v : jsval) : option Q :=
  match castNumber v with
  | CastNum q => if Qle_bool 1 q then Some q else None
  | _ => None
  end.

(** unitPrice: [{ type: Number, required: true, min: 0 }] *)
Definition validate_unitPrice (q : Q) : option Q :=
  if Qle_bool 0 q then Some q else None.

(** discount: [{ type: Number, default: 0, min: 0, max: 100 }]. The
    controller never passes null or undefined here; the default stands for
    both. *)
Definition validate_discount (v : jsval) : option Q :=
  match castNumber v with
  | CastNum d => if Qle_bool 0 d && Qle_bool d 100 then Some d else None
  | CastNone => Some 0%Q
  | CastError => None
  end.

(** subtotal, totalAmount: [{ type: Number, required: true }] *)
Definition validate_required (v : num) : option Q :=
  match v with
  | Fin q => Some q
  | NaN => None
  end.

(** tax: [{ type: Number, default: 0 }] *)
Definition validate_tax (v : jsval) : option Q :=
  match castNumber v with
  | CastNum t => Some t
  | CastNone => Some 0%Q
  | CastError => None
  end.

Definition validate_item (it : ProcessedItem.t) : option SaleItem.t :=
  match validate_quantity (ProcessedItem.quantity it),
        validate_unitPrice (ProcessedItem.unitPrice it),
        validate_discount (ProcessedItem.discount it),
        validate_required (ProcessedItem.subtotal it) with
  | Some q, Some u, Some d, Some s =>
      Some (SaleItem.mk (ProcessedItem.product it)
              (ProcessedItem.productCode it) (ProcessedItem.productName it)
              q u d s)
  | _, _, _, _ => None
  end.

Fixpoint validate_items (l : list ProcessedItem.t) : option (list SaleItem.t) :=
  match l with
  | [] => Some []
  | it :: l' =>
      match validate_item it, validate_items l' with
      | Some i, Some r => Some (i :: r)
      | _, _ => None
      end
  end.

(** [new Sale({...})] followed by [save]: every path is cast and validated
    by saleSchema. *)
Definition validate_sale (_id : ObjectId) (saleNumber : string)
    (customer : option ObjectId) (items : list ProcessedItem.t)
    (totalAmount : num) (paymentMethod paymentStatus : string)
    (seller : ObjectId) (notes : option string) (tax : jsval)
    (createdAt : Date) : option Sale.t :=
  match validate_items items, validate_required totalAmount, validate_tax tax with
  | Some its, Some total, Some t =>
      if in_enum paymentMethod paymentMethodEnum
         && in_enum paymentStatus paymentStatusEnum
      then Some (Sale.mk _id saleNumber customer its total paymentMethod
                   paymentStatus seller notes t createdAt)
      else None
  | _, _, _ => None
  end.

(** ** The database and its sessions *)

Record Db : Type := mkDb {
  products : gmap ObjectId Product.t;
  sales : list Sale.t;
  users : gmap ObjectId User.t
}.

(** [Sale.findById(id)] *)
Definition findSaleById (id : ObjectId) (l : list Sale.t) : option Sale.t :=
  List.find (fun s => Sale._id s =? id) l.

(** [sale.save()] on a loaded document: the stored document with that
    [_id] is replaced. *)
Definition replaceSale (s : Sale.t) (l : list Sale.t) : list Sale.t :=
  List.map (fun s' => if Sale._id s' =? Sale._id s then s else s') l.

(** [newSale.save()]: an insertion, refused by the unique indexes on [_id]
    and on [saleNumber]. *)
Definition insertSale (s : Sale.t) (l : list Sale.t) : option (list Sale.t) :=
  if existsb (fun s' => (Sale._id s' =? Sale._id s)
                        || String.eqb (Sale.saleNumber s') (Sale.saleNumber s)) l
  then None
  else Some (l ++ [s])%list.

(** [populate('customer', ...)] and [populate('seller', ...)] *)
Module Populated.
Record t : Type := mk {
  doc : Sale.t;
  customer : option User.t;
  seller : option User.t
}.
End Populated.

Definition populate (us : gmap ObjectId User.t) (s : Sale.t) : Populated.t :=
  Populated.mk s
    (match Sale.customer s with Some c => us !! c | None => None end)
    (us !! Sale.seller s).

(** ** The documents of the statistics report *)

(** A row of [{ $group: { _id, count: { $sum: 1 }, total: { $sum: '$totalAmount' } } }] *)
Module GroupRow.
Record t : Type := mk {
  _id : string;
  count : nat;
  total : Q
}.
End GroupRow.

Module ProductRow.
Record t : Type := mk {
  productId : ObjectId;
  productName : string;
  totalQuantity : Q;
  totalAmount : Q
}.
End ProductRow.

Module DayRow.
Record t : Type := mk {
  date : string;
  count : nat;
  total : Q
}.
End DayRow.

Module Stats.
Record t : Type := mk {
  totalSales : nat;
  totalAmount : Q;
  paymentMethods : list GroupRow.t;
  paymentStatus : list GroupRow.t;
  topProducts : list ProductRow.t;
  salesByDay : list DayRow.t
}.
End Stats.

(** ** Responses *)

(** What the [catch] blocks report as [error.message]. *)
Inductive exn : Type :=
| MongooseValidationError
| MongoDuplicateKey
| JsTypeError.

(** The [message] texts of the controller. *)
Inductive Message : Type :=
| VentaSinItems                 (* La venta debe tener al menos un item *)
| MetodoPagoRequerido           (* El metodo de pago es requerido *)
| ProductoNoEncontrado (id : ObjectId)
                                (* Producto con ID ${item.product} no encontrado *)
| StockInsuficiente (name : string) (disponible : Q) (solicitado : jsval)
    (* Stock insuficiente para ${product.name}.
       Disponible: ${product.stock}, Solicitado: ${item.quantity} *)
| ErrorAlCrearVenta             (* Error al crear venta *)
| EstadoPagoRequerido           (* Se requiere el estado de pago *)
| VentaNoEncontrada             (* Venta no encontrada *)
| VentaCanceladaNoModificable   (* No se puede modificar una venta cancelada *)
| EstadoPagoActualizado         (* Estado de pago actualizado *)
| ErrorAlActualizarEstado       (* Error al actualizar estado de pago *)
| VentaYaCancelada              (* La venta ya esta cancelada *)
| VentaCanceladaExitosamente    (* Venta cancelada exitosamente *)
| ErrorAlCancelarVenta.         (* Error al cancelar venta *)

Inductive Body : Type :=
| JsonMessage (message : Message)
| JsonError (message : Message) (error : exn)
| JsonSale (sale : option Populated.t)
| JsonMessageSale (message : Message) (sale : Sale.t)
| JsonSales (sales : list Populated.t)
| JsonStats (stats : Stats.t).

(** [res.status(code).json(body)] *)
Record Response : Type := Res {
  status : nat;
  json : Body
}.

(** The outcome of a handler that runs in a session: its response, the
    working copy its reads and writes went to, and whether
    [commitTransaction] was reached. *)
Record Tx : Type := mkTx {
  response : Response;
  working : Db;
  committed : bool
}.

(** [session.endSession()]: the working copy becomes the database only if
    the transaction was committed. *)
Definition endSession (db : Db) (tx : Tx) : Response * Db :=
  (response tx, if committed tx then working tx else db).

(** ** createSale *)

Module Item.
Record t : Type := mk {
  product : ObjectId;
  quantity : jsval;
  discount : jsval
}.
End Item.

(** [req.body] of createSale *)
Module SaleData.
Record t : Type := mk {
  items : option (list Item.t);
  paymentMethod : option string;
  paymentStatus : option string;
  customer : option ObjectId;
  notes : option string;
  tax : jsval
}.
End SaleData.

(** [req.user] *)
Module Principal.
Record t : Type := mk {
  id : ObjectId;
  role : string
}.
End Principal.

(** What a request takes from outside the program: the calendar year of
    [new Date()], the timestamp Mongoose gives the new document, and the
    ObjectId generated for it. *)
Record Env : Type := mkEnv {
  getFullYear : nat;
  now : Date;
  newId : ObjectId
}.

Inductive signal : Type :=
| Continue
| Return (r : Response)
| Throw (e : exn).

Record LoopState : Type := mkLoop {
  totalAmount : num;
  processedItems : list ProcessedItem.t;
  store : gmap ObjectId Product.t
}.

(** [item.discount || product.discount || 0] *)
Definition effectiveDiscount (item : Item.t) (product : Product.t) : jsval :=
  JS.or (JS.or (Item.discount item) (Product.discount product)) (number 0).

(** [(item.quantity * product.price) * (1 - discount / 100)] *)
Definition subtotalOf (quantity : jsval) (price : Q) (discount : jsval) : num :=
  JS.mul (JS.mul (ToNumber quantity) (Fin price))
         (JS.sub (Fin 1) (JS.div (ToNumber discount) (Fin 100))).

(** One turn of the [for (const item of saleData.items)] loop. *)
Definition processItem (item : Item.t) (st : LoopState) : signal * LoopState :=
  match store st !! Item.product item with
  | None =>
      (Return (Res 404 (JsonMessage (ProductoNoEncontrado (Item.product item)))), st)
  | Some product =>
      if JS.lt (Fin (Product.stock product)) (ToNumber (Item.quantity item))
      then (Return (Res 400 (JsonMessage
                      (StockInsuficiente (Product.name product)
                         (Product.stock product) (Item.quantity item)))), st)
      else
        let discount := effectiveDiscount item product in
        let subtotal := subtotalOf (Item.quantity item) (Product.price product) discount in
        let processed :=
          ProcessedItem.mk (Item.product item) (Product.code product)
            (Product.name product) (Item.quantity item) (Product.price product)
            discount subtotal in
        let st' := mkLoop (JS.add (totalAmount st) subtotal)
                     (processedItems st ++ [processed])%list (store st) in
        match Product.save_stock product
                (JS.sub (Fin (Product.stock product)) (ToNumber (Item.quantity item))) with
        | None => (Throw MongooseValidationError, st')
        | Some product' =>
            (Continue, mkLoop (totalAmount st') (processedItems st')
                         (<[Item.product item := product']> (store st)))
        end
  end.

Fixpoint processItems (items : list Item.t) (st : LoopState) : signal * LoopState :=
  match items with
  | [] => (Continue, st)
  | item :: rest =>
      match processItem item st with
      | (Continue, st') => processItems rest st'
      | stop => stop
      end
  end.

(** [`V${year}-${(salesCount + 1).toString().padStart(3, '0')}`] *)
Definition saleNumberOf (year salesCount : nat) : string :=
  String.append "V"
    (String.append (toString year)
       (String.append "-" (padStart 3 (toString (salesCount + 1))))).

Definition createSaleTx (env : Env) (user : option Principal.t)
    (saleData : SaleData.t) (db : Db) : Tx :=
  match SaleData.items saleData with
  | None | Some [] => mkTx (Res 400 (JsonMessage VentaSinItems)) db false
  | Some items =>
      if negb (truthy (SaleData.paymentMethod saleData))
      then mkTx (Res 400 (JsonMessage MetodoPagoRequerido)) db false
      else
        let year := getFullYear env in
        let salesCount := length (sales db) in
        let saleNumber := saleNumberOf year salesCount in
        let '(sig, st) := processItems items (mkLoop (Fin 0) [] (products db)) in
        let tx := mkDb (store st) (sales db) (users db) in
        match sig with
        | Return r => mkTx r tx false
        | Throw e => mkTx (Res 500 (JsonError ErrorAlCrearVenta e)) tx false
        | Continue =>
            match user with
            | None => mkTx (Res 500 (JsonError ErrorAlCrearVenta JsTypeError)) tx false
            | Some u =>
                match validate_sale (newId env) saleNumber
                        (SaleData.customer saleData) (processedItems st)
                        (totalAmount st)
                        (default "" (SaleData.paymentMethod saleData))
                        (if truthy (SaleData.paymentStatus saleData)
                         then default "" (SaleData.paymentStatus saleData)
                         else "pendiente")
                        (Principal.id u) (SaleData.notes saleData)
                        (JS.or (SaleData.tax saleData) (number 0))
                        (now env) with
                | None =>
                    mkTx (Res 500 (JsonError ErrorAlCrearVenta MongooseValidationError))
                      tx false
                | Some newSale =>
                    match insertSale newSale (sales db) with
                    | None =>
                        mkTx (Res 500 (JsonError ErrorAlCrearVenta MongoDuplicateKey))
                          tx false
                    | Some sales' =>
                        let tx' := mkDb (store st) sales' (users db) in
                        mkTx (Res 201 (JsonSale
                                (option_map (populate (users tx'))
                                   (findSaleById (Sale._id newSale) (sales tx')))))
                          tx' true
                    end
                end
            end
        end
  end.

Definition createSale (env : Env) (user : option Principal.t)
    (saleData : SaleData.t) (db : Db) : Response * Db :=
  endSession db (createSaleTx env user saleData db).

(** ** cancelSale *)

(** One turn of the [for (const item of sale.items)] loop: the stock goes
    back to the product when it still exists. *)
Definition restoreItem (item : SaleItem.t) (ps : gmap ObjectId Product.t)
    : signal * gmap ObjectId Product.t :=
  match ps !! SaleItem.product item with
  | Some product =>
      match Product.save_stock product
              (JS.add (Fin (Product.stock product)) (Fin (SaleItem.quantity item))) with
      | Some product' => (Continue, <[SaleItem.product item := product']> ps)
      | None => (Throw MongooseValidationError, ps)
      end
  | None => (Continue, ps)
  end.

Fixpoint restoreItems (items : list SaleItem.t) (ps : gmap ObjectId Product.t)
    : signal * gmap ObjectId Product.t :=
  match items with
  | [] => (Continue, ps)
  | item :: rest =>
      match restoreItem item ps with
      | (Continue, ps') => restoreItems rest ps'
      | stop => stop
      end
  end.

Definition cancelSaleTx (saleId : ObjectId) (db : Db) : Tx :=
  match findSaleById saleId (sales db) with
  | None => mkTx (Res 404 (JsonMessage VentaNoEncontrada)) db false
  | Some sale =>
      if String.eqb (Sale.paymentStatus sale) "cancelado"
      then mkTx (Res 400 (JsonMessage VentaYaCancelada)) db false
      else
        let '(sig, ps) := restoreItems (Sale.items sale) (products db) in
        let tx := mkDb ps (sales db) (users db) in
        match sig with
        | Return r => mkTx r tx false
        | Throw e => mkTx (Res 500 (JsonError ErrorAlCancelarVenta e)) tx false
        | Continue =>
            let sale' := Sale.set_paymentStatus sale "cancelado" in
            mkTx (Res 200 (JsonMessageSale VentaCanceladaExitosamente sale'))
              (mkDb ps (replaceSale sale' (sales db)) (users db)) true
        end
  end.

Definition cancelSale (saleId : ObjectId) (db : Db) : Response * Db :=
  endSession db (cancelSaleTx saleId db).

(** ** updatePaymentStatus *)

(** The handler runs without a session. [sale.save()] validates the paths
    that were assigned; the paths left as loaded were validated when the
    document was stored. *)
Definition updatePaymentStatus (saleId : ObjectId)
    (paymentStatus paymentMethod : option string) (db : Db) : Response * Db :=
  if negb (truthy paymentStatus)
  then (Res 400 (JsonMessage EstadoPagoRequerido), db)
  else
    match findSaleById saleId (sales db) with
    | None => (Res 404 (JsonMessage VentaNoEncontrada), db)
    | Some sale =>
        if String.eqb (Sale.paymentStatus sale) "cancelado"
        then (Res 400 (JsonMessage VentaCanceladaNoModificable), db)
        else
          let sale1 := Sale.set_paymentStatus sale (default "" paymentStatus) in
          let '(sale2, methodOk) :=
            if truthy paymentMethod
            then (Sale.set_paymentMethod sale1 (default "" paymentMethod),
                  in_enum (default "" paymentMethod) paymentMethodEnum)
            else (sale1, true) in
          if in_enum (Sale.paymentStatus sale2) paymentStatusEnum && methodOk
          then (Res 200 (JsonMessageSale EstadoPagoActualizado sale2),
                mkDb (products db) (replaceSale sale2 (sales db)) (users db))
          else (Res 500 (JsonError ErrorAlActualizarEstado MongooseValidationError), db)
    end.

(** ** Query filters *)

Inductive cond : Type :=
| Eq (v : string)
| Ne (v : string)          (* { $ne: v } *)
| Exists.                  (* { $exists: true } *)

Module Filters.
Record t : Type := mk {
  gte : option Date;                (* createdAt.$gte *)
  lte : option Date;                (* createdAt.$lte *)
  paymentStatus : option cond;
  paymentMethod : option string;
  customer : option ObjectId;
  seller : option ObjectId
}.

Definition empty : t := mk None None None None None None.

Definition set_gte (f : t) (d : Date) : t :=
  mk (Some d) (lte f) (paymentStatus f) (paymentMethod f) (customer f) (seller f).
Definition set_lte (f : t) (d : Date) : t :=
  mk (gte f) (Some d) (paymentStatus f) (paymentMethod f) (customer f) (seller f).
Definition set_paymentStatus (f : t) (c : cond) : t :=
  mk (gte f) (lte f) (Some c) (paymentMethod f) (customer f) (seller f).
Definition set_paymentMethod (f : t) (m : string) : t :=
  mk (gte f) (lte f) (paymentStatus f) (Some m) (customer f) (seller f).
Definition set_customer (f : t) (c : ObjectId) : t :=
  mk (gte f) (lte f) (paymentStatus f) (paymentMethod f) (Some c) (seller f).
Definition set_seller (f : t) (u : ObjectId) : t :=
  mk (gte f) (lte f) (paymentStatus f) (paymentMethod f) (customer f) (Some u).
End Filters.

Definition holds_opt {A : Type} (o : option A) (p : A -> bool) : bool :=
  match o with
  | Some a => p a
  | None => true
  end.

Definition holds_cond (c : cond) (v : string) : bool :=
  match c with
  | Eq w => String.eqb v w
  | Ne w => negb (String.eqb v w)
  | Exists => true
  end.

(** Whether a sale document matches a filter object. *)
Definition matches (f : Filters.t) (s : Sale.t) : bool :=
  holds_opt (Filters.gte f) (fun d => date_leb d (Sale.createdAt s))
  && holds_opt (Filters.lte f) (fun d => date_leb (Sale.createdAt s) d)
  && holds_opt (Filters.paymentStatus f) (fun c => holds_cond c (Sale.paymentStatus s))
  && holds_opt (Filters.paymentMethod f) (fun m => String.eqb (Sale.paymentMethod s) m)
  && holds_opt (Filters.customer f)
       (fun c => match Sale.customer s with Some c' => c' =? c | None => false end)
  && holds_opt (Filters.seller f) (fun u => Sale.seller s =? u).

(** [req.query]; the dates are the values of [new Date(...)]. *)
Module Query.
Record t : Type := mk {
  startDate : option Date;
  endDate : option Date;
  paymentStatus : option string;
  paymentMethod : option string;
  customerId : option ObjectId;
  sellerId : option ObjectId
}.
End Query.

(** [if (c) f = g(f, v)] for an optional query parameter. *)
Definition when {A : Type} (o : option A) (g : Filters.t -> A -> Filters.t)
    (f : Filters.t) : Filters.t :=
  match o with
  | Some a => g f a
  | None => f
  end.

Definition when_str (o : option string) (g : Filters.t -> string -> Filters.t)
    (f : Filters.t) : Filters.t :=
  if truthy o then g f (default "" o) else f.

(** [if (req.user && req.user.role !== 'admin') filters.seller = req.user.id] *)
Definition restrictToUser (user : option Principal.t) (f : Filters.t) : Filters.t :=
  match user with
  | Some u =>
      if negb (String.eqb (Principal.role u) "admin")
      then Filters.set_seller f (Principal.id u)
      else f
  | None => f
  end.

(** Stable sorting by insertion; [le a b] says that [a] may come first. *)
Fixpoint insertBy {A : Type} (le : A -> A -> bool) (a : A) (l : list A) : list A :=
  match l with
  | [] => [a]
  | b :: l' => if le a b then a :: b :: l' else b :: insertBy le a l'
  end.

Definition sortBy {A : Type} (le : A -> A -> bool) (l : list A) : list A :=
  fold_right (insertBy le) [] l.

(** ** getAllSales *)

Definition allSalesFilters (user : option Principal.t) (q : Query.t) : Filters.t :=
  let filters := Filters.empty in
  let filters := when (Query.startDate q) Filters.set_gte filters in
  let filters := when (Query.endDate q) Filters.set_lte filters in
  let filters := when_str (Query.paymentStatus q)
                   (fun f v => Filters.set_paymentStatus f (Eq v)) filters in
  let filters := when_str (Query.paymentMethod q) Filters.set_paymentMethod filters in
  let filters := when (Query.customerId q) Filters.set_customer filters in
  let filters := when (Query.sellerId q) Filters.set_seller filters in
  restrictToUser user filters.

Definition getAllSales (user : option Principal.t) (q : Query.t) (db : Db) : Response :=
  let found := List.filter (matches (allSalesFilters user q)) (sales db) in
  let sorted := sortBy (fun a b => date_leb (Sale.createdAt b) (Sale.createdAt a)) found in
  Res 200 (JsonSales (List.map (populate (users db)) sorted)).

(** ** getSalesStats *)

(** [{ $sum: ... }] over the documents of a group *)
Definition sumQ (l : list Q) : Q := fold_left Qplus l 0%Q.

(** [$group]: the documents are gathered by key; a group keeps the place of
    its first document (MongoDB leaves the order of groups open). *)
Fixpoint addToGroup {K A : Type} (eqb : K -> K -> bool) (k : K) (a : A)
    (gs : list (K * list A)) : list (K * list A) :=
  match gs with
  | [] => [(k, [a])]
  | (k', g) :: gs' =>
      if eqb k k' then (k', (g ++ [a])%list) :: gs'
      else (k', g) :: addToGroup eqb k a gs'
  end.

Definition groupBy {K A : Type} (eqb : K -> K -> bool) (key : A -> K)
    (l : list A) : list (K * list A) :=
  fold_left (fun gs a => addToGroup eqb (key a) a gs) l [].

(** [{ $match: f }] on the Sale collection *)
Definition aggregateMatch (f : Filters.t) (db : Db) : list Sale.t :=
  List.filter (matches f) (sales db).

(** [{ $group: { _id: key, count: { $sum: 1 }, total: { $sum: '$totalAmount' } } }] *)
Definition groupRows (key : Sale.t -> string) (l : list Sale.t) : list GroupRow.t :=
  List.map (fun kg => GroupRow.mk (fst kg) (length (snd kg))
                        (sumQ (List.map Sale.totalAmount (snd kg))))
    (groupBy String.eqb key l).

Definition productKey_eqb (a b : ObjectId * string) : bool :=
  (fst a =? fst b) && String.eqb (snd a) (snd b).

(** [$unwind: '$items'] then [$group] by product id and name *)
Definition productRows (l : list Sale.t) : list ProductRow.t :=
  List.map (fun kg => ProductRow.mk (fst (fst kg)) (snd (fst kg))
                        (sumQ (List.map SaleItem.quantity (snd kg)))
                        (sumQ (List.map SaleItem.subtotal (snd kg))))
    (groupBy productKey_eqb
       (fun it => (SaleItem.product it, SaleItem.productName it))
       (List.flat_map Sale.items l)).

Definition dayKey : Type := nat * nat * nat.

Definition dayKey_eqb (a b : dayKey) : bool :=
  let '(y, m, d) := a in
  let '(y', m', d') := b in
  (y =? y') && (m =? m') && (d =? d').

(** [$sort: { '_id.year': -1, '_id.month': -1, '_id.day': -1 }] *)
Definition dayKey_geb (a b : dayKey) : bool :=
  let '(y, m, d) := a in
  let '(y', m', d') := b in
  if y' <? y then true else if y <? y' then false else
  if m' <? m then true else if m <? m' then false else
  d' <=? d.

Definition dayGroups (l : list Sale.t) : list (dayKey * nat * Q) :=
  List.map (fun kg => (fst kg, length (snd kg),
                        sumQ (List.map Sale.totalAmount (snd kg))))
    (groupBy dayKey_eqb
       (fun s => (year (Sale.createdAt s), month (Sale.createdAt s),
                  dayOfMonth (Sale.createdAt s)))
       l).

(** [`${year}-${month.padStart(2, '0')}-${day.padStart(2, '0')}`] *)
Definition formatDay (k : dayKey) : string :=
  let '(y, m, d) := k in
  String.append (toString y)
    (String.append "-"
       (String.append (padStart 2 (toString m))
          (String.append "-" (padStart 2 (toString d))))).

Definition statsFilters (user : option Principal.t) (q : Query.t) : Filters.t :=
  let filters := Filters.set_paymentStatus Filters.empty (Ne "cancelado") in
  let filters := when (Query.startDate q) Filters.set_gte filters in
  let filters := when (Query.endDate q) Filters.set_lte filters in
  restrictToUser user filters.

Definition salesStats (user : option Principal.t) (q : Query.t) (db : Db) : Stats.t :=
  let filters := statsFilters user q in
  let totalSales := length (aggregateMatch filters db) in
  let totalAmountResult :=
    match aggregateMatch filters db with
    | [] => []
    | l => [sumQ (List.map Sale.totalAmount l)]
    end in
  let totalAmount :=
    match totalAmountResult with
    | r :: _ => r
    | [] => 0%Q
    end in
  let paymentMethodStats :=
    sortBy (fun a b => Qle_bool (GroupRow.total b) (GroupRow.total a))
      (groupRows Sale.paymentMethod (aggregateMatch filters db)) in
  (* { ...filters, paymentStatus: { $exists: true } } *)
  let paymentStatusStats :=
    groupRows Sale.paymentStatus
      (aggregateMatch (Filters.set_paymentStatus filters Exists) db) in
  let topProducts :=
    firstn 5
      (sortBy (fun a b => Qle_bool (ProductRow.totalQuantity b) (ProductRow.totalQuantity a))
         (productRows (aggregateMatch filters db))) in
  let salesByDay :=
    firstn 30
      (sortBy (fun a b => dayKey_geb (fst (fst a)) (fst (fst b)))
         (dayGroups (aggregateMatch filters db))) in
  let formattedSalesByDay :=
    List.map (fun day => DayRow.mk (formatDay (fst (fst day))) (snd (fst day)) (snd day))
      salesByDay in
  Stats.mk totalSales totalAmount paymentMethodStats paymentStatusStats
    topProducts formattedSalesByDay.

Definition getSalesStats (user : option Principal.t) (q : Query.t) (db : Db) : Response :=
  Res 200 (JsonStats (salesStats user q db)).

(** ** Vocabulary of the statements *)

Definition cancelled (s : Sale.t) : bool :=
  String.eqb (Sale.paymentStatus s) "cancelado".


(** Two product documents that differ at most in their stock. *)
Definition same_but_stock (p p' : Product.t) : Prop :=
  Product.code p' = Product.code p /\ Product.name p' = Product.name p
  /\ Product.price p' = Product.price p /\ Product.discount p' = Product.discount p.

(** Between two states of the Product collection, the stock of product [id]
    moved by [delta] and nothing else changed in it; a product that was
    absent stays absent. *)
Definition stock_moved (ps ps' : gmap ObjectId Product.t) (id : ObjectId)
    (delta : Q) : Prop :=
  match ps !! id with
  | Some p =>
      exists p', ps' !! id = Some p' /\ same_but_stock p p'
                 /\ (Product.stock p' == Product.stock p + delta)%Q
  | None => ps' !! id = None
  end.

(** The quantity the line items of a sale hold of product [id]. *)
Definition quantityOf (id : ObjectId) (lines : list SaleItem.t) : Q :=
  sumQ (List.map SaleItem.quantity
          (List.filter (fun l => SaleItem.product l =? id) lines)).

(** A stored line item is the snapshot of a requested item. *)
Definition line_of (db : Db) (item : Item.t) (line : SaleItem.t) : Prop :=
  exists p,
    products db !! Item.product item = Some p
    /\ SaleItem.product line = Item.product item
    /\ SaleItem.productCode line = Product.code p
    /\ SaleItem.productName line = Product.name p
    /\ Item.quantity item = number (SaleItem.quantity line)
    /\ SaleItem.unitPrice line = Product.price p
    /\ effectiveDiscount item p = number (SaleItem.discount line)
    /\ SaleItem.subtotal line
       = (SaleItem.quantity line * SaleItem.unitPrice line
          * (1 - SaleItem.discount line / 100))%Q.




(** What the schemas guarantee of the stored documents that cancelSale
    reads: no negative stock, no negative quantity. *)
Definition schema_ok (db : Db) : Prop :=
  map_Forall (fun _ p => Qle_bool 0 (Product.stock p) = true) (products db)
  /\ Forall (fun s => Forall (fun it => Qle_bool 0 (SaleItem.quantity it) = true)
                        (Sale.items s))
       (sales db).

(** Two queries that differ at most in their [sellerId] parameter. *)
Definition same_but_sellerId (q1 q2 : Query.t) : Prop :=
  Query.startDate q1 = Query.startDate q2
  /\ Query.endDate q1 = Query.endDate q2
  /\ Query.paymentStatus q1 = Query.paymentStatus q2
  /\ Query.paymentMethod q1 = Query.paymentMethod q2
  /\ Query.customerId q1 = Query.customerId q2.

(** ** Vocabulary of the proofs about the item loop *)

(** The numeric value the loop reads in a requested quantity. *)
Definition qtyOf (item : Item.t) : Q :=
  match ToNumber (Item.quantity item) with
  | Fin q => q
  | NaN => 0%Q
  end.

(** The working copy holds the products of [ps0], up to their stock. *)
Definition tracks (ps0 ps : gmap ObjectId Product.t) : Prop :=
  forall id,
    match ps0 !! id with
    | Some p => exists p', ps !! id = Some p' /\ same_but_stock p p'
    | None => ps !! id = None
    end.

(** The object the loop pushes for a requested item. *)
Definition proc_of (ps0 : gmap ObjectId Product.t) (item : Item.t)
    (pit : ProcessedItem.t) : Prop :=
  exists p,
    ps0 !! Item.product item = Some p
    /\ pit = ProcessedItem.mk (Item.product item) (Product.code p) (Product.name p)
               (Item.quantity item) (Product.price p) (effectiveDiscount item p)
               (subtotalOf (Item.quantity item) (Product.price p)
                  (effectiveDiscount item p)).

(** The quantity the requested items hold of product [id]. *)
Definition requestedOf (id : ObjectId) (its : list Item.t) : Q :=
  sumQ (List.map qtyOf (List.filter (fun it => Item.product it =? id) its)).

(** ** Example data *)

(** Products of the seed data of the repository. *)
Definition leche : Product.t :=
  Product.mk "P001" "Leche Deslactosada" 1200 50 (number 0).
Definition pan : Product.t := Product.mk "P002" "Pan Blanco" 950 30 (number 0).
Definition detergente : Product.t :=
  Product.mk "P003" "Detergente Liquido" 1500 45 (number 5).
Definition arroz : Product.t := Product.mk "P005" "Arroz Premium" 1800 5 (number 0).

Definition empleado : Principal.t := Principal.mk 7 "employee".
Definition otroEmpleado : Principal.t := Principal.mk 8 "employee".

Definition db0 : Db :=
  mkDb (<[1 := leche]> (<[2 := pan]> (<[3 := detergente]> (<[5 := arroz]> ∅))))
    []
    (<[7 := User.mk "Ana" "Rojas" "arojas"]> ∅).

Definition env0 : Env := mkEnv 2024 (mkDate 2024 5 17 36000000) 100.
Definition env1 : Env := mkEnv 2024 (mkDate 2024 5 18 36000000) 101.

Definition order (items : list Item.t) (paymentStatus : option string) : SaleData.t :=
  SaleData.mk (Some items) (Some "efectivo") paymentStatus None None JUndefined.

(** Two units of product 1 and one of product 2, no discount. *)
Definition order0 : SaleData.t :=
  order [Item.mk 1 (number 2) JUndefined; Item.mk 2 (number 1) JUndefined] None.

(** Two units of product 1, then ten of product 5, which has five. *)
Definition orderShort : SaleData.t :=
  order [Item.mk 1 (number 2) JUndefined; Item.mk 5 (number 10) JUndefined] None.

(** Two units of product 1, then a quantity that is not a number. *)
Definition orderText : SaleData.t :=
  order [Item.mk 1 (number 2) JUndefined; Item.mk 2 (JNonNumeric "abc") JUndefined] None.

(** Three units of product 3 (configured discount 5) with a discount of 0
    asked for the item, the line the seed data stores with subtotal
    3 * 1500. *)
Definition orderZeroDiscount : SaleData.t :=
  order [Item.mk 3 (number 3) (number 0)] None.

(** The database after [order0] was sold. *)
Definition db1 : Db := snd (createSale env0 (Some empleado) order0 db0).

(** The database after a second sale, by another seller. *)
Definition db2 : Db := snd (createSale env1 (Some otroEmpleado) order0 db1).

Definition noQuery : Query.t := Query.mk None None None None None None.

Definition admin : Principal.t := Principal.mk 1 "admin".





(** ** Vocabulary of the proofs about sale numbers *)

(** No character of the string is the dash that separates the year from
    the sequence. *)
Fixpoint noDash (s : string) : bool :=
  match s with
  | EmptyString => true
  | String c s' => negb (Ascii.eqb c "-"%char) && noDash s'
  end.

(** The number a string of decimal digits reads as. *)
Definition valueOf (s : string) : option nat :=
  option_map Nat.of_uint (NilEmpty.uint_of_string s).



(** * The code around the sale engine *)

From Stdlib Require Import Lqa Permutation Sorted.

(** ** adjustStock (product controller) *)

(** The [message] texts of adjustStock. *)
Inductive StockMessage : Type :=
| CantidadInvalida            (* Se requiere una cantidad valida *)
| ProductoInexistente         (* Producto no encontrado *)
| StockInsuficienteOperacion  (* Stock insuficiente para realizar esta operacion *)
| OperacionInvalida           (* Operacion invalida. Valores permitidos: add, subtract, set *)
| StockActualizado            (* Stock actualizado correctamente *)
| ErrorAlAjustarStock.        (* Error al ajustar stock *)

Inductive StockBody : Type :=
| StockJson (message : StockMessage)
| StockJsonProduct (message : StockMessage) (product : Product.t)
| StockJsonError (message : StockMessage) (error : exn).

Record StockResponse : Type := StockRes {
  stockStatus : nat;
  stockJson : StockBody
}.

(** [isNaN(Number(v))] *)
Definition isNaN (n : num) : bool :=
  match n with
  | NaN => true
  | Fin _ => false
  end.

Definition isUndefined (v : jsval) : bool :=
  match v with
  | JUndefined => true
  | _ => false
  end.

(** [const { quantity, operation = 'add' } = req.body], with [None] for an
    absent operation. *)
Definition adjustStock (productId : ObjectId) (quantity : jsval)
    (operation : option string) (db : Db) : StockResponse * Db :=
  let operation := default "add" operation in
  if isUndefined quantity || isNaN (ToNumber quantity)
  then (StockRes 400 (StockJson CantidadInvalida), db)
  else
    match products db !! productId with
    | None => (StockRes 404 (StockJson ProductoInexistente), db)
    | Some product =>
        let save newStock :=
          match Product.save_stock product newStock with
          | Some product' =>
              (StockRes 200 (StockJsonProduct StockActualizado product'),
               mkDb (<[productId := product']> (products db)) (sales db) (users db))
          | None =>
              (StockRes 500 (StockJsonError ErrorAlAjustarStock MongooseValidationError),
               db)
          end in
        if String.eqb operation "add"
        then save (JS.add (Fin (Product.stock product)) (ToNumber quantity))
        else if String.eqb operation "subtract"
        then
          let newStock := JS.sub (Fin (Product.stock product)) (ToNumber quantity) in
          if JS.lt newStock (Fin 0)
          then (StockRes 400 (StockJson StockInsuficienteOperacion), db)
          else save newStock
        else if String.eqb operation "set"
        then save (ToNumber quantity)
        else (StockRes 400 (StockJson OperacionInvalida), db)
    end.

(** ** Sequences of requests *)




(** ** Example data for the code around the sale engine *)



(** A request for a payment method the schema does not list, and one for
    minus three units. *)
Definition orderBitcoin : SaleData.t :=
  SaleData.mk (Some [Item.mk 1 (number 2) JUndefined]) (Some "bitcoin") None None None
    JUndefined.

Definition orderNegative : SaleData.t :=
  order [Item.mk 1 (number (-3)) JUndefined] None.

(** ** getSaleById (sale controller) *)

(** [populate('customer', 'firstName lastName username email')] and
    [populate('seller', 'firstName lastName username')]: the customer comes
    with its email, a path of the user documents that no other sale handler
    selects and that is read here from [emails]. *)
Module SaleDetail.
Record t : Type := mk {
  doc : Sale.t;
  customer : option (User.t * option string);
  seller : option User.t
}.
End SaleDetail.

Definition populateDetail (emails : gmap ObjectId string)
    (us : gmap ObjectId User.t) (s : Sale.t) : SaleDetail.t :=
  SaleDetail.mk s
    (match Sale.customer s with
     | Some c => match us !! c with
                 | Some u => Some (u, emails !! c)
                 | None => None
                 end
     | None => None
     end)
    (us !! Sale.seller s).

Inductive DetailBody : Type :=
| DetailSale (sale : SaleDetail.t)
| DetailMessage (message : Message).

Record DetailResponse : Type := DetailRes {
  detailStatus : nat;
  detailJson : DetailBody
}.

Definition getSaleById (emails : gmap ObjectId string) (saleId : ObjectId)
    (db : Db) : DetailResponse :=
  match findSaleById saleId (sales db) with
  | None => DetailRes 404 (DetailMessage VentaNoEncontrada)
  | Some sale => DetailRes 200 (DetailSale (populateDetail emails (users db) sale))
  end.

(** The sales a getAllSales answer lists. *)
Definition salesOf (r : Response) : list Populated.t :=
  match json r with
  | JsonSales l => l
  | _ => []
  end.

(** The report a getSalesStats answer holds. *)
Definition statsOf (r : Response) : option Stats.t :=
  match json r with
  | JsonStats s => Some s
  | _ => None
  end.


(** The ledger of the sales of one seller. *)
Definition ownSales (u : ObjectId) (db : Db) : Db :=
  mkDb (products db) (List.filter (fun s => Sale.seller s =? u) (sales db)) (users db).

(** The calendar day a sale was created on. *)
Definition dayOf (s : Sale.t) : dayKey :=
  (year (Sale.createdAt s), month (Sale.createdAt s), dayOfMonth (Sale.createdAt s)).

(** The row of the series by day for one day. *)
Definition dayRow (l : list Sale.t) (day : dayKey) : DayRow.t :=
  DayRow.mk (formatDay day)
    (length (List.filter (fun s => dayKey_eqb (dayOf s) day) l))
    (sumQ (List.map Sale.totalAmount (List.filter (fun s => dayKey_eqb (dayOf s) day) l))).

(** ** The authentication middleware *)

(** The headers the middleware reads. *)
Module Headers.
Record t : Type := mk {
  x_api_key : option string;
  x_access_token : option string;
  authorization : option string
}.
End Headers.

Definition validApiKeys : list string :=
  ["sk_test_supermercado123"; "sk_prod_supermercado456"].

(** The [message] texts of the middleware. *)
Inductive AuthMessage : Type :=
| TokenNoProporcionado    (* Acceso denegado: Token no proporcionado *)
| TokenInvalido           (* Token invalido o expirado *)
| ApiKeyNoProporcionada   (* Acceso denegado: API key no proporcionada *)
| ApiKeyInvalida          (* API key invalida *)
| SeRequiereAutenticacion.
    (* Acceso denegado: Se requiere autenticacion (token JWT o API key) *)

(** What a middleware does with a request: it answers it, or it calls
    [next()] with [req.user] as it left it. *)
Inductive passage : Type :=
| Answered (status : nat) (message : AuthMessage)
| Next (user : option Principal.t).

(** [a || b] on two strings that may be undefined *)
Definition orString (a b : option string) : option string :=
  if truthy a then a else b.

(** [token.startsWith('Bearer ') ? token.slice(7) : token] *)
Definition tokenValue (token : string) : string :=
  if String.prefix "Bearer " token
  then String.substring 7 (String.length token - 7) token
  else token.

(** The middleware, for a [jwt.verify] that gives the decoded payload or
    throws ([None]) and for the value of [process.env.JWT_SECRET]. *)
Section Auth.

Variable jwtVerify : string -> string -> option Principal.t.
Variable JWT_SECRET : option string.

Definition verifyToken (headers : Headers.t) : passage :=
  let token := orString (Headers.x_access_token headers) (Headers.authorization headers) in
  if negb (truthy token)
  then Answered 401 TokenNoProporcionado
  else
    match jwtVerify (tokenValue (default "" token))
            (default "" (orString JWT_SECRET (Some "supermercado_secret_key"))) with
    | Some decoded => Next (Some decoded)
    | None => Answered 401 TokenInvalido
    end.

Definition verifyApiKey (headers : Headers.t) : passage :=
  let apiKey := Headers.x_api_key headers in
  if negb (truthy apiKey)
  then Answered 401 ApiKeyNoProporcionada
  else if negb (existsb (String.eqb (default "" apiKey)) validApiKeys)
  then Answered 401 ApiKeyInvalida
  else Next None.

Definition verifyAuth (headers : Headers.t) : passage :=
  let apiKey := Headers.x_api_key headers in
  let token := orString (Headers.x_access_token headers) (Headers.authorization headers) in
  if truthy apiKey then verifyApiKey headers
  else if truthy token then verifyToken headers
  else Answered 401 SeRequiereAutenticacion.

(** ** The sale routes *)

(** The routes of [/api/sales], all behind [router.use(verifyAuth)]. *)
Inductive saleRoute : Type :=
| GetSales (q : Query.t)                      (* GET / *)
| GetStats (q : Query.t)                      (* GET /stats *)
| GetSale (saleId : ObjectId)                 (* GET /:id *)
| PostSale (body : SaleData.t)                (* POST / *)
| PutPaymentStatus (saleId : ObjectId) (paymentStatus paymentMethod : option string)
                                              (* PUT /:id/payment-status *)
| PostCancel (saleId : ObjectId).             (* POST /:id/cancel *)

Inductive routed : Type :=
| Denied (status : nat) (message : AuthMessage)
| Reply (r : Response)
| ReplyDetail (r : DetailResponse).

Definition saleRouter (env : Env) (emails : gmap ObjectId string)
    (headers : Headers.t) (route : saleRoute) (db : Db) : routed * Db :=
  match verifyAuth headers with
  | Answered status message => (Denied status message, db)
  | Next user =>
      match route with
      | GetSales q => (Reply (getAllSales user q db), db)
      | GetStats q => (Reply (getSalesStats user q db), db)
      | GetSale saleId => (ReplyDetail (getSaleById emails saleId db), db)
      | PostSale body =>
          let '(r, db') := createSale env user body db in (Reply r, db')
      | PutPaymentStatus saleId ps pm =>
          let '(r, db') := updatePaymentStatus saleId ps pm db in (Reply r, db')
      | PostCancel saleId =>
          let '(r, db') := cancelSale saleId db in (Reply r, db')
      end
  end.

End Auth.

(** A [jwt.verify] for the examples: the token is the name of the user. *)
Definition jwtExample (token secret : string) : option Principal.t :=
  if String.eqb token "ana" then Some empleado
  else if String.eqb token "root" then Some admin
  else None.

(** The routes that only read. *)
Definition isRead (route : saleRoute) : bool :=
  match route with
  | GetSales _ | GetStats _ | GetSale _ => true
  | PostSale _ | PutPaymentStatus _ _ _ | PostCancel _ => false
  end.

(** The token that [login] and [register] issue:
    [jwt.sign({ id, username, role }, process.env.JWT_SECRET ||
    'supermercado-jwt-secret', { expiresIn: '24h' })]. *)
Definition issueToken (jwtSign : Principal.t -> string -> string)
    (JWT_SECRET : option string) (user : Principal.t) : string :=
  jwtSign user (default "" (orString JWT_SECRET (Some "supermercado-jwt-secret"))).

(** Signatures for the examples: a token is its secret, a dot and the name
    of the user. *)
Definition signExample (user : Principal.t) (secret : string) : string :=
  String.append secret
    (String.append "." (if String.eqb (Principal.role user) "admin" then "root" else "ana")).

Definition verifyExample (token secret : string) : option Principal.t :=
  if String.eqb token (String.append secret ".ana") then Some empleado
  else if String.eqb token (String.append secret ".root") then Some admin
  else None.

Definition noHeaders : Headers.t := Headers.mk None None None.

(** ** The response middleware: transformIds *)

(** The values that reach [res.json]: primitives, bson ObjectIds, Dates,
    arrays, plain objects with their own enumerable properties in order, and
    Mongoose documents, given by the plain object that [toObject()] returns. *)
#[warnings="-register-all"] Inductive value : Type :=
| VUndefined
| VNull
| VBool (b : bool)
| VNumber (n : num)
| VString (s : string)
| VObjectId (id : ObjectId)
| VDate (d : Date)
| VArray (items : list value)
| VObject (props : list (string * value))
| VDocument (props : list (string * value)).

(** [typeof v === 'object' && v !== null] *)
Definition isObject (v : value) : bool :=
  match v with
  | VObjectId _ | VDate _ | VArray _ | VObject _ | VDocument _ => true
  | _ => false
  end.

(** [v !== undefined] is [negb (isUndefinedValue v)] *)
Definition isUndefinedValue (v : value) : bool :=
  match v with
  | VUndefined => true
  | _ => false
  end.

(** The truth value of [v] in a condition. *)
Definition truthyValue (v : value) : bool :=
  match v with
  | VUndefined | VNull => false
  | VBool b => b
  | VNumber NaN => false
  | VNumber (Fin q) => negb (Qeq_bool q 0)
  | VString s => negb (String.eqb s "")
  | _ => true
  end.

(** [obj[k]]: [undefined] when the property is missing *)
Fixpoint lookupProp (k : string) (props : list (string * value)) : value :=
  match props with
  | [] => VUndefined
  | (k', v) :: rest => if String.eqb k k' then v else lookupProp k rest
  end.

(** [obj[k] = v]: an existing property keeps its place, a new one goes last *)
Fixpoint setProp (k : string) (v : value) (props : list (string * value))
    : list (string * value) :=
  match props with
  | [] => [(k, v)]
  | (k', v') :: rest =>
      if String.eqb k k' then (k', v) :: rest else (k', v') :: setProp k v rest
  end.

(** [delete obj[k]] *)
Definition deleteProp (k : string) (props : list (string * value))
    : list (string * value) :=
  List.filter (fun kv => negb (String.eqb k (fst kv))) props.

(** The properties that the recursion leaves alone. *)
Definition skipKey (k : string) : bool :=
  String.eqb k "$__" || String.eqb k "schema" || String.eqb k "errors".

(** [v._bsontype === 'ObjectId'] for the properties of a plain object *)
Definition bsonObjectId (props : list (string * value)) : bool :=
  match lookupProp "_bsontype" props with
  | VString s => String.eqb s "ObjectId"
  | _ => false
  end.

(** The nesting of a value: what the recursion of [transformIds] can go
    through. *)
Fixpoint depth (v : value) : nat :=
  match v with
  | VArray items => S (list_max (List.map depth items))
  | VObject props | VDocument props =>
      S (list_max (List.map (fun kv => let '(_, v') := kv in depth v') props))
  | _ => 0
  end.

Section TransformIds.

(** [x.toString()] of an object [x] *)
Variable toStringOf : value -> string.

(** The copy [{ ...data }] with [_id] turned into [id]. *)
Definition withId (props : list (string * value)) : list (string * value) :=
  let _id := lookupProp "_id" props in
  if negb (isUndefinedValue _id)
  then
    let transformed :=
      setProp "id" (if isObject _id then VString (toStringOf _id) else _id) props in
    if negb (truthyValue (lookupProp "$__" transformed))
       && negb (truthyValue (lookupProp "schema" transformed))
    then deleteProp "_id" transformed
    else transformed
  else props.

(** One call of [transformIds], the calls on the parts being [rec]. *)
Definition transformStep (rec : value -> value) (data : value) : value :=
  match data with
  | VArray items => VArray (List.map rec items)
  | VObject props | VDocument props =>
      if bsonObjectId props
      then VString (toStringOf (VObject props))
      else
        VObject
          (List.map
             (fun kv =>
                let '(key, v) := kv in
                if negb (skipKey key) && isObject v then (key, rec v) else (key, v))
             (withId props))
  | VObjectId _ => VString (toStringOf data)
  | VDate _ => VObject []
  | _ => data
  end.

(** The recursion goes through the properties of the copy, which are not
    parts of [data] as written; it is bounded by the nesting of [data]. *)
Fixpoint transformIdsWithin (n : nat) (data : value) : value :=
  match n with
  | O => data
  | S n' => transformStep (transformIdsWithin n') data
  end.

Definition transformIds (data : value) : value :=
  transformIdsWithin (S (depth data)) data.

End TransformIds.

(** ** Vocabulary for [transformIds] *)

(** What a client can read: outside the properties [$__], [schema] and
    [errors] no ObjectId, no Date and no Mongoose document, and an [_id]
    only in an object that has a true [$__] or [schema]. *)
Fixpoint plain (v : value) : bool :=
  match v with
  | VObjectId _ | VDate _ | VDocument _ => false
  | VArray items => forallb plain items
  | VObject props =>
      (isUndefinedValue (lookupProp "_id" props)
       || truthyValue (lookupProp "$__" props)
       || truthyValue (lookupProp "schema" props))
      && forallb (fun kv => let '(key, v') := kv in skipKey key || plain v') props
  | _ => true
  end.

(** No object of the value has a true [$__] or [schema], the marks of a
    Mongoose document that was not turned into a plain object. *)
Fixpoint noInternals (v : value) : bool :=
  match v with
  | VArray items => forallb noInternals items
  | VObject props | VDocument props =>
      negb (truthyValue (lookupProp "$__" props))
      && negb (truthyValue (lookupProp "schema" props))
      && forallb (fun kv => let '(key, v') := kv in skipKey key || noInternals v') props
  | _ => true
  end.

(** The values that [transformIds] gives back as they are: plain, with no
    [_id] and no object that passes for an ObjectId. *)
Fixpoint settled (v : value) : bool :=
  match v with
  | VObjectId _ | VDate _ | VDocument _ => false
  | VArray items => forallb settled items
  | VObject props =>
      isUndefinedValue (lookupProp "_id" props)
      && negb (bsonObjectId props)
      && forallb (fun kv => let '(key, v') := kv in skipKey key || settled v') props
  | _ => true
  end.

(** [toString] for the examples: an ObjectId gives its number, other
    objects what [Object.prototype.toString] gives. *)
Definition toStringExample (v : value) : string :=
  match v with
  | VObjectId id => toString id
  | _ => "[object Object]"
  end.

(** A sale document as [toObject()] gives it, with one line. *)
Definition saleDocument : value :=
  VDocument
    [("_id", VObjectId 100);
     ("saleNumber", VString "V2024-001");
     ("items",
        VArray [VObject [("_id", VObjectId 501); ("product", VObjectId 1);
                         ("quantity", VNumber (Fin 2))]]);
     ("seller", VObject [("_id", VObjectId 7); ("username", VString "ana")]);
     ("createdAt", VDate (mkDate 2024 5 17 36000000))].

(** * Properties *)

(** ** The item loop of createSale *)

Lemma processItems_app (its1 its2 : list Item.t) (st : LoopState) :
  processItems (its1 ++ its2) st =
  match processItems its1 st with
  | (Continue, st') => processItems its2 st'
  | stop => stop
  end.
Proof.
  revert st. induction its1 as [|item its1 IH]; intros st; simpl.
  - reflexivity.
  - destruct (processItem item st) as [[| r | e] st']; auto.
Qed.

Lemma processItem_Return (item : Item.t) (st st' : LoopState) (r : Response) :
  processItem item st = (Return r, st') -> status r <> 201.
Proof.
  unfold processItem.
  destruct (store st !! Item.product item) as [p|].
  - destruct (JS.lt _ _).
    + intros [= <- _]. simpl. lia.
    + destruct (Product.save_stock _ _); discriminate.
  - intros [= <- _]. simpl. lia.
Qed.

Lemma processItems_Return (its : list Item.t) (st st' : LoopState) (r : Response) :
  processItems its st = (Return r, st') -> status r <> 201.
Proof.
  revert st. induction its as [|item its IH]; intros st; simpl.
  - discriminate.
  - destruct (processItem item st) as [[| r0 | e] st0] eqn:E.
    + apply IH.
    + intros [= <- _]. eapply processItem_Return, E.
    + discriminate.
Qed.

Local Ltac refuse := split; [discriminate | simpl; lia].

Lemma createSaleTx_committed env user saleData db :
  committed (createSaleTx env user saleData db) = true <->
  status (response (createSaleTx env user saleData db)) = 201.
Proof.
  unfold createSaleTx.
  destruct (SaleData.items saleData) as [[|item its]|]; cbv beta match; try refuse.
  destruct (truthy (SaleData.paymentMethod saleData)); cbv beta match; try refuse.
  destruct (processItems (item :: its) _) as [[| r | e] st] eqn:E.
  - destruct user as [u|]; try refuse.
    destruct (validate_sale _ _ _ _ _ _ _ _ _ _ _); try refuse.
    destruct (insertSale _ _); try refuse.
    split; reflexivity.
  - simpl. split; [discriminate|]. intros H. exfalso. eapply processItems_Return; eauto.
  - refuse.
Qed.

Lemma createSale_failure_unchanged env user saleData db :
  status (fst (createSale env user saleData db)) <> 201 ->
  snd (createSale env user saleData db) = db.
Proof.
  unfold createSale, endSession. simpl. intros H.
  destruct (committed _) eqn:E; [|reflexivity].
  apply createSaleTx_committed in E. contradiction.
Qed.

Lemma sumQ_acc (l : list Q) (a : Q) : (fold_left Qplus l a == a + sumQ l)%Q.
Proof.
  unfold sumQ. revert a. induction l as [|x l IH]; intros a; simpl.
  - ring.
  - rewrite IH. rewrite (IH (0 + x)%Q). ring.
Qed.

Lemma sumQ_cons (x : Q) (l : list Q) : (sumQ (x :: l) == x + sumQ l)%Q.
Proof. unfold sumQ at 1. simpl. rewrite sumQ_acc. ring. Qed.

Lemma sumQ_nil : sumQ [] = 0%Q.
Proof. reflexivity. Qed.

Lemma same_but_stock_refl p : same_but_stock p p.
Proof. repeat split. Qed.

Lemma same_but_stock_set p p' s :
  same_but_stock p p' -> same_but_stock p (Product.set_stock p' s).
Proof. intros (?&?&?&?). repeat split; assumption. Qed.

Lemma same_but_stock_trans p1 p2 p3 :
  same_but_stock p1 p2 -> same_but_stock p2 p3 -> same_but_stock p1 p3.
Proof. intros (?&?&?&?) (?&?&?&?). repeat split; congruence. Qed.

Lemma stock_moved_refl (ps : gmap ObjectId Product.t) id : stock_moved ps ps id 0.
Proof.
  unfold stock_moved. destruct (ps !! id) as [p|] eqn:E; [|reflexivity].
  exists p. split; [reflexivity|]. split; [apply same_but_stock_refl | ring].
Qed.

Lemma stock_moved_trans (a b c : gmap ObjectId Product.t) id d1 d2 d :
  stock_moved a b id d1 -> stock_moved b c id d2 -> (d == d1 + d2)%Q ->
  stock_moved a c id d.
Proof.
  unfold stock_moved. intros H1 H2 Hd.
  destruct (a !! id) as [p|].
  - destruct H1 as (p' & Hb & Hs & Hq). rewrite Hb in H2.
    destruct H2 as (p'' & Hc & Hs' & Hq').
    exists p''. split; [assumption|]. split; [eapply same_but_stock_trans; eauto|].
    rewrite Hq', Hq, Hd. ring.
  - rewrite H1 in H2. assumption.
Qed.

Lemma stock_moved_insert (ps : gmap ObjectId Product.t) k p s id :
  ps !! k = Some p ->
  stock_moved ps (<[k := Product.set_stock p s]> ps) id
    (if k =? id then s - Product.stock p else 0)%Q.
Proof.
  intros Hk. destruct (Nat.eqb_spec k id) as [->|Hne].
  - unfold stock_moved. rewrite Hk. exists (Product.set_stock p s).
    rewrite lookup_insert_eq. split; [reflexivity|].
    split; [apply same_but_stock_set, same_but_stock_refl | simpl; ring].
  - unfold stock_moved. rewrite lookup_insert_ne by assumption.
    destruct (ps !! id) as [p0|] eqn:E; [|reflexivity].
    exists p0. split; [reflexivity|]. split; [apply same_but_stock_refl | ring].
Qed.

Lemma tracks_refl ps : tracks ps ps.
Proof.
  intros id. destruct (ps !! id) as [p|] eqn:E; [|reflexivity].
  exists p. split; [reflexivity | apply same_but_stock_refl].
Qed.

Lemma tracks_insert ps0 ps k p s :
  tracks ps0 ps -> ps !! k = Some p ->
  tracks ps0 (<[k := Product.set_stock p s]> ps).
Proof.
  intros Ht Hk id. specialize (Ht id).
  destruct (Nat.eq_dec k id) as [->|Hne].
  - rewrite lookup_insert_eq. destruct (ps0 !! id) as [p0|].
    + destruct Ht as (p' & Hp' & Hs). exists (Product.set_stock p s).
      split; [reflexivity|]. rewrite Hk in Hp'. injection Hp' as ->.
      apply same_but_stock_set, Hs.
    + congruence.
  - rewrite lookup_insert_ne by assumption. exact Ht.
Qed.

Lemma save_stock_Some p v p' :
  Product.save_stock p v = Some p' ->
  exists s, v = Fin s /\ (0 <= s)%Q /\ p' = Product.set_stock p s.
Proof.
  unfold Product.save_stock. destruct v as [s|]; [|discriminate].
  destruct (Qle_bool 0 s) eqn:E; [|discriminate].
  intros [= <-]. exists s. apply Qle_bool_iff in E. auto.
Qed.

Lemma processItem_Continue item st st' :
  processItem item st = (Continue, st') ->
  exists p q,
    store st !! Item.product item = Some p
    /\ ToNumber (Item.quantity item) = Fin q
    /\ (q <= Product.stock p)%Q
    /\ st' = mkLoop
               (JS.add (totalAmount st)
                  (subtotalOf (Item.quantity item) (Product.price p)
                     (effectiveDiscount item p)))
               (processedItems st ++
                  [ProcessedItem.mk (Item.product item) (Product.code p)
                     (Product.name p) (Item.quantity item) (Product.price p)
                     (effectiveDiscount item p)
                     (subtotalOf (Item.quantity item) (Product.price p)
                        (effectiveDiscount item p))])%list
               (<[Item.product item := Product.set_stock p (Product.stock p - q)]>
                  (store st)).
Proof.
  unfold processItem.
  destruct (store st !! Item.product item) as [p|]; [|discriminate].
  destruct (JS.lt _ _) eqn:Hlt; [discriminate|].
  destruct (Product.save_stock _ _) as [p'|] eqn:Hs; [|discriminate].
  intros [= <-]. apply save_stock_Some in Hs as (s & Hv & _ & ->).
  destruct (ToNumber (Item.quantity item)) as [q|] eqn:Hq; [|discriminate].
  simpl in Hv. injection Hv as <-.
  exists p, q. split; [reflexivity|]. split; [reflexivity|]. split; [|reflexivity].
  simpl in Hlt. apply negb_false_iff, Qle_bool_iff in Hlt. exact Hlt.
Qed.

Lemma effectiveDiscount_same item p p' :
  same_but_stock p p' -> effectiveDiscount item p' = effectiveDiscount item p.
Proof. intros (_&_&_&Hd). unfold effectiveDiscount. rewrite Hd. reflexivity. Qed.

Lemma processItems_Continue ps0 its : forall st st',
  processItems its st = (Continue, st') ->
  tracks ps0 (store st) ->
  tracks ps0 (store st')
  /\ (exists pits,
        processedItems st' = (processedItems st ++ pits)%list
        /\ Forall2 (proc_of ps0) its pits
        /\ totalAmount st'
           = fold_left JS.add (List.map ProcessedItem.subtotal pits) (totalAmount st))
  /\ (forall id, stock_moved (store st) (store st') id (- requestedOf id its)).
Proof.
  induction its as [|item its IH]; intros st st' H Ht; simpl in H.
  - injection H as <-. split; [assumption|]. split.
    + exists []. rewrite app_nil_r. repeat split. constructor.
    + intros id. eapply stock_moved_trans; [apply stock_moved_refl..|].
      unfold requestedOf. simpl. rewrite sumQ_nil. ring.
  - destruct (processItem item st) as [[| r | e] st1] eqn:E; try discriminate.
    apply processItem_Continue in E as (p & q & Hp & Hq & Hle & ->).
    pose proof (Ht (Item.product item)) as Hp0. 
    destruct (ps0 !! Item.product item) as [p0|] eqn:E0; [|congruence].
    destruct Hp0 as (p' & Hp' & Hsame). rewrite Hp in Hp'. injection Hp' as <-.
    destruct (IH _ _ H) as (Ht' & (pits & Hpits & Hall & Htot) & Hstock).
    { simpl. apply tracks_insert; assumption. }
    split; [assumption|]. split.
    + eexists (_ :: pits). simpl in Hpits. rewrite Hpits, <- app_assoc. 
      split; [reflexivity|]. split.
      * constructor; [|assumption]. exists p0. split; [assumption|].
        rewrite (effectiveDiscount_same item p0 p Hsame).
        destruct Hsame as (-> & -> & -> & _). reflexivity.
      * exact Htot.
    + intros id. simpl in Hstock.
      eapply stock_moved_trans; [apply (stock_moved_insert _ _ _ (Product.stock p - q)%Q id Hp) | apply Hstock |].
      unfold requestedOf. cbn [List.filter].
      destruct (Item.product item =? id) eqn:Eid; cbn [List.map].
      * rewrite sumQ_cons. unfold qtyOf at 1. rewrite Hq. ring.
      * ring.
Qed.

(** ** Validation by saleSchema *)

Lemma validate_items_Forall2 (pits : list ProcessedItem.t) : forall lines,
  validate_items pits = Some lines ->
  Forall2 (fun pit line => validate_item pit = Some line) pits lines.
Proof.
  induction pits as [|pit pits IH]; intros lines; simpl.
  - intros [= <-]. constructor.
  - destruct (validate_item pit) as [line|] eqn:E; [|discriminate].
    destruct (validate_items pits) as [ls|]; [|discriminate].
    intros [= <-]. constructor; auto.
Qed.

Lemma effectiveDiscount_defined (item : Item.t) (p : Product.t) :
  castNumber (effectiveDiscount item p) <> CastNone.
Proof.
  unfold effectiveDiscount, JS.or.
  destruct (ToBoolean (if ToBoolean (Item.discount item) then _ else _)) eqn:E.
  - destruct (if ToBoolean (Item.discount item) then _ else _) as [| |[q|]|t];
      simpl in *; discriminate.
  - discriminate.
Qed.

Lemma validate_item_line (db : Db) (item : Item.t) (pit : ProcessedItem.t)
    (line : SaleItem.t) :
  proc_of (products db) item pit -> validate_item pit = Some line ->
  line_of db item line.
Proof.
  intros (p & Hp & ->). unfold validate_item. cbn [ProcessedItem.quantity
    ProcessedItem.unitPrice ProcessedItem.discount ProcessedItem.subtotal
    ProcessedItem.product ProcessedItem.productCode ProcessedItem.productName].
  unfold validate_quantity.
  destruct (Item.quantity item) as [| |[q|]|t] eqn:Hq; simpl; try discriminate.
  destruct (Qle_bool 1 q); [|discriminate].
  unfold validate_unitPrice. destruct (Qle_bool 0 (Product.price p)); [|discriminate].
  pose proof (effectiveDiscount_defined item p) as Hdef.
  unfold validate_discount.
  destruct (effectiveDiscount item p) as [| |[d|]|t] eqn:Hd; simpl in *;
    try discriminate; try congruence.
  destruct (Qle_bool 0 d && Qle_bool d 100); [|discriminate].
  intros [= <-]. exists p. simpl. rewrite Hd. repeat split; auto.
Qed.

Lemma validate_sale_inv _id saleNumber customer pits total pm ps seller notes tax
    createdAt (s : Sale.t) :
  validate_sale _id saleNumber customer pits total pm ps seller notes tax createdAt
    = Some s ->
  exists lines tot t,
    validate_items pits = Some lines /\ total = Fin tot
    /\ in_enum pm paymentMethodEnum = true /\ in_enum ps paymentStatusEnum = true
    /\ s = Sale.mk _id saleNumber customer lines tot pm ps seller notes t createdAt.
Proof.
  unfold validate_sale.
  destruct (validate_items pits) as [lines|]; [|discriminate].
  destruct total as [tot|]; cbn [validate_required]; [|discriminate].
  destruct (validate_tax tax) as [t|]; [|discriminate].
  destruct (in_enum pm paymentMethodEnum) eqn:E1; [|discriminate].
  destruct (in_enum ps paymentStatusEnum) eqn:E2; [|discriminate].
  intros [= <-]. exists lines, tot, t. auto.
Qed.

Lemma fold_add_Fin (pits : list ProcessedItem.t) (lines : list SaleItem.t) :
  Forall2 (fun pit line => ProcessedItem.subtotal pit = Fin (SaleItem.subtotal line))
    pits lines ->
  forall a, fold_left JS.add (List.map ProcessedItem.subtotal pits) (Fin a)
            = Fin (fold_left Qplus (List.map SaleItem.subtotal lines) a).
Proof.
  induction 1 as [|pit line pits lines H _ IH]; intros a; simpl.
  - reflexivity.
  - rewrite H. simpl. apply IH.
Qed.

Lemma validate_item_subtotal (pit : ProcessedItem.t) (line : SaleItem.t) :
  validate_item pit = Some line ->
  ProcessedItem.subtotal pit = Fin (SaleItem.subtotal line).
Proof.
  unfold validate_item.
  destruct (validate_quantity _); [|discriminate].
  destruct (validate_unitPrice _); [|discriminate].
  destruct (validate_discount _); [|discriminate].
  destruct (ProcessedItem.subtotal pit); simpl; [|discriminate].
  intros [= <-]. reflexivity.
Qed.

Lemma line_of_requested (db : Db) (its : list Item.t) (lines : list SaleItem.t)
    (id : ObjectId) :
  Forall2 (line_of db) its lines -> requestedOf id its = quantityOf id lines.
Proof.
  unfold requestedOf, quantityOf. intros H. f_equal.
  induction H as [|item line its lines Hl _ IH]; simpl.
  - reflexivity.
  - destruct Hl as (p & _ & Hprod & _ & _ & Hq & _). rewrite Hprod.
    destruct (Item.product item =? id); simpl; [|assumption].
    rewrite IH. f_equal. unfold qtyOf. rewrite Hq. reflexivity.
Qed.

(** ** createSale: what a 201 answer means *)

Lemma insertSale_Some (s : Sale.t) (l l' : list Sale.t) :
  insertSale s l = Some l' ->
  l' = (l ++ [s])%list
  /\ Forall (fun s' => Sale._id s' <> Sale._id s
                       /\ Sale.saleNumber s' <> Sale.saleNumber s) l.
Proof.
  unfold insertSale. destruct (existsb _ l) eqn:E; [discriminate|].
  intros [= <-]. split; [reflexivity|].
  apply List.Forall_forall. intros s' Hin.
  assert (H : ((Sale._id s' =? Sale._id s)
               || String.eqb (Sale.saleNumber s') (Sale.saleNumber s)) = false).
  { destruct (_ || _) eqn:E'; [|reflexivity].
    assert (existsb (fun s' => (Sale._id s' =? Sale._id s)
               || String.eqb (Sale.saleNumber s') (Sale.saleNumber s)) l = true)
      by (apply existsb_exists; eauto).
    congruence. }
  apply orb_false_iff in H as [H1 H2]. split.
  - apply Nat.eqb_neq, H1.
  - apply String.eqb_neq, H2.
Qed.

Lemma findSaleById_fresh (s : Sale.t) (l : list Sale.t) :
  Forall (fun s' => Sale._id s' <> Sale._id s) l ->
  findSaleById (Sale._id s) (l ++ [s]) = Some s.
Proof.
  unfold findSaleById. induction 1 as [|s' l H _ IH]; simpl.
  - rewrite Nat.eqb_refl. reflexivity.
  - apply Nat.eqb_neq in H. rewrite H. exact IH.
Qed.

Lemma createSale_201 env user saleData db r db' :
  createSale env user saleData db = (r, db') -> status r = 201 ->
  exists its st u newSale,
    SaleData.items saleData = Some its
    /\ truthy (SaleData.paymentMethod saleData) = true
    /\ processItems its (mkLoop (Fin 0) [] (products db)) = (Continue, st)
    /\ user = Some u
    /\ validate_sale (newId env) (saleNumberOf (getFullYear env) (length (sales db)))
         (SaleData.customer saleData) (processedItems st) (totalAmount st)
         (default "" (SaleData.paymentMethod saleData))
         (if truthy (SaleData.paymentStatus saleData)
          then default "" (SaleData.paymentStatus saleData) else "pendiente")
         (Principal.id u) (SaleData.notes saleData)
         (JS.or (SaleData.tax saleData) (number 0)) (now env) = Some newSale
    /\ insertSale newSale (sales db) = Some (sales db ++ [newSale])%list
    /\ db' = mkDb (store st) (sales db ++ [newSale])%list (users db)
    /\ r = Res 201 (JsonSale (Some (populate (users db) newSale))).
Proof.
  unfold createSale, endSession, createSaleTx.
  destruct (SaleData.items saleData) as [[|item its]|]; cbv beta match;
    try (intros [= <- _]; simpl; lia).
  destruct (truthy (SaleData.paymentMethod saleData)); cbv beta match;
    try (intros [= <- _]; simpl; lia).
  destruct (processItems (item :: its) _) as [[| r0 | e] st] eqn:E.
  - destruct user as [u|]; try (intros [= <- _]; simpl; lia).
    destruct (validate_sale _ _ _ _ _ _ _ _ _ _ _) as [newSale|] eqn:Ev;
      try (intros [= <- _]; simpl; lia).
    destruct (insertSale _ _) as [sales'|] eqn:Ei; try (intros [= <- _]; simpl; lia).
    cbn [response working committed]. intros [= <- <-] _.
    pose proof (insertSale_Some _ _ _ Ei) as [-> Hfresh].
    exists (item :: its), st, u, newSale. repeat split; auto.
    cbn [sales users]. rewrite findSaleById_fresh; [reflexivity|].
    eapply List.Forall_impl; [|exact Hfresh]. intros s' [H _]. exact H.
  - intros [= <- _] H. exfalso. eapply processItems_Return; eauto.
  - intros [= <- _]; simpl; lia.
Qed.

Lemma stock_moved_Qeq (a b : gmap ObjectId Product.t) id d d' :
  stock_moved a b id d -> (d' == d)%Q -> stock_moved a b id d'.
Proof.
  intros H Hd. eapply stock_moved_trans; [exact H | apply stock_moved_refl |].
  rewrite Hd. ring.
Qed.

Lemma quantityOf_single (lines : list SaleItem.t) (line : SaleItem.t) :
  List.NoDup (List.map SaleItem.product lines) -> In line lines ->
  (quantityOf (SaleItem.product line) lines == SaleItem.quantity line)%Q.
Proof.
  unfold quantityOf. intros Hnd Hin.
  induction lines as [|l ls IH]; [contradiction|].
  simpl in Hnd. apply List.NoDup_cons_iff in Hnd as [Hnotin Hnd].
  destruct Hin as [->|Hin]; simpl.
  - rewrite Nat.eqb_refl. simpl. rewrite sumQ_cons.
    assert (Hf : List.filter (fun l => SaleItem.product l =? SaleItem.product line) ls = []).
    { clear - Hnotin. induction ls as [|x ls IH]; [reflexivity|]. simpl in *.
      destruct (Nat.eqb_spec (SaleItem.product x) (SaleItem.product line)) as [E|E].
      - exfalso. apply Hnotin. left. exact E.
      - apply IH. intros Hc. apply Hnotin. right. exact Hc. }
    rewrite Hf. simpl. rewrite sumQ_nil. ring.
  - destruct (Nat.eqb_spec (SaleItem.product l) (SaleItem.product line)) as [E|E].
    + exfalso. apply Hnotin. rewrite E. apply in_map. exact Hin.
    + apply IH; assumption.
Qed.

Lemma createSale_201_lines env user saleData db r db' :
  createSale env user saleData db = (r, db') -> status r = 201 ->
  exists its newSale,
    SaleData.items saleData = Some its
    /\ sales db' = (sales db ++ [newSale])%list
    /\ users db' = users db
    /\ Sale._id newSale = newId env
    /\ Sale.saleNumber newSale = saleNumberOf (getFullYear env) (length (sales db))
    /\ Sale.paymentStatus newSale
       = (if truthy (SaleData.paymentStatus saleData)
          then default "" (SaleData.paymentStatus saleData) else "pendiente")
    /\ in_enum (Sale.paymentStatus newSale) paymentStatusEnum = true
    /\ Forall (fun s' => Sale._id s' <> Sale._id newSale
                         /\ Sale.saleNumber s' <> Sale.saleNumber newSale) (sales db)
    /\ Forall2 (line_of db) its (Sale.items newSale)
    /\ Sale.totalAmount newSale
       = sumQ (List.map SaleItem.subtotal (Sale.items newSale))
    /\ (forall id, stock_moved (products db) (products db') id
                     (- quantityOf id (Sale.items newSale))).
Proof.
  intros H H201.
  destruct (createSale_201 _ _ _ _ _ _ H H201)
    as (its & st & u & newSale & Hits & _ & Hloop & _ & Hval & Hins & -> & _).
  apply validate_sale_inv in Hval
    as (lines & tot & t & Hlines & Htot & _ & Hps & ->).
  apply insertSale_Some in Hins as [_ Hfresh].
  destruct (processItems_Continue (products db) _ _ _ Hloop (tracks_refl _))
    as (_ & (pits & Hpits & Hproc & Hsum) & Hstock).
  cbn [processedItems totalAmount store app] in Hpits, Hsum, Hstock.
  rewrite Hpits in Hlines. apply validate_items_Forall2 in Hlines.
  assert (Hl : Forall2 (line_of db) its lines).
  { clear - Hproc Hlines. revert lines Hlines.
    induction Hproc as [|item pit its pits Hp _ IH]; intros lines Hlines;
      inversion Hlines; subst; constructor.
    - eapply validate_item_line; eauto.
    - apply IH. assumption. }
  exists its, (Sale.mk (newId env) (saleNumberOf (getFullYear env) (length (sales db)))
                 (SaleData.customer saleData) lines tot
                 (default "" (SaleData.paymentMethod saleData))
                 (if truthy (SaleData.paymentStatus saleData)
                  then default "" (SaleData.paymentStatus saleData) else "pendiente")
                 (Principal.id u) (SaleData.notes saleData) t (now env)).
  cbn [sales users products Sale._id Sale.saleNumber Sale.paymentStatus Sale.items
       Sale.totalAmount].
  repeat (split; [first [reflexivity | assumption]|]). split.
  - rewrite Htot in Hsum.
    rewrite (fold_add_Fin pits lines) in Hsum.
    + injection Hsum as ->. reflexivity.
    + clear - Hlines. induction Hlines; constructor; auto using validate_item_subtotal.
  - intros id. rewrite <- (line_of_requested db its lines id Hl). apply Hstock.
Qed.

(** ** createSale: failures *)

(** C1 — When the item loop of createSale, having accepted the items
    before it (which took their quantities from the stock of the working
    copy), meets an item whose product is not in the inventory or whose
    stock there is less than the requested quantity, the call answers 404
    "Producto no encontrado" or 400 "Stock insuficiente" with the available
    stock and the requested quantity, and the database is the one before
    the call: the stock writes of the earlier items are rolled back and no
    sale is created. *)
Theorem createSale_invalid_item_rolls_back
    (env : Env) (user : option Principal.t) (saleData : SaleData.t) (db : Db)
    (pre post : list Item.t) (item : Item.t) (st : LoopState) :
  SaleData.items saleData = Some (pre ++ item :: post)%list ->
  truthy (SaleData.paymentMethod saleData) = true ->
  processItems pre (mkLoop (Fin 0) [] (products db)) = (Continue, st) ->
  (forall id, stock_moved (products db) (store st) id (- requestedOf id pre))
  /\ (store st !! Item.product item = None ->
        createSale env user saleData db
        = (Res 404 (JsonMessage (ProductoNoEncontrado (Item.product item))), db))
  /\ (forall p,
        store st !! Item.product item = Some p ->
        JS.lt (Fin (Product.stock p)) (ToNumber (Item.quantity item)) = true ->
        createSale env user saleData db
        = (Res 400 (JsonMessage (StockInsuficiente (Product.name p)
                                   (Product.stock p) (Item.quantity item))), db)).
Proof.
  intros Hits Hpm Hpre.
  assert (Hstep : forall r,
             processItem item st = (Return r, st) ->
             createSale env user saleData db = (r, db)).
  { intros r Hr. unfold createSale, endSession, createSaleTx.
    rewrite Hits, Hpm.
    destruct (pre ++ item :: post)%list as [|i0 l0] eqn:El.
    { destruct pre; discriminate. }
    rewrite <- El, processItems_app, Hpre. simpl. rewrite Hr. reflexivity. }
  split; [|split].
  - apply (processItems_Continue (products db) _ _ _ Hpre (tracks_refl _)).
  - intros Hnone. apply Hstep. unfold processItem. rewrite Hnone. reflexivity.
  - intros p Hp Hlt. apply Hstep. unfold processItem. rewrite Hp, Hlt. reflexivity.
Qed.

(** C3 — A createSale that answers 201 appended one sale whose line
    items are the snapshots of the requested items, each with subtotal
    quantity * unit price * (1 - discount / 100); its totalAmount is the sum
    of the subtotals; every product's stock went down by the quantity the
    line items hold of it (by the item's quantity when one line refers to
    it) and nothing else changed in the inventory; and two items of
    quantity 2 at price 1200 and quantity 1 at price 950, without discount,
    give totalAmount 3350. *)
Theorem createSale_success
    (env : Env) (user : option Principal.t) (saleData : SaleData.t)
    (db db' : Db) (r : Response) :
  createSale env user saleData db = (r, db') -> status r = 201 ->
  exists its newSale,
    SaleData.items saleData = Some its
    /\ sales db' = (sales db ++ [newSale])%list
    /\ Forall2 (line_of db) its (Sale.items newSale)
    /\ Sale.totalAmount newSale
       = sumQ (List.map SaleItem.subtotal (Sale.items newSale))
    /\ (forall id, stock_moved (products db) (products db') id
                     (- quantityOf id (Sale.items newSale)))
    /\ (forall line, List.NoDup (List.map SaleItem.product (Sale.items newSale)) ->
          In line (Sale.items newSale) ->
          stock_moved (products db) (products db') (SaleItem.product line)
            (- SaleItem.quantity line))
    /\ (forall a b pa pb,
          its = [Item.mk a (number 2) JUndefined; Item.mk b (number 1) JUndefined] ->
          products db !! a = Some pa -> products db !! b = Some pb ->
          Product.price pa = 1200%Q -> Product.price pb = 950%Q ->
          ToBoolean (Product.discount pa) = false ->
          ToBoolean (Product.discount pb) = false ->
          (Sale.totalAmount newSale == 3350)%Q).
Proof.
  intros H H201.
  destruct (createSale_201_lines _ _ _ _ _ _ H H201)
    as (its & newSale & Hits & Hsales & _ & _ & _ & _ & _ & _ & Hl & Htot & Hstock).
  exists its, newSale. repeat (split; [assumption|]). split.
  - intros line Hnd Hin. eapply stock_moved_Qeq; [apply Hstock|].
    apply Qopp_comp. symmetry. apply quantityOf_single; assumption.
  - intros a b pa pb -> Ha Hb Hpa Hpb Hda Hdb. rewrite Htot.
    inversion Hl as [|i1 l1 is1 ls1 H1 Hl' E1 E2]; subst.
    inversion Hl' as [|i2 l2 is2 ls2 H2 Hl'' E3 E4]; subst.
    inversion Hl''; subst.
    destruct H1 as (p1 & Hp1 & _ & _ & _ & Hq1 & Hu1 & Hd1 & Hs1).
    destruct H2 as (p2 & Hp2 & _ & _ & _ & Hq2 & Hu2 & Hd2 & Hs2).
    cbn [Item.product Item.quantity] in *.
    rewrite Ha in Hp1. injection Hp1 as <-.
    rewrite Hb in Hp2. injection Hp2 as <-.
    unfold effectiveDiscount, JS.or in Hd1, Hd2. cbn [Item.discount ToBoolean] in Hd1, Hd2.
    rewrite Hda in Hd1. rewrite Hdb in Hd2. cbn in Hd1, Hd2.
    unfold number in *. injection Hq1 as Hq1. injection Hq2 as Hq2.
    injection Hd1 as Hd1. injection Hd2 as Hd2.
    cbn [List.map]. rewrite sumQ_cons, sumQ_cons, sumQ_nil, Hs1, Hs2.
    rewrite <- Hq1, <- Hq2, Hu1, Hu2, <- Hd1, <- Hd2, Hpa, Hpb. reflexivity.
Qed.

Lemma createSale_invalid_item_rolls_back_witness :
  createSale env0 (Some empleado) orderShort db0
  = (Res 400 (JsonMessage (StockInsuficiente "Arroz Premium" 5 (number 10))), db0).
Proof.
  refine (proj2 (proj2 (createSale_invalid_item_rolls_back env0 (Some empleado)
                   orderShort db0
                   [Item.mk 1 (number 2) JUndefined] [] (Item.mk 5 (number 10) JUndefined)
                   (snd (processItems [Item.mk 1 (number 2) JUndefined]
                           (mkLoop (Fin 0) [] (products db0))))
                   _ _ _)) arroz _ _);
    vm_compute; reflexivity.
Defined.

Lemma createSale_success_witness :
  status (fst (createSale env0 (Some empleado) order0 db0)) = 201
  /\ exists newSale,
       sales (snd (createSale env0 (Some empleado) order0 db0)) = [newSale]
       /\ (Sale.totalAmount newSale == 3350)%Q.
Proof.
  split; [vm_compute; reflexivity|].
  destruct (createSale_success env0 (Some empleado) order0 db0
              (snd (createSale env0 (Some empleado) order0 db0))
              (fst (createSale env0 (Some empleado) order0 db0)))
    as (its & newSale & Hits & Hsales & _ & _ & _ & _ & Hex);
    [vm_compute; reflexivity | vm_compute; reflexivity |].
  exists newSale. split; [exact Hsales|].
  injection Hits as <-.
  apply (Hex 1 2 leche pan); vm_compute; reflexivity.
Defined.

(** C8 (as amended) — createSale answers 400 "La venta debe tener al menos
    un item" when the item list is missing or empty, and 400 "El metodo de
    pago es requerido" when the payment method is missing, in both cases
    before anything is read or written in the session. A quantity that is
    not a number is not looked for: a call with such an item never answers
    201 and leaves the database as it was. *)
Theorem createSale_validation
    (env : Env) (user : option Principal.t) (saleData : SaleData.t) (db : Db) :
  (SaleData.items saleData = None \/ SaleData.items saleData = Some [] ->
     createSaleTx env user saleData db
     = mkTx (Res 400 (JsonMessage VentaSinItems)) db false)
  /\ (forall item its,
        SaleData.items saleData = Some (item :: its) ->
        truthy (SaleData.paymentMethod saleData) = false ->
        createSaleTx env user saleData db
        = mkTx (Res 400 (JsonMessage MetodoPagoRequerido)) db false)
  /\ (forall its item,
        SaleData.items saleData = Some its -> In item its ->
        ToNumber (Item.quantity item) = NaN ->
        status (fst (createSale env user saleData db)) <> 201
        /\ snd (createSale env user saleData db) = db).
Proof.
  split; [|split].
  - unfold createSaleTx. intros [-> | ->]; reflexivity.
  - intros item its Hits Hpm. unfold createSaleTx. rewrite Hits, Hpm. reflexivity.
  - intros its item Hits Hin Hnan.
    assert (Hne : status (fst (createSale env user saleData db)) <> 201).
    { intros H201.
      destruct (createSale env user saleData db) as [r db'] eqn:E.
      destruct (createSale_201_lines _ _ _ _ _ _ E H201)
        as (its' & newSale & Hits' & _ & _ & _ & _ & _ & _ & _ & Hl & _).
      rewrite Hits in Hits'. injection Hits' as <-.
      clear - Hl Hin Hnan.
      induction Hl as [|i l its0 ls0 H _ IH]; [contradiction|].
      destruct Hin as [->|Hin]; [|auto].
      destruct H as (_ & _ & _ & _ & _ & Hq & _). rewrite Hq in Hnan. discriminate. }
    split; [exact Hne | apply createSale_failure_unchanged, Hne].
Qed.

Lemma createSale_validation_witness :
  createSaleTx env0 (Some empleado) (SaleData.mk (Some []) None None None None JUndefined) db0
  = mkTx (Res 400 (JsonMessage VentaSinItems)) db0 false
  /\ createSaleTx env0 (Some empleado)
       (SaleData.mk (Some [Item.mk 1 (number 2) JUndefined]) None None None None JUndefined) db0
     = mkTx (Res 400 (JsonMessage MetodoPagoRequerido)) db0 false
  /\ snd (createSale env0 (Some empleado) orderText db0) = db0.
Proof.
  split; [|split].
  - apply (proj1 (createSale_validation env0 (Some empleado)
                    (SaleData.mk (Some []) None None None None JUndefined) db0)).
    right. reflexivity.
  - apply (proj1 (proj2 (createSale_validation env0 (Some empleado)
                    (SaleData.mk (Some [Item.mk 1 (number 2) JUndefined]) None None None
                       None JUndefined) db0))
             (Item.mk 1 (number 2) JUndefined) []); reflexivity.
  - apply (proj2 (proj2 (createSale_validation env0 (Some empleado) orderText db0))
             [Item.mk 1 (number 2) JUndefined; Item.mk 2 (JNonNumeric "abc") JUndefined]
             (Item.mk 2 (JNonNumeric "abc") JUndefined)).
    + reflexivity.
    + right. left. reflexivity.
    + reflexivity.
Defined.

(** C8, as stated, fails: with the quantity 'abc' on its second item, the
    call is answered 500 "Error al crear venta", not 400, and by then the
    session had written the stock of the first item. *)
Lemma createSale_non_numeric_quantity_counterexample :
  response (createSaleTx env0 (Some empleado) orderText db0)
  = Res 500 (JsonError ErrorAlCrearVenta MongooseValidationError)
  /\ products (working (createSaleTx env0 (Some empleado) orderText db0)) !! 1
     = Some (Product.set_stock leche (50 - 2))
  /\ products db0 !! 1 = Some leche.
Proof. repeat split; vm_compute; reflexivity. Qed.

(** C2 — The claim does not hold of the code: an item that asks for a
    discount of 0 on a product whose configured discount is 5 is sold with
    the discount 5 (subtotal 4275 for three units at 1500), because [||]
    takes 0 for an absent value, where the nullish choice of the claim
    keeps the 0 (subtotal 4500). *)
Theorem createSale_zero_discount_override :
  effectiveDiscount (Item.mk 3 (number 3) (number 0)) detergente = number 5
  /\ JS.nullish (JS.nullish (number 0) (Product.discount detergente)) (number 0)
     = number 0
  /\ exists newSale line,
       sales (snd (createSale env0 (Some empleado) orderZeroDiscount db0)) = [newSale]
       /\ Sale.items newSale = [line]
       /\ SaleItem.discount line = 5%Q
       /\ (SaleItem.subtotal line == 4275)%Q
       /\ exists full,
            subtotalOf (number 3) (Product.price detergente) (number 0) = Fin full
            /\ (full == 4500)%Q.
Proof.
  split; [reflexivity|]. split; [reflexivity|].
  eexists _, _. split; [vm_compute; reflexivity|].
  split; [reflexivity|]. split; [reflexivity|]. split; [reflexivity|].
  eexists. split; reflexivity.
Qed.

(** Where [||] and the nullish choice agree: on an item discount that is
    not zero, and on an absent one. *)
Lemma effectiveDiscount_nonzero (item : Item.t) (p : Product.t) :
  ToBoolean (Item.discount item) = true ->
  effectiveDiscount item p = Item.discount item.
Proof.
  intros H. unfold effectiveDiscount, JS.or. rewrite H, H. reflexivity.
Qed.

Lemma effectiveDiscount_absent (item : Item.t) (p : Product.t) :
  ToBoolean (Item.discount item) = false ->
  effectiveDiscount item p = JS.or (Product.discount p) (number 0).
Proof. intros H. unfold effectiveDiscount, JS.or at 2. rewrite H. reflexivity. Qed.

(** ** cancelSale *)

Lemma findSaleById_Some (id : ObjectId) (l : list Sale.t) (s : Sale.t) :
  findSaleById id l = Some s -> In s l /\ Sale._id s = id.
Proof.
  unfold findSaleById. intros H. apply find_some in H as [Hin Hid].
  apply Nat.eqb_eq in Hid. auto.
Qed.

Lemma findSaleById_replace (id : ObjectId) (l : list Sale.t) (s s' : Sale.t) :
  findSaleById id l = Some s -> Sale._id s' = Sale._id s ->
  findSaleById id (replaceSale s' l) = Some s'.
Proof.
  intros Hfind Hid. pose proof (findSaleById_Some _ _ _ Hfind) as [_ Hs].
  assert (Hid' : Sale._id s' = id) by congruence.
  revert Hfind. unfold findSaleById, replaceSale. rewrite Hid'.
  induction l as [|x l IH]; simpl; [discriminate|].
  destruct (Sale._id x =? id) eqn:E.
  - intros _. simpl. rewrite Hid', Nat.eqb_refl. reflexivity.
  - simpl. rewrite E. exact IH.
Qed.

Lemma restoreItem_ok (item : SaleItem.t) (ps : gmap ObjectId Product.t) :
  map_Forall (fun _ p => Qle_bool 0 (Product.stock p) = true) ps ->
  Qle_bool 0 (SaleItem.quantity item) = true ->
  exists ps',
    restoreItem item ps = (Continue, ps')
    /\ map_Forall (fun _ p => Qle_bool 0 (Product.stock p) = true) ps'
    /\ forall id, stock_moved ps ps' id
                    (if SaleItem.product item =? id then SaleItem.quantity item else 0)%Q.
Proof.
  intros Hps Hq. unfold restoreItem.
  destruct (ps !! SaleItem.product item) as [p|] eqn:Hp.
  - pose proof (Hps _ _ Hp) as Hs. cbn beta in Hs.
    apply Qle_bool_iff in Hs, Hq.
    assert (Hsum : (0 <= Product.stock p + SaleItem.quantity item)%Q).
    { rewrite <- (Qplus_0_r 0). apply Qplus_le_compat; assumption. }
    simpl. apply Qle_bool_iff in Hsum. rewrite Hsum.
    eexists. split; [reflexivity|]. split.
    + apply map_Forall_insert_2; [exact Hsum | exact Hps].
    + intros id. eapply stock_moved_Qeq; [apply (stock_moved_insert _ _ _ _ id Hp)|].
      destruct (SaleItem.product item =? id); ring.
  - exists ps. split; [reflexivity|]. split; [assumption|].
    intros id. destruct (Nat.eqb_spec (SaleItem.product item) id) as [<-|_].
    + unfold stock_moved. rewrite Hp. reflexivity.
    + apply stock_moved_refl.
Qed.

Lemma restoreItems_ok (items : list SaleItem.t) : forall ps,
  map_Forall (fun _ p => Qle_bool 0 (Product.stock p) = true) ps ->
  Forall (fun it => Qle_bool 0 (SaleItem.quantity it) = true) items ->
  exists ps',
    restoreItems items ps = (Continue, ps')
    /\ forall id, stock_moved ps ps' id (quantityOf id items).
Proof.
  induction items as [|item items IH]; intros ps Hps Hq; simpl.
  - exists ps. split; [reflexivity|]. intros id. apply stock_moved_refl.
  - inversion Hq as [|? ? Hq1 Hq2]; subst.
    destruct (restoreItem_ok item ps Hps Hq1) as (ps1 & -> & Hps1 & Hm1).
    destruct (IH ps1 Hps1 Hq2) as (ps' & -> & Hm).
    exists ps'. split; [reflexivity|]. intros id.
    eapply stock_moved_trans; [apply Hm1 | apply Hm |].
    unfold quantityOf. cbn [List.filter].
    destruct (SaleItem.product item =? id); cbn [List.map].
    + rewrite sumQ_cons. reflexivity.
    + ring.
Qed.

(** C4 — cancelSale answers 404 "Venta no encontrada" and changes nothing
    when no sale has the id; it answers 400 "La venta ya esta cancelada" and
    changes nothing when the sale is cancelled; otherwise, on stored
    documents that meet their schemas, it answers 200, the sale is stored
    with payment status cancelado, every product that still exists got back
    the quantity the line items hold of it (the item's quantity when one
    line refers to it) while an absent product stays absent without
    stopping the call, and a second cancelSale of the same
    sale is answered 400 and changes nothing. *)
Theorem cancelSale_restores_stock :
  (forall saleId db,
     findSaleById saleId (sales db) = None ->
     cancelSale saleId db = (Res 404 (JsonMessage VentaNoEncontrada), db))
  /\ (forall saleId db sale,
        findSaleById saleId (sales db) = Some sale -> cancelled sale = true ->
        cancelSale saleId db = (Res 400 (JsonMessage VentaYaCancelada), db))
  /\ (forall saleId db sale,
        schema_ok db ->
        findSaleById saleId (sales db) = Some sale -> cancelled sale = false ->
        exists db',
          cancelSale saleId db
          = (Res 200 (JsonMessageSale VentaCanceladaExitosamente
                        (Sale.set_paymentStatus sale "cancelado")), db')
          /\ sales db' = replaceSale (Sale.set_paymentStatus sale "cancelado") (sales db)
          /\ findSaleById saleId (sales db')
             = Some (Sale.set_paymentStatus sale "cancelado")
          /\ (forall id, stock_moved (products db) (products db') id
                           (quantityOf id (Sale.items sale)))
          /\ (forall line, List.NoDup (List.map SaleItem.product (Sale.items sale)) ->
                In line (Sale.items sale) ->
                stock_moved (products db) (products db') (SaleItem.product line)
                  (SaleItem.quantity line))
          /\ cancelSale saleId db' = (Res 400 (JsonMessage VentaYaCancelada), db')).
Proof.
  split; [|split].
  - intros saleId db H. unfold cancelSale, cancelSaleTx. rewrite H. reflexivity.
  - intros saleId db sale H Hc. unfold cancelSale, cancelSaleTx. rewrite H.
    unfold cancelled in Hc. rewrite Hc. reflexivity.
  - intros saleId db sale [Hps Hsales] H Hc.
    pose proof (findSaleById_Some _ _ _ H) as [Hin _].
    assert (Hq : Forall (fun it => Qle_bool 0 (SaleItem.quantity it) = true)
                   (Sale.items sale)).
    { rewrite List.Forall_forall in Hsales. apply Hsales, Hin. }
    destruct (restoreItems_ok _ _ Hps Hq) as (ps' & Hr & Hm).
    eexists. unfold cancelSale at 1, cancelSaleTx at 1. rewrite H.
    unfold cancelled in Hc. rewrite Hc, Hr. cbn [endSession response working committed].
    split; [reflexivity|]. cbn [sales products committed working].
    assert (Hfind' : findSaleById saleId
                       (replaceSale (Sale.set_paymentStatus sale "cancelado") (sales db))
                     = Some (Sale.set_paymentStatus sale "cancelado")).
    { eapply findSaleById_replace; [exact H | reflexivity]. }
    split; [reflexivity|]. split; [exact Hfind'|]. split; [exact Hm|]. split.
    { intros line Hnd Hl. eapply stock_moved_Qeq; [apply Hm|].
      symmetry. apply quantityOf_single; assumption. }
    unfold cancelSale, cancelSaleTx. cbn [sales committed working].
    rewrite Hfind'. reflexivity.
Qed.

Lemma schema_ok_db1 : schema_ok db1.
Proof.
  split.
  - apply map_Forall_to_list. vm_compute. repeat constructor.
  - vm_compute. repeat constructor.
Defined.

Lemma cancelSale_restores_stock_witness :
  exists sale db',
    findSaleById 100 (sales db1) = Some sale
    /\ cancelSale 100 db1
       = (Res 200 (JsonMessageSale VentaCanceladaExitosamente
                     (Sale.set_paymentStatus sale "cancelado")), db')
    /\ products db' !! 1 = Some leche
    /\ cancelSale 100 db' = (Res 400 (JsonMessage VentaYaCancelada), db')
    /\ cancelSale 999 db1 = (Res 404 (JsonMessage VentaNoEncontrada), db1).
Proof.
  pose proof (proj2 (proj2 cancelSale_restores_stock) 100 db1) as H.
  edestruct H as (db' & H1 & _ & _ & _ & _ & H2);
    [exact schema_ok_db1 | vm_compute; reflexivity | vm_compute; reflexivity |].
  eexists _, db'. split; [vm_compute; reflexivity|]. split; [exact H1|].
  split.
  - apply (f_equal snd) in H1. simpl in H1. rewrite <- H1. vm_compute. reflexivity.
  - split; [exact H2|].
    apply (proj1 cancelSale_restores_stock 999 db1). vm_compute. reflexivity.
Defined.

(** ** updatePaymentStatus *)

Lemma in_enum_truthy (v : string) (enum : list string) :
  in_enum v enum = true -> In v enum.
Proof.
  unfold in_enum. intros H. apply existsb_exists in H as (x & Hin & Hx).
  apply String.eqb_eq in Hx. subst. exact Hin.
Qed.

(** C6 — updatePaymentStatus answers 400 "Se requiere el estado de pago"
    when no status comes with the request, else 404 "Venta no encontrada"
    when no sale has the id, else 400 "No se puede modificar una venta
    cancelada" when the sale is cancelled, each time without changing the
    database; otherwise, for a status of the schema (cancelado included)
    and, when one is given, a payment method of the schema, it answers 200,
    stores the sale with that status (and that method) and leaves the
    Product collection as it was. *)
Theorem updatePaymentStatus_frame :
  (forall saleId ps pm db,
     truthy ps = false ->
     updatePaymentStatus saleId ps pm db
     = (Res 400 (JsonMessage EstadoPagoRequerido), db))
  /\ (forall saleId ps pm db,
        truthy ps = true -> findSaleById saleId (sales db) = None ->
        updatePaymentStatus saleId ps pm db
        = (Res 404 (JsonMessage VentaNoEncontrada), db))
  /\ (forall saleId ps pm db sale,
        truthy ps = true -> findSaleById saleId (sales db) = Some sale ->
        cancelled sale = true ->
        updatePaymentStatus saleId ps pm db
        = (Res 400 (JsonMessage VentaCanceladaNoModificable), db))
  /\ (forall saleId v pm db sale,
        In v paymentStatusEnum ->
        (truthy pm = true -> In (default "" pm) paymentMethodEnum) ->
        findSaleById saleId (sales db) = Some sale -> cancelled sale = false ->
        exists sale' db',
          updatePaymentStatus saleId (Some v) pm db
          = (Res 200 (JsonMessageSale EstadoPagoActualizado sale'), db')
          /\ Sale.paymentStatus sale' = v
          /\ Sale.paymentMethod sale'
             = (if truthy pm then default "" pm else Sale.paymentMethod sale)
          /\ Sale.items sale' = Sale.items sale
          /\ Sale.totalAmount sale' = Sale.totalAmount sale
          /\ Sale.saleNumber sale' = Sale.saleNumber sale
          /\ sales db' = replaceSale sale' (sales db)
          /\ findSaleById saleId (sales db') = Some sale'
          /\ products db' = products db).
Proof.
  split; [|split; [|split]].
  - intros saleId ps pm db H. unfold updatePaymentStatus. rewrite H. reflexivity.
  - intros saleId ps pm db Ht H. unfold updatePaymentStatus. rewrite Ht, H. reflexivity.
  - intros saleId ps pm db sale Ht H Hc. unfold updatePaymentStatus.
    rewrite Ht, H. unfold cancelled in Hc. rewrite Hc. reflexivity.
  - intros saleId v pm db sale Hv Hpm H Hc.
    assert (Ht : truthy (Some v) = true).
    { simpl in Hv. destruct Hv as [<-|[<-|[<-|[]]]]; reflexivity. }
    assert (Hev : in_enum v paymentStatusEnum = true).
    { simpl in Hv. destruct Hv as [<-|[<-|[<-|[]]]]; reflexivity. }
    unfold updatePaymentStatus. rewrite Ht, H. unfold cancelled in Hc. rewrite Hc.
    cbn [negb default from_option id].
    destruct (truthy pm) eqn:Em.
    + assert (Hem : in_enum (default "" pm) paymentMethodEnum = true).
      { specialize (Hpm eq_refl). simpl in Hpm.
        destruct Hpm as [<-|[<-|[<-|[<-|[]]]]]; reflexivity. }
      rewrite Hem. cbn [Sale.set_paymentMethod Sale.paymentStatus Sale.set_paymentStatus].
      rewrite Hev. cbn [andb]. eexists _, _. split; [reflexivity|].
      cbn [Sale.paymentStatus Sale.paymentMethod Sale.items Sale.totalAmount
           Sale.saleNumber sales products].
      repeat (split; [reflexivity|]). split; [|reflexivity].
      eapply findSaleById_replace; [exact H | reflexivity].
    + cbn [Sale.set_paymentMethod Sale.paymentStatus Sale.set_paymentStatus].
      rewrite Hev. cbn [andb]. eexists _, _. split; [reflexivity|].
      cbn [Sale.paymentStatus Sale.paymentMethod Sale.items Sale.totalAmount
           Sale.saleNumber sales products].
      repeat (split; [reflexivity|]). split; [|reflexivity].
      eapply findSaleById_replace; [exact H | reflexivity].
Qed.

Lemma updatePaymentStatus_frame_witness :
  exists sale' db',
    updatePaymentStatus 100 (Some "cancelado") None db1
    = (Res 200 (JsonMessageSale EstadoPagoActualizado sale'), db')
    /\ Sale.paymentStatus sale' = "cancelado"
    /\ products db' = products db1
    /\ products db1 !! 1 = Some (Product.set_stock leche (50 - 2))
    /\ updatePaymentStatus 100 (Some "completado") None db'
       = (Res 400 (JsonMessage VentaCanceladaNoModificable), db')
    /\ updatePaymentStatus 100 None None db1
       = (Res 400 (JsonMessage EstadoPagoRequerido), db1)
    /\ updatePaymentStatus 999 (Some "completado") None db1
       = (Res 404 (JsonMessage VentaNoEncontrada), db1).
Proof.
  destruct updatePaymentStatus_frame as (Ha & Hb & Hc & Hd).
  edestruct (Hd 100 "cancelado" None db1)
    as (sale' & db' & H1 & H2 & _ & _ & _ & _ & _ & H3 & H4);
    [right; right; left; reflexivity | discriminate
    | vm_compute; reflexivity | vm_compute; reflexivity |].
  exists sale', db'. split; [exact H1|]. split; [exact H2|]. split; [exact H4|].
  split; [vm_compute; reflexivity|]. split.
  - apply (Hc 100 (Some "completado") None db' sale'); [reflexivity | exact H3|].
    unfold cancelled. rewrite H2. reflexivity.
  - split.
    + apply Ha. reflexivity.
    + apply Hb; [reflexivity | vm_compute; reflexivity].
Defined.

(** ** The seller scope of the queries *)

Lemma restrictToUser_seller (u : Principal.t) (f : Filters.t) :
  Principal.role u <> "admin" ->
  restrictToUser (Some u) f = Filters.set_seller f (Principal.id u).
Proof.
  intros H. unfold restrictToUser. apply String.eqb_neq in H. rewrite H. reflexivity.
Qed.

(** C9 — For a principal whose role is not admin, the filter of getAllSales
    and of getSalesStats holds the principal's own id as seller, and two
    requests that differ only in their sellerId parameter get the same
    answer, whatever the database. *)
Theorem seller_scope_ignores_sellerId
    (u : Principal.t) (q1 q2 : Query.t) (db : Db) :
  Principal.role u <> "admin" ->
  same_but_sellerId q1 q2 ->
  Filters.seller (allSalesFilters (Some u) q1) = Some (Principal.id u)
  /\ Filters.seller (statsFilters (Some u) q1) = Some (Principal.id u)
  /\ allSalesFilters (Some u) q1 = allSalesFilters (Some u) q2
  /\ statsFilters (Some u) q1 = statsFilters (Some u) q2
  /\ getAllSales (Some u) q1 db = getAllSales (Some u) q2 db
  /\ getSalesStats (Some u) q1 db = getSalesStats (Some u) q2 db.
Proof.
  intros Hrole (Hs & He & Hps & Hpm & Hc).
  assert (Hall : allSalesFilters (Some u) q1 = allSalesFilters (Some u) q2).
  { unfold allSalesFilters. rewrite !restrictToUser_seller by assumption.
    rewrite Hs, He, Hps, Hpm, Hc.
    destruct (Query.sellerId q1), (Query.sellerId q2); reflexivity. }
  assert (Hstats : statsFilters (Some u) q1 = statsFilters (Some u) q2).
  { unfold statsFilters. rewrite Hs, He. reflexivity. }
  split; [|split; [|split; [|split; [|split]]]].
  - unfold allSalesFilters. rewrite restrictToUser_seller by assumption. reflexivity.
  - unfold statsFilters. rewrite restrictToUser_seller by assumption. reflexivity.
  - exact Hall.
  - exact Hstats.
  - unfold getAllSales. rewrite Hall. reflexivity.
  - unfold getSalesStats, salesStats. rewrite Hstats. reflexivity.
Qed.

Lemma seller_scope_ignores_sellerId_witness :
  getAllSales (Some empleado) (Query.mk None None None None None (Some 8)) db2
  = getAllSales (Some empleado) noQuery db2
  /\ getSalesStats (Some empleado) (Query.mk None None None None None (Some 8)) db2
     = getSalesStats (Some empleado) noQuery db2.
Proof.
  destruct (seller_scope_ignores_sellerId empleado
              (Query.mk None None None None None (Some 8)) noQuery db2)
    as (_ & _ & _ & _ & H1 & H2).
  - discriminate.
  - repeat split.
  - split; [exact H1 | exact H2].
Defined.

(** ** getSalesStats *)













(** ** A sale created as cancelled *)

Lemma updatePaymentStatus_cancelled (saleId : ObjectId) (ps pm : option string)
    (db : Db) (sale : Sale.t) :
  findSaleById saleId (sales db) = Some sale -> cancelled sale = true ->
  snd (updatePaymentStatus saleId ps pm db) = db.
Proof.
  intros H Hc. unfold updatePaymentStatus.
  destruct (truthy ps); [|reflexivity]. simpl. rewrite H.
  unfold cancelled in Hc. rewrite Hc. reflexivity.
Qed.

Lemma cancelSale_cancelled (saleId : ObjectId) (db : Db) (sale : Sale.t) :
  findSaleById saleId (sales db) = Some sale -> cancelled sale = true ->
  cancelSale saleId db = (Res 400 (JsonMessage VentaYaCancelada), db).
Proof.
  intros H Hc. unfold cancelSale, cancelSaleTx. rewrite H.
  unfold cancelled in Hc. rewrite Hc. reflexivity.
Qed.




(** ** Sale numbers *)

Lemma string_of_uint_noDash (d : Decimal.uint) :
  noDash (NilEmpty.string_of_uint d) = true.
Proof. induction d; simpl; auto. Qed.

Lemma toString_noDash (n : nat) : noDash (toString n) = true.
Proof. apply string_of_uint_noDash. Qed.

Lemma split_at_dash (s1 : string) : forall s2 r1 r2,
  noDash s1 = true -> noDash s2 = true ->
  String.append s1 (String "-"%char r1) = String.append s2 (String "-"%char r2) ->
  s1 = s2 /\ r1 = r2.
Proof.
  induction s1 as [|c s1 IH]; intros [|c' s2] r1 r2 H1 H2; simpl in *.
  - intros [= ->]. auto.
  - intros [= <- _]. simpl in H2. discriminate.
  - intros [= -> _]. simpl in H1. discriminate.
  - intros [= <- Hrest].
    apply andb_true_iff in H1 as [_ H1]. apply andb_true_iff in H2 as [_ H2].
    destruct (IH _ _ _ H1 H2 Hrest) as [-> ->]. auto.
Qed.

Lemma valueOf_toString (n : nat) : valueOf (toString n) = Some n.
Proof.
  unfold valueOf, toString. rewrite NilEmpty.usu. simpl.
  rewrite DecimalNat.Unsigned.of_to. reflexivity.
Qed.

Lemma valueOf_zeros (k : nat) (s : string) :
  valueOf (String.append (zeros k) s) = valueOf s.
Proof.
  induction k as [|k IH]; simpl; [reflexivity|].
  rewrite <- IH. unfold valueOf. simpl.
  destruct (NilEmpty.uint_of_string (String.append (zeros k) s)); reflexivity.
Qed.

Lemma valueOf_padStart (k n : nat) : valueOf (padStart k (toString n)) = Some n.
Proof. unfold padStart. rewrite valueOf_zeros. apply valueOf_toString. Qed.








(** *** The numbering is kept by every handler *)









(** ** The schemas are kept by every handler *)








(** * Properties of the code around the sale engine *)

(** ** adjustStock *)

Lemma adjustStock_numeric (quantity : jsval) :
  isUndefined quantity || isNaN (ToNumber quantity) = false ->
  exists q, ToNumber quantity = Fin q /\ quantity <> JUndefined.
Proof.
  destruct quantity as [| |[q|]|t]; simpl; try discriminate.
  - intros _. exists 0%Q. split; [reflexivity | discriminate].
  - intros _. exists q. split; [reflexivity | discriminate].
Qed.

(** The answers of adjustStock, case by case. *)
Lemma adjustStock_inv
    (productId : ObjectId) (quantity : jsval) (operation : option string)
    (db db' : Db) (r : StockResponse) :
  adjustStock productId quantity operation db = (r, db') ->
  (stockStatus r = 200 ->
     exists p q s,
       products db !! productId = Some p
       /\ quantity <> JUndefined /\ ToNumber quantity = Fin q
       /\ (default "add" operation = "add" /\ s = (Product.stock p + q)%Q
           \/ default "add" operation = "subtract" /\ s = (Product.stock p - q)%Q
           \/ default "add" operation = "set" /\ s = q)
       /\ (0 <= s)%Q
       /\ r = StockRes 200 (StockJsonProduct StockActualizado (Product.set_stock p s))
       /\ db' = mkDb (<[productId := Product.set_stock p s]> (products db))
                  (sales db) (users db))
  /\ (stockStatus r <> 200 -> db' = db).
Proof.
  unfold adjustStock.
  destruct (isUndefined quantity || isNaN (ToNumber quantity)) eqn:Eq.
  { intros [= <- <-]. split; [discriminate | reflexivity]. }
  destruct (adjustStock_numeric _ Eq) as (q & Hq & Hdef).
  destruct (products db !! productId) as [p|] eqn:Hp.
  2:{ intros [= <- <-]. split; [discriminate | reflexivity]. }
  rewrite Hq.
  assert (Hsave : forall s0 r0 db0,
            match Product.save_stock p (Fin s0) with
            | Some product' =>
                (StockRes 200 (StockJsonProduct StockActualizado product'),
                 mkDb (<[productId := product']> (products db)) (sales db) (users db))
            | None =>
                (StockRes 500 (StockJsonError ErrorAlAjustarStock MongooseValidationError),
                 db)
            end = (r0, db0) ->
            (stockStatus r0 = 200 ->
               (0 <= s0)%Q
               /\ r0 = StockRes 200 (StockJsonProduct StockActualizado
                                       (Product.set_stock p s0))
               /\ db0 = mkDb (<[productId := Product.set_stock p s0]> (products db))
                          (sales db) (users db))
            /\ (stockStatus r0 <> 200 -> db0 = db)).
  { intros s0 r0 db0. destruct (Product.save_stock p (Fin s0)) as [p'|] eqn:Es.
    - apply save_stock_Some in Es as (s1 & [= <-] & Hle & ->).
      intros [= <- <-]. split; [auto | simpl; congruence].
    - intros [= <- <-]. split; [discriminate | reflexivity]. }
  destruct (String.eqb_spec (default "add" operation) "add") as [Eop|_].
  { simpl. intros H. destruct (Hsave _ _ _ H) as [H1 H2]. split; [|exact H2].
    intros H200. destruct (H1 H200) as (Hle & -> & ->).
    exists p, q, (Product.stock p + q)%Q. repeat split; auto. }
  destruct (String.eqb_spec (default "add" operation) "subtract") as [Eop|_].
  { simpl. destruct (negb (Qle_bool 0 (Product.stock p - q))).
    { intros [= <- <-]. split; [discriminate | reflexivity]. }
    intros H. destruct (Hsave _ _ _ H) as [H1 H2]. split; [|exact H2].
    intros H200. destruct (H1 H200) as (Hle & -> & ->).
    exists p, q, (Product.stock p - q)%Q. repeat split; auto. }
  destruct (String.eqb_spec (default "add" operation) "set") as [Eop|_].
  { intros H. destruct (Hsave _ _ _ H) as [H1 H2]. split; [|exact H2].
    intros H200. destruct (H1 H200) as (Hle & -> & ->).
    exists p, q, q. repeat split; auto. }
  intros [= <- <-]. split; [discriminate | reflexivity].
Qed.

(** X1 — adjustStock answers 200 only for a quantity that reads as a
    number, a product that exists and one of the operations add, subtract
    and set; the product then holds the stock plus the quantity, the stock
    minus the quantity, or the quantity, which is not negative, and nothing
    else changed in the database. With any other answer the database is
    the one before the call. *)
Theorem adjustStock_effect
    (productId : ObjectId) (quantity : jsval) (operation : option string)
    (db db' : Db) (r : StockResponse) :
  adjustStock productId quantity operation db = (r, db') ->
  (stockStatus r = 200 ->
     exists p q s,
       products db !! productId = Some p
       /\ quantity <> JUndefined /\ ToNumber quantity = Fin q
       /\ (default "add" operation = "add" /\ s = (Product.stock p + q)%Q
           \/ default "add" operation = "subtract" /\ s = (Product.stock p - q)%Q
           \/ default "add" operation = "set" /\ s = q)
       /\ (0 <= s)%Q
       /\ r = StockRes 200 (StockJsonProduct StockActualizado (Product.set_stock p s))
       /\ db' = mkDb (<[productId := Product.set_stock p s]> (products db))
                  (sales db) (users db))
  /\ (stockStatus r <> 200 -> db' = db).
Proof.
  intros Hcall.
  destruct (adjustStock_inv productId quantity operation db db' r Hcall)
    as [Haccepted Hrefused].
  split; [|exact Hrefused].
  intros H200. destruct (Haccepted H200) as (p & q & s & Hp & Hdef & Hq & Hop & Hle & Hr & Hdb).
  exists p, q, s. repeat split; assumption.
Qed.

Lemma adjustStock_effect_witness :
  exists db',
    adjustStock 5 (number 5) None db0
    = (StockRes 200 (StockJsonProduct StockActualizado (Product.set_stock arroz (5 + 5))),
       db')
    /\ products db' !! 5 = Some (Product.set_stock arroz (5 + 5))
    /\ snd (adjustStock 5 (JNonNumeric "abc") None db0) = db0.
Proof.
  destruct (adjustStock_effect 5 (number 5) None db0
              (snd (adjustStock 5 (number 5) None db0))
              (fst (adjustStock 5 (number 5) None db0)))
    as [H1 _]; [vm_compute; reflexivity|].
  destruct H1 as (p & q & s & Hp & _ & Hq & _ & _ & Hr & Hdb); [vm_compute; reflexivity|].
  exists (snd (adjustStock 5 (number 5) None db0)).
  split; [vm_compute; reflexivity|]. split; [vm_compute; reflexivity|].
  apply (proj2 (adjustStock_effect 5 (JNonNumeric "abc") None db0
                  (snd (adjustStock 5 (JNonNumeric "abc") None db0))
                  (fst (adjustStock 5 (JNonNumeric "abc") None db0)) eq_refl)).
  vm_compute. discriminate.
Defined.

(** X2 — adjustStock never stores a negative stock: a subtraction of more
    than the stock is answered 400 "Stock insuficiente", an addition or a
    set that would give a negative stock is answered 500 by the schema
    validation of the save, and in each case the database is unchanged. *)
Theorem adjustStock_never_negative
    (productId : ObjectId) (quantity : jsval) (q : Q) (p : Product.t) (db : Db) :
  products db !! productId = Some p ->
  quantity <> JUndefined -> ToNumber quantity = Fin q ->
  ((Product.stock p < q)%Q ->
     adjustStock productId quantity (Some "subtract") db
     = (StockRes 400 (StockJson StockInsuficienteOperacion), db))
  /\ ((Product.stock p + q < 0)%Q ->
        adjustStock productId quantity (Some "add") db
        = (StockRes 500 (StockJsonError ErrorAlAjustarStock MongooseValidationError), db)
        /\ adjustStock productId quantity None db
           = (StockRes 500 (StockJsonError ErrorAlAjustarStock MongooseValidationError),
              db))
  /\ ((q < 0)%Q ->
        adjustStock productId quantity (Some "set") db
        = (StockRes 500 (StockJsonError ErrorAlAjustarStock MongooseValidationError), db)).
Proof.
  intros Hp Hdef Hq.
  assert (Hu : isUndefined quantity || isNaN (ToNumber quantity) = false).
  { rewrite Hq. destruct quantity; try reflexivity. contradiction. }
  assert (Hneg : forall s, (s < 0)%Q -> Qle_bool 0 s = false).
  { intros s Hs. destruct (Qle_bool 0 s) eqn:E; [|reflexivity].
    apply Qle_bool_iff in E. exfalso. apply (Qlt_not_le _ _ Hs E). }
  split; [|split].
  - intros Hlt. unfold adjustStock. rewrite Hu, Hp, Hq. simpl.
    rewrite Hneg; [reflexivity|].
    unfold Qminus. rewrite <- (Qplus_opp_r q).
    apply Qplus_lt_le_compat; [exact Hlt | apply Qle_refl].
  - intros Hlt. unfold adjustStock. rewrite Hu, Hp, Hq. simpl.
    rewrite (Hneg _ Hlt). split; reflexivity.
  - intros Hlt. unfold adjustStock. rewrite Hu, Hp, Hq. simpl.
    rewrite (Hneg _ Hlt). reflexivity.
Qed.

Lemma adjustStock_never_negative_witness :
  adjustStock 5 (number 6) (Some "subtract") db0
  = (StockRes 400 (StockJson StockInsuficienteOperacion), db0)
  /\ adjustStock 5 (number (-6)) (Some "add") db0
     = (StockRes 500 (StockJsonError ErrorAlAjustarStock MongooseValidationError), db0)
  /\ adjustStock 5 (number (-1)) (Some "set") db0
     = (StockRes 500 (StockJsonError ErrorAlAjustarStock MongooseValidationError), db0).
Proof.
  split; [|split].
  - apply (proj1 (adjustStock_never_negative 5 (number 6) 6 arroz db0
                    eq_refl ltac:(discriminate) eq_refl)).
    reflexivity.
  - apply (proj1 (proj2 (adjustStock_never_negative 5 (number (-6)) (-6) arroz db0
                    eq_refl ltac:(discriminate) eq_refl))).
    reflexivity.
  - apply (proj2 (proj2 (adjustStock_never_negative 5 (number (-1)) (-1) arroz db0
                    eq_refl ltac:(discriminate) eq_refl))).
    reflexivity.
Defined.



(** ** Sequences of requests *)









(** ** Sales: what a stored sale satisfies, what is refused *)

Lemma validate_item_bounds (pit : ProcessedItem.t) (line : SaleItem.t) :
  validate_item pit = Some line ->
  (1 <= SaleItem.quantity line)%Q /\ (0 <= SaleItem.unitPrice line)%Q
  /\ (0 <= SaleItem.discount line)%Q /\ (SaleItem.discount line <= 100)%Q.
Proof.
  unfold validate_item, validate_quantity, validate_unitPrice, validate_discount.
  destruct (castNumber (ProcessedItem.quantity pit)) as [q| |]; try discriminate.
  destruct (Qle_bool 1 q) eqn:E1; [|discriminate].
  destruct (Qle_bool 0 (ProcessedItem.unitPrice pit)) eqn:E2; [|discriminate].
  destruct (castNumber (ProcessedItem.discount pit)) as [d| |]; try discriminate.
  - destruct (Qle_bool 0 d && Qle_bool d 100) eqn:E3; [|discriminate].
    destruct (validate_required _); [|discriminate].
    intros [= <-]. simpl. apply andb_true_iff in E3 as [E3 E4].
    repeat split; apply Qle_bool_iff; assumption.
  - destruct (validate_required _); [|discriminate].
    intros [= <-]. simpl.
    repeat split; try (apply Qle_bool_iff; assumption); discriminate.
Qed.

Lemma createSale_201_bounds env user saleData db r db' :
  createSale env user saleData db = (r, db') -> status r = 201 ->
  exists newSale,
    sales db' = (sales db ++ [newSale])%list
    /\ In (Sale.paymentMethod newSale) paymentMethodEnum
    /\ SaleData.paymentMethod saleData = Some (Sale.paymentMethod newSale)
    /\ Forall (fun line =>
                 (1 <= SaleItem.quantity line)%Q /\ (0 <= SaleItem.unitPrice line)%Q
                 /\ (0 <= SaleItem.discount line)%Q /\ (SaleItem.discount line <= 100)%Q)
         (Sale.items newSale).
Proof.
  intros H H201.
  destruct (createSale_201 _ _ _ _ _ _ H H201)
    as (its & st & u & newSale & _ & Hpm & _ & _ & Hval & _ & -> & _).
  apply validate_sale_inv in Hval as (lines & tot & t & Hlines & _ & Hm & _ & ->).
  eexists. cbn [sales Sale.paymentMethod Sale.items].
  split; [reflexivity|]. split; [apply in_enum_truthy, Hm|]. split.
  - destruct (SaleData.paymentMethod saleData); [reflexivity | discriminate].
  - apply validate_items_Forall2 in Hlines.
    clear - Hlines. induction Hlines; constructor; eauto using validate_item_bounds.
Qed.

Lemma discounted_bounds (q u d : Q) :
  (1 <= q)%Q -> (0 <= u)%Q -> (0 <= d)%Q -> (d <= 100)%Q ->
  (0 <= q * u * (1 - d / 100) <= q * u)%Q.
Proof.
  intros Hq Hu Hd0 Hd1.
  assert (E : (d / 100 == d * (1 # 100))%Q) by (unfold Qdiv; reflexivity).
  assert (Hs : forall x f : Q,
             (0 <= x)%Q -> (0 <= f)%Q -> (f <= 1)%Q -> (0 <= x * f <= x)%Q).
  { intros x f Hx Hf0 Hf1. split; nra. }
  apply Hs; [nra | rewrite E; lra | rewrite E; lra].
Qed.

Lemma sumQ_nonneg (l : list Q) :
  Forall (fun x => (0 <= x)%Q) l -> (0 <= sumQ l)%Q.
Proof.
  induction 1 as [|x l Hx _ IH]; [discriminate|].
  rewrite sumQ_cons. rewrite <- (Qplus_0_r 0). apply Qplus_le_compat; assumption.
Qed.

(** X6 — Every sale that createSale stores has, on each line item, a
    quantity of at least 1, a unit price that is not negative, a discount
    between 0 and 100 and a subtotal between 0 and quantity * unit price;
    its totalAmount is not negative and its payment method is one of the
    schema. *)
Theorem createSale_stores_valid_sales
    (env : Env) (user : option Principal.t) (saleData : SaleData.t)
    (db db' : Db) (r : Response) :
  createSale env user saleData db = (r, db') -> status r = 201 ->
  exists newSale,
    sales db' = (sales db ++ [newSale])%list
    /\ In (Sale.paymentMethod newSale) paymentMethodEnum
    /\ In (Sale.paymentStatus newSale) paymentStatusEnum
    /\ Forall (fun line =>
                 (1 <= SaleItem.quantity line)%Q /\ (0 <= SaleItem.unitPrice line)%Q
                 /\ (0 <= SaleItem.discount line <= 100)%Q
                 /\ (0 <= SaleItem.subtotal line
                     <= SaleItem.quantity line * SaleItem.unitPrice line)%Q)
         (Sale.items newSale)
    /\ (0 <= Sale.totalAmount newSale)%Q.
Proof.
  intros H H201.
  destruct (createSale_201_bounds _ _ _ _ _ _ H H201)
    as (newSale & Hsales & Hpm & _ & Hb).
  destruct (createSale_201_lines _ _ _ _ _ _ H H201)
    as (its & newSale' & _ & Hsales' & _ & _ & _ & _ & Hps & _ & Hl & Htot & _).
  rewrite Hsales in Hsales'. apply app_inj_tail in Hsales' as [_ <-].
  assert (Hlines : Forall (fun line =>
                 (1 <= SaleItem.quantity line)%Q /\ (0 <= SaleItem.unitPrice line)%Q
                 /\ (0 <= SaleItem.discount line <= 100)%Q
                 /\ (0 <= SaleItem.subtotal line
                     <= SaleItem.quantity line * SaleItem.unitPrice line)%Q)
         (Sale.items newSale)).
  { clear - Hb Hl. revert Hb. induction Hl as [|item line its lines H _ IH];
      intros Hb; [constructor|].
    inversion Hb as [|? ? (Hq & Hu & Hd0 & Hd1) Hb']; subst.
    constructor; [|apply IH, Hb'].
    destruct H as (_ & _ & _ & _ & _ & _ & _ & _ & Hs).
    split; [exact Hq|]. split; [exact Hu|]. split; [split; assumption|].
    rewrite Hs.
    apply discounted_bounds; assumption. }
  exists newSale. split; [exact Hsales|]. split; [exact Hpm|].
  split; [apply in_enum_truthy, Hps|]. split; [exact Hlines|].
  rewrite Htot. apply sumQ_nonneg.
  clear - Hlines. induction Hlines as [|line lines (_ & _ & _ & H0 & _) _ IH];
    constructor; assumption.
Qed.

Lemma createSale_stores_valid_sales_witness :
  exists newSale,
    sales db1 = [newSale] /\ (0 <= Sale.totalAmount newSale)%Q
    /\ In (Sale.paymentMethod newSale) paymentMethodEnum.
Proof.
  destruct (createSale_stores_valid_sales env0 (Some empleado) order0 db0 db1
              (fst (createSale env0 (Some empleado) order0 db0)))
    as (newSale & Hsales & Hpm & _ & _ & Htot);
    [vm_compute; reflexivity | vm_compute; reflexivity |].
  exists newSale. split; [exact Hsales|]. split; [exact Htot | exact Hpm].
Defined.

(** X7 — createSale checks none of this before its item loop, but no sale
    is stored and the database is unchanged when an item asks for a
    quantity below 1 (zero and negative quantities included, which pass the
    stock comparison), when the payment method is not one of the schema,
    or when a payment status is given that is not one of the schema. *)
Theorem createSale_refuses_invalid
    (env : Env) (user : option Principal.t) (saleData : SaleData.t) (db : Db) :
  (exists its item q,
     SaleData.items saleData = Some its /\ In item its
     /\ Item.quantity item = number q /\ (q < 1)%Q)
  \/ ~ In (default "" (SaleData.paymentMethod saleData)) paymentMethodEnum
  \/ (truthy (SaleData.paymentStatus saleData) = true
      /\ ~ In (default "" (SaleData.paymentStatus saleData)) paymentStatusEnum) ->
  status (fst (createSale env user saleData db)) <> 201
  /\ snd (createSale env user saleData db) = db.
Proof.
  intros Hbad.
  assert (Hne : status (fst (createSale env user saleData db)) <> 201).
  { intros H201. destruct (createSale env user saleData db) as [r db'] eqn:E.
    cbn [fst] in H201.
    destruct Hbad as [(its & item & q & Hits & Hin & Hq & Hlt)|[Hpm|[Ht Hps]]].
    - destruct (createSale_201_bounds _ _ _ _ _ _ E H201)
        as (newSale & Hsales & _ & _ & Hb).
      destruct (createSale_201_lines _ _ _ _ _ _ E H201)
        as (its' & newSale' & Hits' & Hsales' & _ & _ & _ & _ & _ & _ & Hl & _).
      rewrite Hsales in Hsales'. apply app_inj_tail in Hsales' as [_ <-].
      rewrite Hits in Hits'. injection Hits' as <-.
      clear - Hin Hq Hlt Hb Hl. revert Hb.
      induction Hl as [|i l its0 ls0 H _ IH]; intros Hb; [contradiction|].
      inversion Hb as [|? ? (H1 & _) Hb']; subst.
      destruct Hin as [->|Hin]; [|exact (IH Hin Hb')].
      destruct H as (_ & _ & _ & _ & _ & Hq' & _). rewrite Hq in Hq'.
      injection Hq' as ->. apply (Qlt_not_le _ _ Hlt H1).
    - destruct (createSale_201_bounds _ _ _ _ _ _ E H201)
        as (newSale & _ & Hin & Heq & _).
      apply Hpm. rewrite Heq. exact Hin.
    - destruct (createSale_201_lines _ _ _ _ _ _ E H201)
        as (_ & newSale & _ & _ & _ & _ & _ & Hst & Henum & _).
      apply Hps. rewrite Ht in Hst. rewrite <- Hst. apply in_enum_truthy, Henum. }
  split; [exact Hne | apply createSale_failure_unchanged, Hne].
Qed.

Lemma createSale_refuses_invalid_witness :
  snd (createSale env0 (Some empleado) orderNegative db0) = db0
  /\ snd (createSale env0 (Some empleado) orderBitcoin db0) = db0
  /\ fst (createSale env0 (Some empleado) orderBitcoin db0)
     = Res 500 (JsonError ErrorAlCrearVenta MongooseValidationError).
Proof.
  split; [|split].
  - apply (createSale_refuses_invalid env0 (Some empleado) orderNegative db0).
    left. exists [Item.mk 1 (number (-3)) JUndefined], (Item.mk 1 (number (-3)) JUndefined),
      (-3)%Q.
    split; [reflexivity|]. split; [left; reflexivity|]. split; reflexivity.
  - apply (createSale_refuses_invalid env0 (Some empleado) orderBitcoin db0).
    right. left. simpl. intros [H|[H|[H|[H|[]]]]]; discriminate.
  - vm_compute. reflexivity.
Defined.

(** ** Sales: how the handlers compose *)




Lemma updatePaymentStatus_200 saleId ps pm db r db' :
  updatePaymentStatus saleId ps pm db = (r, db') -> status r = 200 ->
  exists sale sale',
    findSaleById saleId (sales db) = Some sale /\ cancelled sale = false
    /\ truthy ps = true
    /\ Sale.paymentStatus sale' = default "" ps
    /\ Sale._id sale' = Sale._id sale
    /\ Sale.items sale' = Sale.items sale
    /\ db' = mkDb (products db) (replaceSale sale' (sales db)) (users db).
Proof.
  unfold updatePaymentStatus.
  destruct (truthy ps) eqn:Et; cbn [negb]; [|intros [= <- _]; simpl; lia].
  destruct (findSaleById saleId (sales db)) as [sale|] eqn:E;
    [|intros [= <- _]; simpl; lia].
  destruct (String.eqb (Sale.paymentStatus sale) "cancelado") eqn:Ec;
    [intros [= <- _]; simpl; lia|].
  destruct (truthy pm); cbv beta match;
    (destruct (_ && _); [|intros [= <- _]; simpl; lia]);
    intros [= <- <-] _.
  - exists sale, (Sale.set_paymentMethod (Sale.set_paymentStatus sale (default "" ps))
                    (default "" pm)).
    split; [reflexivity|]. split; [exact Ec|]. repeat split; reflexivity.
  - exists sale, (Sale.set_paymentStatus sale (default "" ps)).
    split; [reflexivity|]. split; [exact Ec|]. repeat split; reflexivity.
Qed.

(** X9 — A sale that updatePaymentStatus set to cancelado keeps the stock
    it took: the Product collection is the one before the call, a cancelSale
    of that sale is then answered 400 "La venta ya esta cancelada" and a
    further updatePaymentStatus changes nothing, so no sale handler gives
    the stock back. *)
Theorem status_cancel_keeps_stock
    (saleId : ObjectId) (pm : option string) (db db' : Db) (r : Response) :
  updatePaymentStatus saleId (Some "cancelado") pm db = (r, db') ->
  status r = 200 ->
  products db' = products db
  /\ cancelSale saleId db' = (Res 400 (JsonMessage VentaYaCancelada), db')
  /\ (forall ps' pm', snd (updatePaymentStatus saleId ps' pm' db') = db').
Proof.
  intros H H200.
  destruct (updatePaymentStatus_200 _ _ _ _ _ _ H H200)
    as (sale & sale' & Hfind & _ & _ & Hps & Hid & _ & ->).
  assert (Hfind' : findSaleById saleId (replaceSale sale' (sales db)) = Some sale').
  { eapply findSaleById_replace; eauto. }
  assert (Hc : cancelled sale' = true).
  { unfold cancelled. rewrite Hps. reflexivity. }
  split; [reflexivity|]. split.
  - apply (cancelSale_cancelled _ _ sale'); [exact Hfind' | exact Hc].
  - intros ps' pm'. eapply updatePaymentStatus_cancelled; [exact Hfind' | exact Hc].
Qed.

Lemma status_cancel_keeps_stock_witness :
  products (snd (updatePaymentStatus 100 (Some "cancelado") None db1)) !! 1
  = Some (Product.set_stock leche (50 - 2))
  /\ fst (cancelSale 100 (snd (updatePaymentStatus 100 (Some "cancelado") None db1)))
     = Res 400 (JsonMessage VentaYaCancelada).
Proof.
  destruct (status_cancel_keeps_stock 100 None db1
              (snd (updatePaymentStatus 100 (Some "cancelado") None db1))
              (fst (updatePaymentStatus 100 (Some "cancelado") None db1)))
    as (Hp & Hc & _); [vm_compute; reflexivity | vm_compute; reflexivity |].
  split.
  - rewrite Hp. vm_compute. reflexivity.
  - rewrite Hc. reflexivity.
Defined.

(** ** getSaleById *)

Lemma findSaleById_app_other (id : ObjectId) (l : list Sale.t) (s : Sale.t) :
  Sale._id s <> id -> findSaleById id (l ++ [s]) = findSaleById id l.
Proof.
  intros Hne. unfold findSaleById. induction l as [|x l IH]; simpl.
  - apply Nat.eqb_neq in Hne. rewrite Hne. reflexivity.
  - destruct (Sale._id x =? id); [reflexivity | exact IH].
Qed.

Lemma findSaleById_replace_other (id : ObjectId) (l : list Sale.t) (s' : Sale.t) :
  Sale._id s' <> id -> findSaleById id (replaceSale s' l) = findSaleById id l.
Proof.
  intros Hne. unfold findSaleById, replaceSale. induction l as [|x l IH]; simpl.
  - reflexivity.
  - destruct (Nat.eqb_spec (Sale._id x) (Sale._id s')) as [E|E].
    + apply Nat.eqb_neq in Hne. rewrite Hne.
      rewrite <- E in Hne. rewrite Hne. exact IH.
    + destruct (Sale._id x =? id); [reflexivity | exact IH].
Qed.

(** X10 — The sale that createSale stored is the one getSaleById finds
    under the new id, the same document createSale put in its 201 answer,
    and getSaleById answers for every other id what it answered before. *)
Theorem getSaleById_after_createSale
    (emails : gmap ObjectId string) (env : Env) (user : option Principal.t)
    (saleData : SaleData.t) (db db' : Db) (r : Response) :
  createSale env user saleData db = (r, db') -> status r = 201 ->
  exists newSale,
    r = Res 201 (JsonSale (Some (populate (users db') newSale)))
    /\ getSaleById emails (newId env) db'
       = DetailRes 200 (DetailSale (populateDetail emails (users db') newSale))
    /\ (forall id, id <> newId env ->
          getSaleById emails id db' = getSaleById emails id db).
Proof.
  intros H H201.
  destruct (createSale_201 _ _ _ _ _ _ H H201)
    as (its & st & u & newSale & _ & _ & _ & _ & Hval & Hins & -> & ->).
  apply insertSale_Some in Hins as [_ Hfresh].
  assert (Hid : Sale._id newSale = newId env).
  { apply validate_sale_inv in Hval as (? & ? & ? & _ & _ & _ & _ & ->). reflexivity. }
  exists newSale. split; [reflexivity|]. unfold getSaleById. cbn [sales users]. split.
  - rewrite <- Hid, findSaleById_fresh; [reflexivity|].
    eapply List.Forall_impl; [|exact Hfresh]. intros s' [Hs' _]. exact Hs'.
  - intros id Hne. rewrite findSaleById_app_other; [reflexivity | congruence].
Qed.

Lemma getSaleById_after_createSale_witness :
  detailStatus (getSaleById ∅ 100 db1) = 200
  /\ getSaleById ∅ 100 db0 = DetailRes 404 (DetailMessage VentaNoEncontrada)
  /\ getSaleById ∅ 101 db1 = getSaleById ∅ 101 db0.
Proof.
  destruct (getSaleById_after_createSale ∅ env0 (Some empleado) order0 db0 db1
              (fst (createSale env0 (Some empleado) order0 db0)))
    as (newSale & _ & Hget & Hother);
    [vm_compute; reflexivity | vm_compute; reflexivity |].
  split; [|split].
  - change 100 with (newId env0). rewrite Hget. reflexivity.
  - vm_compute. reflexivity.
  - apply Hother. discriminate.
Defined.

(** X11 — cancelSale and updatePaymentStatus touch no sale but the one
    they are called for: whatever their answer, every other id finds the
    document it found before, and the ledger keeps its length. *)
Theorem other_sales_untouched
    (saleId other : ObjectId) (ps pm : option string) (db : Db) :
  other <> saleId ->
  findSaleById other (sales (snd (cancelSale saleId db)))
  = findSaleById other (sales db)
  /\ findSaleById other (sales (snd (updatePaymentStatus saleId ps pm db)))
     = findSaleById other (sales db)
  /\ length (sales (snd (cancelSale saleId db))) = length (sales db)
  /\ length (sales (snd (updatePaymentStatus saleId ps pm db))) = length (sales db).
Proof.
  intros Hne.
  assert (Hc : sales (snd (cancelSale saleId db)) = sales db
               \/ exists s', Sale._id s' = saleId
                             /\ sales (snd (cancelSale saleId db))
                                = replaceSale s' (sales db)).
  { unfold cancelSale, cancelSaleTx, endSession.
    destruct (findSaleById saleId (sales db)) as [sale|] eqn:E; [|left; reflexivity].
    destruct (String.eqb _ _); [left; reflexivity|].
    destruct (restoreItems _ _) as [[| r | e] ps0]; cbn [snd committed working];
      try (left; reflexivity).
    right. eexists. split; [|reflexivity]. apply (findSaleById_Some _ _ _ E). }
  assert (Hu : sales (snd (updatePaymentStatus saleId ps pm db)) = sales db
               \/ exists s', Sale._id s' = saleId
                             /\ sales (snd (updatePaymentStatus saleId ps pm db))
                                = replaceSale s' (sales db)).
  { destruct (updatePaymentStatus saleId ps pm db) as [r db'] eqn:E.
    destruct (Nat.eq_dec (status r) 200) as [H200|Hne200].
    - destruct (updatePaymentStatus_200 _ _ _ _ _ _ E H200)
        as (sale & sale' & Hfind & _ & _ & _ & Hid & _ & ->).
      right. exists sale'. split; [|reflexivity].
      rewrite Hid. apply (findSaleById_Some _ _ _ Hfind).
    - left. revert E. unfold updatePaymentStatus.
      destruct (negb (truthy ps)); [intros [= _ <-]; reflexivity|].
      destruct (findSaleById saleId (sales db)); [|intros [= _ <-]; reflexivity].
      destruct (String.eqb _ _); [intros [= _ <-]; reflexivity|].
      destruct (truthy pm); cbv beta match;
        (destruct (_ && _); [|intros [= _ <-]; reflexivity]);
        intros [= <- _]; simpl in Hne200; contradiction. }
  assert (Hlen : forall s' l, length (replaceSale s' l) = length l).
  { intros. apply List.length_map. }
  repeat split.
  - destruct Hc as [->|(s' & Hid & ->)]; [reflexivity|].
    apply findSaleById_replace_other. congruence.
  - destruct Hu as [->|(s' & Hid & ->)]; [reflexivity|].
    apply findSaleById_replace_other. congruence.
  - destruct Hc as [->|(s' & Hid & ->)]; [reflexivity | apply Hlen].
  - destruct Hu as [->|(s' & Hid & ->)]; [reflexivity | apply Hlen].
Qed.

Lemma other_sales_untouched_witness :
  findSaleById 101 (sales (snd (cancelSale 100 db2))) = findSaleById 101 (sales db2)
  /\ Sale.paymentStatus <$> findSaleById 101 (sales db2) = Some "pendiente".
Proof.
  split.
  - apply (other_sales_untouched 100 101 None None db2). discriminate.
  - vm_compute. reflexivity.
Defined.

(** ** Sorting, as the queries use it *)

Lemma insertBy_perm {A : Type} (le : A -> A -> bool) (a : A) (l : list A) :
  Permutation (insertBy le a l) (a :: l).
Proof.
  induction l as [|b l IH]; simpl.
  - reflexivity.
  - destruct (le a b); [reflexivity|].
    rewrite IH. apply perm_swap.
Qed.

Lemma sortBy_perm {A : Type} (le : A -> A -> bool) (l : list A) :
  Permutation (sortBy le l) l.
Proof.
  unfold sortBy. induction l as [|a l IH]; simpl.
  - reflexivity.
  - rewrite insertBy_perm, IH. reflexivity.
Qed.

Lemma insertBy_sorted {A : Type} (le : A -> A -> bool) (a : A) (l : list A) :
  (forall x y, le x y = false -> le y x = true) ->
  Sorted (fun x y => le x y = true) l ->
  Sorted (fun x y => le x y = true) (insertBy le a l).
Proof.
  intros Htot Hs. induction Hs as [|b l Hs IH Hhd]; simpl.
  - repeat constructor.
  - destruct (le a b) eqn:E.
    + constructor; [constructor; assumption | constructor; exact E].
    + constructor; [exact IH|].
      destruct l as [|c l]; simpl.
      * constructor. apply Htot, E.
      * destruct (le a c); constructor.
        -- apply Htot, E.
        -- inversion Hhd; assumption.
Qed.

Lemma sortBy_sorted {A : Type} (le : A -> A -> bool) (l : list A) :
  (forall x y, le x y = false -> le y x = true) ->
  Sorted (fun x y => le x y = true) (sortBy le l).
Proof.
  intros Htot. unfold sortBy. induction l as [|a l IH]; simpl.
  - constructor.
  - apply insertBy_sorted; assumption.
Qed.

Lemma Sorted_map {A B : Type} (f : A -> B) (R : B -> B -> Prop) (l : list A) :
  Sorted (fun x y => R (f x) (f y)) l -> Sorted R (List.map f l).
Proof.
  induction 1 as [|a l Hs IH Hhd]; simpl; constructor; [exact IH|].
  destruct Hhd; simpl; constructor; assumption.
Qed.

Lemma Sorted_firstn {A : Type} (R : A -> A -> Prop) (n : nat) (l : list A) :
  Sorted R l -> Sorted R (firstn n l).
Proof.
  intros Hs. revert n. induction Hs as [|a l Hs IH Hhd]; intros [|n]; simpl;
    try constructor.
  - apply IH.
  - destruct Hhd; destruct n; simpl; constructor; assumption.
Qed.


Lemma Qle_bool_total (a b : Q) : Qle_bool a b = false -> Qle_bool b a = true.
Proof.
  intros H. apply Qle_bool_iff. destruct (Qlt_le_dec a b) as [Hlt|Hle]; [|exact Hle].
  apply Qlt_le_weak in Hlt. apply Qle_bool_iff in Hlt. congruence.
Qed.

(** ** getAllSales *)

Lemma getAllSales_docs (user : option Principal.t) (q : Query.t) (db : Db) :
  Permutation (List.map Populated.doc (salesOf (getAllSales user q db)))
    (List.filter (matches (allSalesFilters user q)) (sales db)).
Proof.
  unfold getAllSales, salesOf. cbn [json].
  rewrite List.map_map. cbn [populate Populated.doc]. rewrite List.map_id.
  apply sortBy_perm.
Qed.


Lemma matches_seller (f : Filters.t) (s : Sale.t) (u : ObjectId) :
  Filters.seller f = Some u -> matches f s = true -> Sale.seller s = u.
Proof.
  intros Hf Hm. unfold matches in Hm. rewrite Hf in Hm.
  apply andb_true_iff in Hm as [_ Hm]. simpl in Hm. apply Nat.eqb_eq, Hm.
Qed.

Lemma salesOf_matches (user : option Principal.t) (q : Query.t) (db : Db)
    (p : Populated.t) :
  In p (salesOf (getAllSales user q db)) ->
  In (Populated.doc p) (sales db)
  /\ matches (allSalesFilters user q) (Populated.doc p) = true.
Proof.
  intros Hp. apply filter_In.
  eapply Permutation_in; [apply getAllSales_docs|]. apply in_map, Hp.
Qed.

Lemma filter_filter_seller (f : Filters.t) (u : ObjectId) (l : list Sale.t) :
  Filters.seller f = Some u ->
  List.filter (matches f) (List.filter (fun s => Sale.seller s =? u) l)
  = List.filter (matches f) l.
Proof.
  intros Hf. induction l as [|s l IH]; simpl; [reflexivity|].
  destruct (Sale.seller s =? u) eqn:E; simpl.
  - rewrite IH. reflexivity.
  - destruct (matches f s) eqn:Hm; [|exact IH].
    apply (matches_seller f s u Hf) in Hm. apply Nat.eqb_neq in E. contradiction.
Qed.

Lemma allSalesFilters_seller (u : Principal.t) (q : Query.t) :
  Principal.role u <> "admin" ->
  Filters.seller (allSalesFilters (Some u) q) = Some (Principal.id u).
Proof.
  intros H. unfold allSalesFilters. rewrite restrictToUser_seller by assumption.
  reflexivity.
Qed.

(** X13 — A principal whose role is not admin gets from getAllSales only
    sales it sold itself, and the answer is the one it would get if the
    ledger held no sale of anybody else, whatever the query. A request by
    an admin, or one that carries no principal, with no query parameter
    lists every sale of the ledger. *)
Theorem getAllSales_seller_scope (u : Principal.t) (q : Query.t) (db : Db) :
  (Principal.role u <> "admin" ->
     Forall (fun p => Sale.seller (Populated.doc p) = Principal.id u)
       (salesOf (getAllSales (Some u) q db))
     /\ getAllSales (Some u) q db
        = getAllSales (Some u) q (ownSales (Principal.id u) db))
  /\ (Principal.role u = "admin" ->
        Permutation (List.map Populated.doc (salesOf (getAllSales (Some u) noQuery db)))
          (sales db))
  /\ Permutation (List.map Populated.doc (salesOf (getAllSales None noQuery db)))
       (sales db).
Proof.
  assert (Hall : forall l : list Sale.t, List.filter (matches Filters.empty) l = l).
  { induction l as [|s l IH]; simpl; [reflexivity|]. rewrite IH. reflexivity. }
  split; [|split].
  - intros Hrole. split.
    + apply List.Forall_forall. intros p Hp.
      apply salesOf_matches in Hp as [_ Hm].
      apply (matches_seller _ _ _ (allSalesFilters_seller u q Hrole) Hm).
    + unfold getAllSales, ownSales. cbn [sales users].
      rewrite (filter_filter_seller _ _ _ (allSalesFilters_seller u q Hrole)).
      reflexivity.
  - intros Hrole. rewrite getAllSales_docs.
    unfold allSalesFilters, restrictToUser. rewrite Hrole. simpl. rewrite Hall.
    reflexivity.
  - rewrite getAllSales_docs. simpl. rewrite Hall. reflexivity.
Qed.

Lemma getAllSales_seller_scope_witness :
  List.map (fun p => Sale.seller (Populated.doc p))
    (salesOf (getAllSales (Some empleado) noQuery db2)) = [7]
  /\ length (salesOf (getAllSales (Some admin) noQuery db2)) = 2.
Proof.
  destruct (getAllSales_seller_scope empleado noQuery db2) as [H _].
  destruct (H ltac:(discriminate)) as [_ Heq].
  destruct (getAllSales_seller_scope admin noQuery db2) as (_ & Hadm & _).
  split.
  - rewrite Heq. vm_compute. reflexivity.
  - apply Permutation_length in Hadm; [|reflexivity].
    rewrite List.length_map in Hadm. rewrite Hadm. vm_compute. reflexivity.
Defined.

Lemma allSalesFilters_fields (user : option Principal.t) (q : Query.t) :
  Filters.gte (allSalesFilters user q) = Query.startDate q
  /\ Filters.lte (allSalesFilters user q) = Query.endDate q
  /\ Filters.paymentStatus (allSalesFilters user q)
     = (if truthy (Query.paymentStatus q)
        then Some (Eq (default "" (Query.paymentStatus q))) else None)
  /\ Filters.paymentMethod (allSalesFilters user q)
     = (if truthy (Query.paymentMethod q)
        then Some (default "" (Query.paymentMethod q)) else None)
  /\ Filters.customer (allSalesFilters user q) = Query.customerId q.
Proof.
  unfold allSalesFilters, restrictToUser, when, when_str.
  destruct user as [u|]; [destruct (negb _)|];
    destruct (Query.startDate q), (Query.endDate q),
      (truthy (Query.paymentStatus q)), (truthy (Query.paymentMethod q)),
      (Query.customerId q), (Query.sellerId q); repeat split; reflexivity.
Qed.

(** X14 — Every sale that getAllSales lists meets every parameter of the
    query: it was created no earlier than startDate and no later than
    endDate, it has the payment status, the payment method and the customer
    asked for. *)
Theorem getAllSales_honours_query
    (user : option Principal.t) (q : Query.t) (db : Db) (p : Populated.t) :
  In p (salesOf (getAllSales user q db)) ->
  (forall d, Query.startDate q = Some d ->
     date_leb d (Sale.createdAt (Populated.doc p)) = true)
  /\ (forall d, Query.endDate q = Some d ->
        date_leb (Sale.createdAt (Populated.doc p)) d = true)
  /\ (truthy (Query.paymentStatus q) = true ->
        Some (Sale.paymentStatus (Populated.doc p)) = Query.paymentStatus q)
  /\ (truthy (Query.paymentMethod q) = true ->
        Some (Sale.paymentMethod (Populated.doc p)) = Query.paymentMethod q)
  /\ (forall c, Query.customerId q = Some c ->
        Sale.customer (Populated.doc p) = Some c).
Proof.
  intros Hp. apply salesOf_matches in Hp as [_ Hm].
  destruct (allSalesFilters_fields user q) as (Hg & Hl & Hs & Hpm & Hc).
  unfold matches in Hm. rewrite Hg, Hl, Hs, Hpm, Hc in Hm.
  repeat (apply andb_true_iff in Hm as [Hm ?]).
  split; [|split; [|split; [|split]]].
  - intros d Hd. rewrite Hd in Hm. exact Hm.
  - intros d Hd. rewrite Hd in *. assumption.
  - intros Ht. rewrite Ht in *. simpl in *.
    destruct (Query.paymentStatus q) as [v|]; [|discriminate]. simpl in *.
    f_equal. apply String.eqb_eq. assumption.
  - intros Ht. rewrite Ht in *. simpl in *.
    destruct (Query.paymentMethod q) as [v|]; [|discriminate]. simpl in *.
    f_equal. apply String.eqb_eq. assumption.
  - intros c Hd. rewrite Hd in *. simpl in *.
    destruct (Sale.customer (Populated.doc p)) as [c'|]; [|discriminate].
    f_equal. apply Nat.eqb_eq. assumption.
Qed.

Lemma getAllSales_honours_query_witness :
  exists p,
    In p (salesOf (getAllSales (Some admin)
                     (Query.mk (Some (mkDate 2024 5 18 0)) None (Some "pendiente")
                        None None None) db2))
    /\ date_leb (mkDate 2024 5 18 0) (Sale.createdAt (Populated.doc p)) = true
    /\ Sale.paymentStatus (Populated.doc p) = "pendiente".
Proof.
  assert (Hl : exists p,
             In p (salesOf (getAllSales (Some admin)
                              (Query.mk (Some (mkDate 2024 5 18 0)) None
                                 (Some "pendiente") None None None) db2))).
  { vm_compute. eexists. left. reflexivity. }
  destruct Hl as (p & Hp). exists p. split; [exact Hp|].
  destruct (getAllSales_honours_query _ _ _ _ Hp) as (H1 & _ & H3 & _).
  split; [apply H1; reflexivity|].
  specialize (H3 eq_refl). injection H3 as H3. exact H3.
Defined.

(** ** getSalesStats: what the groups add up to *)












(** ** getSalesStats: what a group holds *)

Section Grouping.

Context {K A : Type}.
Variable eqb : K -> K -> bool.
Variable key : A -> K.
Hypothesis eqb_eq : forall a b, eqb a b = true <-> a = b.

Lemma groupBy_snoc (l : list A) (a : A) :
  groupBy eqb key (l ++ [a]) = addToGroup eqb (key a) a (groupBy eqb key l).
Proof. unfold groupBy. rewrite fold_left_app. reflexivity. Qed.

Lemma addToGroup_keys (k : K) (a : A) (gs : list (K * list A)) (k' : K) :
  In k' (List.map fst (addToGroup eqb k a gs)) <-> k' = k \/ In k' (List.map fst gs).
Proof.
  induction gs as [|[k1 g1] gs IH]; simpl.
  - intuition.
  - destruct (eqb k k1) eqn:E; simpl.
    + apply eqb_eq in E. subst. intuition.
    + rewrite IH. intuition.
Qed.

Lemma addToGroup_NoDup (k : K) (a : A) (gs : list (K * list A)) :
  List.NoDup (List.map fst gs) -> List.NoDup (List.map fst (addToGroup eqb k a gs)).
Proof.
  induction gs as [|[k1 g1] gs IH]; simpl; intros Hnd.
  - repeat constructor. intros [].
  - apply List.NoDup_cons_iff in Hnd as [Hk1 Hnd].
    destruct (eqb k k1) eqn:E; simpl.
    + constructor; assumption.
    + constructor; [|apply IH, Hnd].
      rewrite addToGroup_keys. intros [->|Hin]; [|contradiction].
      assert (Ht : eqb k k = true) by (apply eqb_eq; reflexivity). congruence.
Qed.

Lemma addToGroup_In (k : K) (a : A) (gs : list (K * list A)) (k' : K) (g' : list A) :
  List.NoDup (List.map fst gs) ->
  In (k', g') (addToGroup eqb k a gs) ->
  (k' <> k /\ In (k', g') gs)
  \/ (k' = k /\ exists g, g' = (g ++ [a])%list
                          /\ (In (k, g) gs \/ (g = [] /\ ~ In k (List.map fst gs)))).
Proof.
  induction gs as [|[k1 g1] gs IH]; simpl; intros Hnd.
  - intros [[= <- <-]|[]]. right. split; [reflexivity|]. exists []. auto.
  - apply List.NoDup_cons_iff in Hnd as [Hk1 Hnd].
    destruct (eqb k k1) eqn:E; simpl.
    + apply eqb_eq in E. subst k1. intros [[= <- <-]|Hin].
      * right. split; [reflexivity|]. exists g1. auto.
      * left. split; [|auto]. intros ->. apply Hk1.
        apply (in_map fst) in Hin. exact Hin.
    + assert (Hne : k <> k1).
      { intros ->. assert (Ht : eqb k1 k1 = true) by (apply eqb_eq; reflexivity).
        congruence. }
      intros [[= <- <-]|Hin].
      * left. split; [congruence | auto].
      * destruct (IH Hnd Hin) as [[Hk Hg]|(Hk & g & Hg & [Hin'|[Hnil Hnot]])].
        -- left. auto.
        -- right. split; [exact Hk|]. exists g. auto.
        -- right. split; [exact Hk|]. exists g. split; [exact Hg|]. right.
           split; [exact Hnil|]. intros [He|Hc]; [congruence | contradiction].
Qed.

Lemma groupBy_spec (l : list A) :
  List.NoDup (List.map fst (groupBy eqb key l))
  /\ (forall k g, In (k, g) (groupBy eqb key l) ->
        g = List.filter (fun a => eqb (key a) k) l /\ g <> [])
  /\ (forall a, In a l -> In (key a) (List.map fst (groupBy eqb key l))).
Proof.
  induction l as [|a l (Hnd & Hg & Hk)] using rev_ind.
  - split; [constructor|]. split; [intros k g [] | intros a []].
  - rewrite groupBy_snoc. split; [apply addToGroup_NoDup, Hnd|]. split.
    + intros k g Hin. rewrite List.filter_app. simpl.
      destruct (addToGroup_In _ _ _ _ _ Hnd Hin)
        as [[Hne Hin']|(-> & g0 & -> & [Hin'|[-> Hnot]])].
      * destruct (Hg _ _ Hin') as [-> Hnil].
        destruct (eqb (key a) k) eqn:E; [apply eqb_eq in E; congruence|].
        rewrite app_nil_r. auto.
      * destruct (Hg _ _ Hin') as [-> _].
        assert (Ht : eqb (key a) (key a) = true) by (apply eqb_eq; reflexivity).
        rewrite Ht. split; [reflexivity|]. intros Hc. apply app_eq_nil in Hc as [_ Hc].
        discriminate.
      * assert (Ht : eqb (key a) (key a) = true) by (apply eqb_eq; reflexivity).
        rewrite Ht. split; [|discriminate]. simpl.
        assert (Hf : List.filter (fun x => eqb (key x) (key a)) l = []).
        { clear - Hk Hnot eqb_eq. revert Hk Hnot.
          generalize (List.map fst (groupBy eqb key l)). intros keys Hk Hnot.
          induction l as [|x l IH]; [reflexivity|]. simpl.
          destruct (eqb (key x) (key a)) eqn:E.
          - apply eqb_eq in E. exfalso. apply Hnot. rewrite <- E. apply Hk. left.
            reflexivity.
          - apply IH. intros y Hy. apply Hk. right. exact Hy. }
        rewrite Hf. reflexivity.
    + intros x Hx. rewrite addToGroup_keys. apply in_app_or in Hx as [Hx|[->|[]]].
      * right. apply Hk, Hx.
      * left. reflexivity.
Qed.

End Grouping.

Lemma Sorted_weaken {A : Type} (R R' : A -> A -> Prop) (l : list A) :
  (forall x y, R x y -> R' x y) -> Sorted R l -> Sorted R' l.
Proof.
  intros Himp. induction 1 as [|a l _ IH Hhd]; [constructor|].
  constructor; [exact IH|]. destruct Hhd; constructor. apply Himp. assumption.
Qed.





Lemma productKey_eqb_eq (a b : ObjectId * string) :
  productKey_eqb a b = true <-> a = b.
Proof.
  destruct a as [i n], b as [j m]. unfold productKey_eqb. simpl.
  rewrite andb_true_iff, Nat.eqb_eq, String.eqb_eq. split.
  - intros [-> ->]. reflexivity.
  - intros [= -> ->]. auto.
Qed.

Lemma StronglySorted_app {A : Type} (R : A -> A -> Prop) (l1 l2 : list A) :
  StronglySorted R (l1 ++ l2) -> forall x y, In x l1 -> In y l2 -> R x y.
Proof.
  induction l1 as [|a l1 IH]; simpl; intros Hs x y Hx Hy; [contradiction|].
  inversion Hs as [|? ? Hs' Hall]; subst. destruct Hx as [->|Hx].
  - rewrite List.Forall_forall in Hall. apply Hall. apply in_or_app. right. exact Hy.
  - apply IH; assumption.
Qed.

Lemma sorted_firstn_first {A : Type} (le : A -> A -> bool) (n : nat) (l : list A) :
  (forall x y, le x y = false -> le y x = true) ->
  (forall x y z, le x y = true -> le y z = true -> le x z = true) ->
  forall x y,
    In x (firstn n (sortBy le l)) -> In y l -> ~ In y (firstn n (sortBy le l)) ->
    le x y = true.
Proof.
  intros Htot Htrans x y Hx Hy Hnot.
  assert (Hs : StronglySorted (fun a b => le a b = true) (sortBy le l)).
  { apply Sorted_StronglySorted; [|apply sortBy_sorted, Htot].
    intros a b c. apply Htrans. }
  rewrite <- (firstn_skipn n (sortBy le l)) in Hs.
  apply (StronglySorted_app _ _ _ Hs); [exact Hx|].
  assert (Hy' : In y (sortBy le l)).
  { eapply Permutation_in; [symmetry; apply sortBy_perm | exact Hy]. }
  rewrite <- (firstn_skipn n (sortBy le l)) in Hy'.
  apply in_app_or in Hy' as [Hy'|Hy']; [contradiction | exact Hy'].
Qed.

(** X17 — The top products of a statistics report are at most five rows,
    no row with a smaller quantity than the row listed after it. A row
    stands for one pair of product id and product name found on the line
    items of the sales the report covers, no pair has two rows, the row
    holds the sum of the quantities and the sum of the subtotals of the
    line items of that pair, and a pair that is left out sold no more than
    any pair that is listed. *)
Theorem topProducts_rows (user : option Principal.t) (q : Query.t) (db : Db) :
  length (Stats.topProducts (salesStats user q db)) <= 5
  /\ Sorted (fun a b => (ProductRow.totalQuantity b <= ProductRow.totalQuantity a)%Q)
       (Stats.topProducts (salesStats user q db))
  /\ List.NoDup (List.map (fun r => (ProductRow.productId r, ProductRow.productName r))
                   (Stats.topProducts (salesStats user q db)))
  /\ (forall row,
        In row (Stats.topProducts (salesStats user q db)) ->
        exists lines,
          lines = List.filter
                    (fun it => (SaleItem.product it =? ProductRow.productId row)
                               && String.eqb (SaleItem.productName it)
                                    (ProductRow.productName row))
                    (List.flat_map Sale.items (aggregateMatch (statsFilters user q) db))
          /\ lines <> []
          /\ ProductRow.totalQuantity row = sumQ (List.map SaleItem.quantity lines)
          /\ ProductRow.totalAmount row = sumQ (List.map SaleItem.subtotal lines))
  /\ (forall row other,
        In row (Stats.topProducts (salesStats user q db)) ->
        In other (productRows (aggregateMatch (statsFilters user q) db)) ->
        ~ In other (Stats.topProducts (salesStats user q db)) ->
        (ProductRow.totalQuantity other <= ProductRow.totalQuantity row)%Q).
Proof.
  unfold salesStats. cbn [Stats.topProducts].
  set (l := aggregateMatch (statsFilters user q) db).
  set (le := fun a b => Qle_bool (ProductRow.totalQuantity b) (ProductRow.totalQuantity a)).
  assert (Htot : forall x y, le x y = false -> le y x = true).
  { intros x y. apply Qle_bool_total. }
  assert (Hsub : forall row, In row (firstn 5 (sortBy le (productRows l))) ->
                             In row (productRows l)).
  { intros row Hin. apply (Permutation_in _ (sortBy_perm le _)).
    rewrite <- (firstn_skipn 5). apply in_or_app. left. exact Hin. }
  destruct (groupBy_spec productKey_eqb
              (fun it => (SaleItem.product it, SaleItem.productName it))
              productKey_eqb_eq (List.flat_map Sale.items l)) as (Hnd & Hg & _).
  split; [apply List.firstn_le_length|]. split; [|split; [|split]].
  - apply Sorted_firstn. apply (Sorted_weaken (fun a b => le a b = true)).
    + intros x y Hxy. apply Qle_bool_iff. exact Hxy.
    + apply sortBy_sorted, Htot.
  - assert (Hall : List.NoDup
                     (List.map (fun r => (ProductRow.productId r, ProductRow.productName r))
                        (sortBy le (productRows l)))).
    { eapply Permutation_NoDup;
        [symmetry; apply Permutation_map, sortBy_perm|].
      unfold productRows. rewrite List.map_map. cbn [ProductRow.productId
        ProductRow.productName].
      erewrite List.map_ext; [exact Hnd|]. intros [[i n] g]. reflexivity. }
    rewrite <- (firstn_skipn 5 (sortBy le (productRows l))), List.map_app in Hall.
    apply List.NoDup_app_remove_r in Hall. exact Hall.
  - intros row Hin. apply Hsub in Hin. unfold productRows in Hin.
    apply in_map_iff in Hin as ([[i n] g] & <- & Hin).
    destruct (Hg _ _ Hin) as [-> Hnil].
    cbn [fst snd ProductRow.productId ProductRow.productName ProductRow.totalQuantity
         ProductRow.totalAmount].
    eexists. split; [reflexivity|]. split; [exact Hnil|]. split; reflexivity.
  - intros row other Hrow Hother Hnot. apply Qle_bool_iff.
    apply (sorted_firstn_first le 5 (productRows l) Htot); try assumption.
    intros x y z Hxy Hyz. apply Qle_bool_iff. apply Qle_bool_iff in Hxy, Hyz.
    eapply Qle_trans; eassumption.
Qed.

Lemma topProducts_rows_witness :
  exists row,
    In row (Stats.topProducts (salesStats (Some admin) noQuery db2))
    /\ ProductRow.productName row = "Leche Deslactosada"
    /\ (ProductRow.totalQuantity row == 4)%Q.
Proof.
  assert (Hin : exists row,
             In row (Stats.topProducts (salesStats (Some admin) noQuery db2))
             /\ ProductRow.productId row = 1
             /\ ProductRow.productName row = "Leche Deslactosada").
  { vm_compute. eexists. split; [left; reflexivity|]. split; reflexivity. }
  destruct Hin as (row & Hin & Hid & Hname). exists row.
  split; [exact Hin|]. split; [exact Hname|].
  destruct (topProducts_rows (Some admin) noQuery db2) as (_ & _ & _ & Hrow & _).
  destruct (Hrow row Hin) as (lines & -> & _ & -> & _).
  rewrite Hid, Hname. vm_compute. reflexivity.
Defined.

(** ** getSalesStats: the series by day *)

Lemma dayKey_eqb_eq (a b : dayKey) : dayKey_eqb a b = true <-> a = b.
Proof.
  destruct a as [[y m] d], b as [[y' m'] d']. unfold dayKey_eqb.
  rewrite !andb_true_iff, !Nat.eqb_eq. split.
  - intros [[-> ->] ->]. reflexivity.
  - intros [= -> -> ->]. auto.
Qed.

Lemma noDash_zeros (k : nat) (s : string) :
  noDash s = true -> noDash (String.append (zeros k) s) = true.
Proof. intros H. induction k as [|k IH]; simpl; assumption. Qed.

Lemma noDash_padStart (k n : nat) : noDash (padStart k (toString n)) = true.
Proof. unfold padStart. apply noDash_zeros, toString_noDash. Qed.

Lemma formatDay_inj (a b : dayKey) : formatDay a = formatDay b -> a = b.
Proof.
  destruct a as [[y m] d], b as [[y' m'] d']. unfold formatDay. simpl. intros H.
  apply split_at_dash in H as [Hy H]; try apply toString_noDash.
  apply split_at_dash in H as [Hm Hd]; try apply noDash_padStart.
  apply (f_equal valueOf) in Hy, Hm, Hd.
  rewrite !valueOf_toString in Hy. rewrite !valueOf_padStart in Hm, Hd.
  congruence.
Qed.

Lemma dayKey_geb_total (a b : dayKey) : dayKey_geb a b = false -> dayKey_geb b a = true.
Proof.
  destruct a as [[y m] d], b as [[y' m'] d']. unfold dayKey_geb.
  destruct (Nat.ltb_spec y' y); [discriminate|].
  destruct (Nat.ltb_spec y y'); [reflexivity|].
  destruct (Nat.ltb_spec m' m); [discriminate|].
  destruct (Nat.ltb_spec m m'); [reflexivity|].
  intros Hd. apply Nat.leb_gt in Hd. apply Nat.leb_le. lia.
Qed.

(** X18 — The series by day of a statistics report has 30 rows at most,
    one for each of the days it keeps, most recent day first: the row holds
    the date as year-month-day with month and day on two digits, the number
    of sales the report covers that were created that day, at least 1, and
    the sum of their totalAmount; and no two rows carry the same date. *)
Theorem salesByDay_rows (user : option Principal.t) (q : Query.t) (db : Db) :
  length (Stats.salesByDay (salesStats user q db)) <= 30
  /\ List.NoDup (List.map DayRow.date (Stats.salesByDay (salesStats user q db)))
  /\ exists days,
       Stats.salesByDay (salesStats user q db)
       = List.map (dayRow (aggregateMatch (statsFilters user q) db)) days
       /\ List.NoDup days
       /\ Sorted (fun a b => dayKey_geb a b = true) days
       /\ Forall (fun day =>
                    exists s, In s (aggregateMatch (statsFilters user q) db)
                              /\ dayOf s = day) days.
Proof.
  unfold salesStats. cbn [Stats.salesByDay].
  set (l := aggregateMatch (statsFilters user q) db).
  set (le := fun a b : dayKey * nat * Q => dayKey_geb (fst (fst a)) (fst (fst b))).
  destruct (groupBy_spec dayKey_eqb dayOf dayKey_eqb_eq l) as (Hnd & Hg & _).
  set (kept := firstn 30 (sortBy le (dayGroups l))).
  assert (Hsub : forall x, In x kept -> In x (dayGroups l)).
  { intros x Hin. apply (Permutation_in _ (sortBy_perm le _)).
    rewrite <- (firstn_skipn 30). apply in_or_app. left. exact Hin. }
  assert (Hrows : List.map (fun day => DayRow.mk (formatDay (fst (fst day)))
                                         (snd (fst day)) (snd day)) kept
                  = List.map (dayRow l) (List.map (fun x => fst (fst x)) kept)).
  { rewrite List.map_map. apply map_ext_in. intros [[day c] t] Hin.
    apply Hsub in Hin. unfold dayGroups in Hin.
    apply in_map_iff in Hin as ([k g] & [= <- <- <-] & Hin).
    destruct (Hg _ _ Hin) as [-> _]. reflexivity. }
  assert (Hdays : List.NoDup (List.map (fun x => fst (fst x)) kept)).
  { assert (Hall : List.NoDup (List.map (fun x => fst (fst x)) (sortBy le (dayGroups l)))).
    { eapply Permutation_NoDup; [symmetry; apply Permutation_map, sortBy_perm|].
      unfold dayGroups. rewrite List.map_map. cbn [fst].
      erewrite List.map_ext; [exact Hnd|]. intros [k g]. reflexivity. }
    rewrite <- (firstn_skipn 30 (sortBy le (dayGroups l))), List.map_app in Hall.
    apply List.NoDup_app_remove_r in Hall. exact Hall. }
  split; [|split].
  - rewrite List.length_map. apply List.firstn_le_length.
  - fold kept. rewrite Hrows, List.map_map. cbn [dayRow DayRow.date].
    apply (List.NoDup_map_inv (fun x => x)). rewrite List.map_id.
    revert Hdays. generalize (List.map (fun x => fst (fst x)) kept).
    induction 1 as [|d ds Hnot _ IH]; simpl; constructor; [|exact IH].
    intros Hin. apply in_map_iff in Hin as (d' & Heq & Hin).
    apply formatDay_inj in Heq. subst. contradiction.
  - exists (List.map (fun x => fst (fst x)) kept).
    split; [exact Hrows|]. split; [exact Hdays|]. split.
    + apply Sorted_map. apply Sorted_firstn. apply sortBy_sorted.
      intros x y. apply dayKey_geb_total.
    + apply List.Forall_forall. intros day Hin.
      apply in_map_iff in Hin as ([[day' c] t] & <- & Hin).
      apply Hsub in Hin. unfold dayGroups in Hin.
      apply in_map_iff in Hin as ([k g] & [= <- <- <-] & Hin).
      destruct (Hg _ _ Hin) as [Hfilter Hnil].
      destruct g as [|s g]; [contradiction|]. exists s.
      assert (Hs : In s (List.filter (fun a => dayKey_eqb (dayOf a) k) l)).
      { rewrite <- Hfilter. left. reflexivity. }
      apply filter_In in Hs as [Hs Hk]. split; [exact Hs|].
      apply dayKey_eqb_eq, Hk.
Qed.

(** ** getSalesStats: the seller scope *)




(** ** The authentication middleware and the sale routes *)

Lemma substring_all (s : string) : String.substring 0 (String.length s) s = s.
Proof. induction s as [|c s IH]; simpl; [reflexivity | now rewrite IH]. Qed.

Lemma tokenValue_Bearer (t : string) : tokenValue (String.append "Bearer " t) = t.
Proof.
  unfold tokenValue.
  change (String.append "Bearer " t)
    with (String "B" (String "e" (String "a" (String "r" (String "e" (String "r"
           (String " " t))))))).
  cbn. replace (String.prefix "" t) with true by (destruct t; reflexivity).
  rewrite Nat.sub_0_r. apply substring_all.
Qed.

Lemma truthy_Some (s : string) : s <> "" -> truthy (Some s) = true.
Proof. destruct s; [congruence | reflexivity]. Qed.

Lemma existsb_eqb_In (k : string) (l : list string) :
  existsb (String.eqb k) l = true <-> In k l.
Proof.
  rewrite existsb_exists. split.
  - intros (x & Hin & Heq). apply String.eqb_eq in Heq. now subst.
  - intros Hin. exists k. split; [assumption | apply String.eqb_refl].
Qed.

(** X20 — A request that carries a non-empty x-api-key header is judged by
    the key alone: the token headers are not read, the request goes on
    exactly when the key is one of the two valid keys, and it goes on
    without a user ([req.user] stays undefined). *)
Theorem verifyAuth_api_key_first
    (jwtVerify : string -> string -> option Principal.t) (JWT_SECRET : option string)
    (key : string) (token authorization : option string) :
  key <> "" ->
  verifyAuth jwtVerify JWT_SECRET (Headers.mk (Some key) token authorization)
  = verifyAuth jwtVerify JWT_SECRET (Headers.mk (Some key) None None)
  /\ (In key validApiKeys ->
      verifyAuth jwtVerify JWT_SECRET (Headers.mk (Some key) token authorization)
      = Next None)
  /\ (~ In key validApiKeys ->
      verifyAuth jwtVerify JWT_SECRET (Headers.mk (Some key) token authorization)
      = Answered 401 ApiKeyInvalida).
Proof.
  intros Hkey. unfold verifyAuth, verifyApiKey. cbn [Headers.x_api_key].
  rewrite (truthy_Some key Hkey). change (default "" (Some key)) with key.
  cbn [negb]. split; [reflexivity|]. split; intros H.
  - apply existsb_eqb_In in H. rewrite H. reflexivity.
  - destruct (existsb _ _) eqn:E; [|reflexivity].
    apply existsb_eqb_In in E. contradiction.
Qed.

Lemma verifyAuth_api_key_first_witness :
  verifyAuth verifyExample None
    (Headers.mk (Some "sk_test_supermercado123") (Some "no-token") None) = Next None
  /\ verifyAuth verifyExample None
       (Headers.mk (Some "sk_live_1") (Some "supermercado_secret_key.root") None)
     = Answered 401 ApiKeyInvalida.
Proof.
  split.
  - apply (verifyAuth_api_key_first verifyExample None "sk_test_supermercado123"
             (Some "no-token") None); [discriminate|]. vm_compute. tauto.
  - apply (verifyAuth_api_key_first verifyExample None "sk_live_1"
             (Some "supermercado_secret_key.root") None); [discriminate|].
    vm_compute. intuition discriminate.
Defined.

(** X21 — A token sent as [Authorization: Bearer <token>] is verified as
    the same token sent bare in x-access-token, and a non-empty
    x-access-token header hides the Authorization header. *)
Theorem verifyToken_Bearer
    (jwtVerify : string -> string -> option Principal.t) (JWT_SECRET : option string)
    (key : option string) (token : string) (authorization : option string) :
  token <> "" ->
  String.prefix "Bearer " token = false ->
  verifyToken jwtVerify JWT_SECRET
    (Headers.mk key None (Some (String.append "Bearer " token)))
  = verifyToken jwtVerify JWT_SECRET (Headers.mk key (Some token) authorization).
Proof.
  intros Htoken Hprefix. unfold verifyToken, orString.
  cbn [Headers.x_access_token Headers.authorization].
  rewrite (truthy_Some token Htoken).
  change (truthy None) with false. cbv beta iota.
  change (truthy (Some (String.append "Bearer " token))) with true.
  cbn [negb].
  change (default "" (Some (String.append "Bearer " token)))
    with (String.append "Bearer " token).
  change (default "" (Some token)) with token. rewrite tokenValue_Bearer.
  unfold tokenValue. rewrite Hprefix, ?(truthy_Some token Htoken). reflexivity.
Qed.

Lemma verifyToken_Bearer_witness :
  verifyToken verifyExample None
    (Headers.mk None None (Some "Bearer supermercado_secret_key.ana"))
  = Next (Some empleado).
Proof.
  change "Bearer supermercado_secret_key.ana"
    with (String.append "Bearer " "supermercado_secret_key.ana").
  rewrite (verifyToken_Bearer verifyExample None None "supermercado_secret_key.ana"
             (Some "ignored")); [| discriminate | reflexivity].
  vm_compute. reflexivity.
Defined.

Lemma verifyAuth_status
    (jwtVerify : string -> string -> option Principal.t) (JWT_SECRET : option string)
    (headers : Headers.t) (st : nat) (m : AuthMessage) :
  verifyAuth jwtVerify JWT_SECRET headers = Answered st m -> st = 401.
Proof.
  unfold verifyAuth, verifyApiKey, verifyToken.
  repeat (match goal with
          | |- context [if ?b then _ else _] => destruct b
          | |- context [match ?x with Some _ => _ | None => _ end] => destruct x
          end); intros H; inversion H; reflexivity.
Qed.

(** X22 — Every sale route is behind [verifyAuth]: a request is refused
    exactly when its API key is not a valid one, or it has neither key nor
    token, or it has no key and its token does not verify; a refused request
    is answered 401 and leaves the database as it was, whatever the route. *)
Theorem saleRouter_refusal
    (jwtVerify : string -> string -> option Principal.t) (JWT_SECRET : option string)
    (env : Env) (emails : gmap ObjectId string)
    (headers : Headers.t) (route : saleRoute) (db : Db) :
  ((exists st m db',
       saleRouter jwtVerify JWT_SECRET env emails headers route db = (Denied st m, db'))
   <->
   (truthy (Headers.x_api_key headers) = true
    /\ ~ In (default "" (Headers.x_api_key headers)) validApiKeys)
   \/ (truthy (Headers.x_api_key headers) = false
       /\ truthy (orString (Headers.x_access_token headers)
                    (Headers.authorization headers)) = false)
   \/ (truthy (Headers.x_api_key headers) = false
       /\ jwtVerify
            (tokenValue (default "" (orString (Headers.x_access_token headers)
                                       (Headers.authorization headers))))
            (default "" (orString JWT_SECRET (Some "supermercado_secret_key")))
          = None))
  /\ (forall st m db',
        saleRouter jwtVerify JWT_SECRET env emails headers route db = (Denied st m, db') ->
        st = 401 /\ db' = db).
Proof.
  split.
  - unfold saleRouter, verifyAuth, verifyApiKey, verifyToken.
    destruct (truthy (Headers.x_api_key headers)) eqn:Ek; cbn [negb].
    + destruct (existsb _ validApiKeys) eqn:Ev; cbn [negb].
      * split.
        -- intros (st & m & db' & H).
           destruct route; repeat destruct (_ : Response * Db); discriminate.
        -- intros [[_ H] | [[H _] | [H _]]]; try discriminate.
           apply existsb_eqb_In in Ev. contradiction.
      * split; [|intros _; eauto].
        intros _. left. split; [reflexivity|]. intros Hin.
        apply existsb_eqb_In in Hin. congruence.
    + destruct (truthy (orString _ _)) eqn:Et; cbn [negb].
      * destruct (jwtVerify _ _) eqn:Ej.
        -- split.
           ++ intros (st & m & db' & H).
              destruct route; repeat destruct (_ : Response * Db); discriminate.
           ++ intros [[H _] | [[_ H] | [_ H]]]; discriminate.
        -- split; [|intros _; eauto]. intros _. right. right. split; reflexivity.
      * split; [|intros _; eauto]. intros _. right. left. split; reflexivity.
  - intros st m db'. unfold saleRouter.
    destruct (verifyAuth jwtVerify JWT_SECRET headers) eqn:E.
    + intros H. inversion H; subst. split; [|reflexivity].
      eapply verifyAuth_status, E.
    + destruct route; repeat destruct (_ : Response * Db); discriminate.
Qed.

Lemma createSale_anonymous (env : Env) (saleData : SaleData.t) (db : Db) :
  status (fst (createSale env None saleData db)) <> 201.
Proof.
  unfold createSale, endSession, createSaleTx. cbn [fst].
  destruct (SaleData.items saleData) as [[|item its]|]; cbv beta match;
    try (simpl; discriminate).
  destruct (truthy (SaleData.paymentMethod saleData)); cbv beta match;
    try (simpl; discriminate).
  destruct (processItems (item :: its) _) as [[| r | e] st] eqn:E;
    try (simpl; discriminate).
  simpl. eapply processItems_Return; eauto.
Qed.

Lemma createSale_anonymous_500 (env : Env) (u : Principal.t) (saleData : SaleData.t)
    (db : Db) :
  status (fst (createSale env (Some u) saleData db)) = 201 ->
  fst (createSale env None saleData db)
  = Res 500 (JsonError ErrorAlCrearVenta JsTypeError).
Proof.
  unfold createSale, endSession, createSaleTx. cbn [fst].
  destruct (SaleData.items saleData) as [[|item its]|]; cbv beta match;
    try (simpl; discriminate).
  destruct (truthy (SaleData.paymentMethod saleData)); cbv beta match;
    try (simpl; discriminate).
  destruct (processItems (item :: its) _) as [[| r | e] st] eqn:E;
    try (simpl; discriminate).
  - intros _. reflexivity.
  - simpl. intros H. exfalso. eapply processItems_Return; eauto.
Qed.

(** X23 — A client that authenticates with an API key cannot record a sale:
    [req.user] is undefined, so POST /api/sales never answers 201 and never
    changes the database; an order that a logged-in user would get accepted
    is answered 500. *)
Theorem api_key_cannot_create_sale
    (jwtVerify : string -> string -> option Principal.t) (JWT_SECRET : option string)
    (env : Env) (emails : gmap ObjectId string)
    (key : string) (token authorization : option string)
    (body : SaleData.t) (db : Db) :
  In key validApiKeys ->
  exists r,
    saleRouter jwtVerify JWT_SECRET env emails (Headers.mk (Some key) token authorization)
      (PostSale body) db = (Reply r, db)
    /\ status r <> 201
    /\ forall u, status (fst (createSale env (Some u) body db)) = 201 ->
                 r = Res 500 (JsonError ErrorAlCrearVenta JsTypeError).
Proof.
  intros Hin.
  assert (Hkey : key <> "").
  { intros ->. vm_compute in Hin. intuition discriminate. }
  unfold saleRouter, verifyAuth, verifyApiKey. cbn [Headers.x_api_key].
  rewrite (truthy_Some key Hkey). change (default "" (Some key)) with key.
  apply existsb_eqb_In in Hin. rewrite Hin. cbn [negb].
  pose proof (createSale_anonymous env body db) as Hst.
  pose proof (createSale_failure_unchanged env None body db Hst) as Hdb.
  pose proof (fun u => createSale_anonymous_500 env u body db) as H500.
  destruct (createSale env None body db) as [r db'] eqn:E.
  cbn [fst snd] in *. subst db'. exists r.
  split; [reflexivity|]. split; [assumption|].
  intros u Hu. exact (H500 u Hu).
Qed.

Lemma api_key_cannot_create_sale_witness :
  status (fst (createSale env0 (Some empleado) order0 db0)) = 201
  /\ saleRouter verifyExample None env0 ∅
       (Headers.mk (Some "sk_prod_supermercado456") None None) (PostSale order0) db0
     = (Reply (Res 500 (JsonError ErrorAlCrearVenta JsTypeError)), db0).
Proof.
  assert (H201 : status (fst (createSale env0 (Some empleado) order0 db0)) = 201)
    by (vm_compute; reflexivity).
  split; [exact H201|].
  destruct (api_key_cannot_create_sale verifyExample None env0 ∅
              "sk_prod_supermercado456" None None order0 db0)
    as (r & Hr & _ & H500); [vm_compute; tauto|].
  rewrite Hr, (H500 empleado H201). reflexivity.
Defined.

Lemma verifyAuth_api_key_ok
    (jwtVerify : string -> string -> option Principal.t) (JWT_SECRET : option string)
    (key : string) (token authorization : option string) :
  In key validApiKeys ->
  verifyAuth jwtVerify JWT_SECRET (Headers.mk (Some key) token authorization) = Next None.
Proof.
  intros Hin.
  assert (Hkey : key <> "").
  { intros ->. vm_compute in Hin. intuition discriminate. }
  unfold verifyAuth, verifyApiKey. cbn [Headers.x_api_key].
  rewrite (truthy_Some key Hkey). change (default "" (Some key)) with key.
  apply existsb_eqb_In in Hin. rewrite Hin. reflexivity.
Qed.

Lemma restrictToUser_admin (u : Principal.t) (f : Filters.t) :
  Principal.role u = "admin" -> restrictToUser (Some u) f = restrictToUser None f.
Proof. intros H. unfold restrictToUser. rewrite H. reflexivity. Qed.

(** X24 — On the reading routes an API key sees what an administrator sees:
    the list, the statistics and the detail of a sale are the ones a request
    with an administrator's token gets, with no restriction to a seller. *)
Theorem api_key_reads_as_admin
    (jwtVerify : string -> string -> option Principal.t) (JWT_SECRET : option string)
    (env : Env) (emails : gmap ObjectId string)
    (key : string) (token authorization : option string)
    (headers : Headers.t) (u : Principal.t) (route : saleRoute) (db : Db) :
  In key validApiKeys ->
  verifyAuth jwtVerify JWT_SECRET headers = Next (Some u) ->
  Principal.role u = "admin" ->
  isRead route = true ->
  saleRouter jwtVerify JWT_SECRET env emails (Headers.mk (Some key) token authorization)
    route db
  = saleRouter jwtVerify JWT_SECRET env emails headers route db.
Proof.
  intros Hin Hauth Hrole Hread.
  assert (Hkey : key <> "").
  { intros ->. vm_compute in Hin. intuition discriminate. }
  pose proof (verifyAuth_api_key_ok jwtVerify JWT_SECRET key token authorization Hin)
    as Hk.
  unfold saleRouter. rewrite Hk, Hauth.
  destruct route; try discriminate; try reflexivity.
  - unfold getAllSales, allSalesFilters.
    rewrite (restrictToUser_admin u) by assumption. reflexivity.
  - unfold getSalesStats, salesStats, statsFilters.
    rewrite (restrictToUser_admin u) by assumption. reflexivity.
Qed.

Lemma api_key_reads_as_admin_witness :
  saleRouter verifyExample None env0 ∅
    (Headers.mk (Some "sk_test_supermercado123") None None) (GetSales noQuery) db2
  = saleRouter verifyExample None env0 ∅
      (Headers.mk None (Some "supermercado_secret_key.root") None) (GetSales noQuery) db2
  /\ length (salesOf (getAllSales None noQuery db2)) = 2.
Proof.
  split.
  - apply (api_key_reads_as_admin verifyExample None env0 ∅ "sk_test_supermercado123"
             None None (Headers.mk None (Some "supermercado_secret_key.root") None)
             admin (GetSales noQuery) db2).
    + vm_compute. tauto.
    + vm_compute. reflexivity.
    + reflexivity.
    + reflexivity.
  - vm_compute. reflexivity.
Defined.

(** X25 — The tokens that login issues are signed with
    [JWT_SECRET || 'supermercado-jwt-secret'] and verified with
    [JWT_SECRET || 'supermercado_secret_key']: for a signature scheme in
    which a token verifies under its own secret and a token signed with the
    first default does not verify under the second, a freshly issued token
    is accepted when JWT_SECRET is set and refused with 401 when it is not. *)
Theorem issued_token_needs_JWT_SECRET
    (jwtSign : Principal.t -> string -> string)
    (jwtVerify : string -> string -> option Principal.t)
    (JWT_SECRET : option string) (u : Principal.t) :
  (forall secret, jwtVerify (jwtSign u secret) secret = Some u) ->
  jwtVerify (jwtSign u "supermercado-jwt-secret") "supermercado_secret_key" = None ->
  issueToken jwtSign JWT_SECRET u <> "" ->
  String.prefix "Bearer " (issueToken jwtSign JWT_SECRET u) = false ->
  verifyAuth jwtVerify JWT_SECRET
    (Headers.mk None (Some (issueToken jwtSign JWT_SECRET u)) None)
  = if truthy JWT_SECRET then Next (Some u) else Answered 401 TokenInvalido.
Proof.
  intros Hown Hother Hne Hprefix.
  unfold verifyAuth, verifyToken, orString.
  cbn [Headers.x_api_key Headers.x_access_token Headers.authorization].
  change (truthy None) with false. cbv beta iota.
  rewrite !(truthy_Some _ Hne). cbn [negb].
  change (default "" (Some (issueToken jwtSign JWT_SECRET u)))
    with (issueToken jwtSign JWT_SECRET u).
  unfold tokenValue. rewrite Hprefix.
  unfold issueToken, orString.
  destruct (truthy JWT_SECRET).
  - rewrite Hown. reflexivity.
  - change (default "" (Some ?x)) with x. cbn [default from_option id].
    rewrite Hother. reflexivity.
Qed.

Lemma issued_token_needs_JWT_SECRET_witness :
  verifyAuth verifyExample None
    (Headers.mk None (Some (issueToken signExample None empleado)) None)
  = Answered 401 TokenInvalido
  /\ verifyAuth verifyExample (Some "s3cret")
       (Headers.mk None (Some (issueToken signExample (Some "s3cret") empleado)) None)
     = Next (Some empleado).
Proof.
  assert (Hown : forall secret,
             verifyExample (signExample empleado secret) secret = Some empleado).
  { intros secret. unfold verifyExample, signExample. cbn [Principal.role empleado].
    change (String.eqb "employee" "admin") with false. cbv iota.
    change (String.append "." "ana") with ".ana".
    rewrite String.eqb_refl. reflexivity. }
  split.
  - apply (issued_token_needs_JWT_SECRET signExample verifyExample None empleado Hown);
      [vm_compute; reflexivity | discriminate | vm_compute; reflexivity].
  - apply (issued_token_needs_JWT_SECRET signExample verifyExample (Some "s3cret")
             empleado Hown);
      [vm_compute; reflexivity | discriminate | vm_compute; reflexivity].
Defined.

(** ** The response middleware: transformIds *)

Lemma list_max_In (n : nat) (l : list nat) : In n l -> n <= list_max l.
Proof.
  induction l as [|m l IH]; simpl; [tauto|].
  intros [-> | H]; [lia | specialize (IH H); lia].
Qed.

Lemma depth_In_items (c : value) (items : list value) :
  In c items -> depth c < depth (VArray items).
Proof.
  intros H. simpl. apply Nat.lt_succ_r, list_max_In, in_map, H.
Qed.

Lemma depth_In_props (k : string) (c : value) (props : list (string * value)) :
  In (k, c) props ->
  depth c < depth (VObject props) /\ depth c < depth (VDocument props).
Proof.
  intros H.
  assert (depth c <= list_max (List.map (fun kv => let '(_, v') := kv in depth v') props)).
  { apply list_max_In.
    apply (in_map (fun kv : string * value => let '(_, v') := kv in depth v')) in H.
    exact H. }
  simpl. lia.
Qed.

Lemma value_depth_ind (P : value -> Prop) :
  (forall v, (forall c, depth c < depth v -> P c) -> P v) -> forall v, P v.
Proof.
  intros H v. remember (depth v) as n eqn:E. revert v E.
  induction n as [n IH] using lt_wf_ind. intros v ->.
  apply H. intros c Hc. eapply IH; [exact Hc | reflexivity].
Qed.

Lemma lookupProp_In (k : string) (props : list (string * value)) :
  lookupProp k props = VUndefined \/ In (k, lookupProp k props) props.
Proof.
  induction props as [|[k' v] props IH]; simpl; [now left|].
  destruct (String.eqb_spec k k') as [->|Hk].
  - right. now left.
  - destruct IH as [IH|IH]; [now left | right; now right].
Qed.

Lemma lookupProp_setProp (k : string) (v : value) (props : list (string * value)) :
  lookupProp k (setProp k v props) = v.
Proof.
  induction props as [|[k' v'] props IH]; simpl.
  - now rewrite String.eqb_refl.
  - destruct (String.eqb_spec k k') as [->|Hk]; simpl.
    + now rewrite String.eqb_refl.
    + apply String.eqb_neq in Hk. now rewrite Hk.
Qed.

Lemma lookupProp_setProp_other (k k' : string) (v : value)
    (props : list (string * value)) :
  k <> k' -> lookupProp k (setProp k' v props) = lookupProp k props.
Proof.
  intros Hk. induction props as [|[k2 v2] props IH]; simpl.
  - apply String.eqb_neq in Hk. now rewrite Hk.
  - destruct (String.eqb_spec k' k2) as [->|Hk2]; simpl.
    + apply String.eqb_neq in Hk. now rewrite Hk.
    + now rewrite IH.
Qed.

Lemma lookupProp_deleteProp (k : string) (props : list (string * value)) :
  lookupProp k (deleteProp k props) = VUndefined.
Proof.
  induction props as [|[k' v'] props IH]; simpl; [reflexivity|].
  destruct (String.eqb_spec k k') as [->|Hk]; simpl; [exact IH|].
  apply String.eqb_neq in Hk. now rewrite Hk.
Qed.

Lemma lookupProp_deleteProp_other (k k' : string) (props : list (string * value)) :
  k <> k' -> lookupProp k (deleteProp k' props) = lookupProp k props.
Proof.
  intros Hk. induction props as [|[k2 v2] props IH]; simpl; [reflexivity|].
  destruct (String.eqb_spec k' k2) as [->|Hk2]; simpl.
  - apply String.eqb_neq in Hk. now rewrite Hk.
  - now rewrite IH.
Qed.

Lemma setProp_In (k k' : string) (v c : value) (props : list (string * value)) :
  In (k, c) (setProp k' v props) -> In (k, c) props \/ (k = k' /\ c = v).
Proof.
  induction props as [|[k2 v2] props IH]; simpl.
  - intros [H|[]]. injection H as <- <-. now right.
  - destruct (String.eqb_spec k' k2) as [->|Hk2]; simpl.
    + intros [H|H]; [injection H as <- <-; now right | left; now right].
    + intros [H|H]; [left; now left|].
      destruct (IH H) as [H'|H']; [left; now right | now right].
Qed.

Lemma deleteProp_In (k k' : string) (c : value) (props : list (string * value)) :
  In (k, c) (deleteProp k' props) -> In (k, c) props.
Proof. unfold deleteProp. intros H. apply filter_In in H. tauto. Qed.

(** The object-valued properties of the copy are properties of the
    original. *)
Lemma withId_In (toStringOf : value -> string) (k : string) (c : value)
    (props : list (string * value)) :
  In (k, c) (withId toStringOf props) -> isObject c = true -> In (k, c) props.
Proof.
  unfold withId. intros H Hc.
  destruct (isUndefinedValue (lookupProp "_id" props)) eqn:Eu; cbn [negb] in H;
    [exact H|].
  assert (Hset : In (k, c)
                   (setProp "id"
                      (if isObject (lookupProp "_id" props)
                       then VString (toStringOf (lookupProp "_id" props))
                       else lookupProp "_id" props) props) -> In (k, c) props).
  { intros H'. apply setProp_In in H'. destruct H' as [H'|[_ ->]]; [exact H'|].
    destruct (isObject (lookupProp "_id" props)) eqn:Eo; [discriminate|].
    congruence. }
  destruct (_ && _) in H; [apply deleteProp_In in H|]; apply Hset, H.
Qed.

Lemma map_ext_In_props {A : Type} (f g : A -> A) (l : list A) :
  (forall a, In a l -> f a = g a) -> List.map f l = List.map g l.
Proof.
  induction l as [|a l IH]; simpl; intros H; [reflexivity|].
  rewrite (H a) by now left. rewrite IH; [reflexivity|].
  intros b Hb. apply H. now right.
Qed.

Lemma transformStep_ext (toStringOf : value -> string) (rec1 rec2 : value -> value)
    (v : value) :
  (forall c, depth c < depth v -> rec1 c = rec2 c) ->
  transformStep toStringOf rec1 v = transformStep toStringOf rec2 v.
Proof.
  intros H. destruct v as [| | b | n | s | id | d | items | props | props];
    try reflexivity; cbn [transformStep].
  - f_equal. apply map_ext_In_props. intros c Hc. apply H, depth_In_items, Hc.
  - destruct (bsonObjectId props); [reflexivity|]. f_equal.
    apply map_ext_In_props. intros [k c] Hc.
    destruct (negb (skipKey k) && isObject c) eqn:E; [|reflexivity].
    apply andb_true_iff in E. destruct E as [_ Eo].
    rewrite H; [reflexivity|]. eapply depth_In_props, withId_In; eauto.
  - destruct (bsonObjectId props); [reflexivity|]. f_equal.
    apply map_ext_In_props. intros [k c] Hc.
    destruct (negb (skipKey k) && isObject c) eqn:E; [|reflexivity].
    apply andb_true_iff in E. destruct E as [_ Eo].
    rewrite H; [reflexivity|]. eapply depth_In_props, withId_In; eauto.
Qed.

(** The bound is enough: more turns do not change the result. *)
Lemma transformIdsWithin_enough (toStringOf : value -> string) (n : nat) :
  forall v, depth v < n ->
  transformIdsWithin toStringOf n v = transformIds toStringOf v.
Proof.
  induction n as [n IH] using lt_wf_ind. intros v Hv.
  destruct n as [|n]; [lia|]. unfold transformIds. cbn [transformIdsWithin].
  apply transformStep_ext. intros c Hc.
  rewrite (IH n) by lia.
  destruct (depth v) as [|m] eqn:Em; [lia|].
  rewrite (IH (S m)) by lia. reflexivity.
Qed.

(** [transformIds] as the source writes it. *)
Lemma transformIds_eq (toStringOf : value -> string) (v : value) :
  transformIds toStringOf v = transformStep toStringOf (transformIds toStringOf) v.
Proof.
  unfold transformIds at 1. cbn [transformIdsWithin].
  apply transformStep_ext. intros c Hc.
  apply transformIdsWithin_enough, Hc.
Qed.

Section TransformIdsFacts.

Variable toStringOf : value -> string.

Let entry (kv : string * value) : string * value :=
  let '(key, v) := kv in
  if negb (skipKey key) && isObject v then (key, transformIds toStringOf v) else (key, v).

Lemma lookupProp_map (k : string) (props : list (string * value)) :
  lookupProp k (List.map entry props)
  = if negb (skipKey k) && isObject (lookupProp k props)
    then transformIds toStringOf (lookupProp k props)
    else lookupProp k props.
Proof.
  induction props as [|[k' v] props IH]; cbn [List.map lookupProp entry].
  - rewrite andb_false_r. reflexivity.
  - destruct (String.eqb_spec k k') as [->|Hk].
    + destruct (negb (skipKey k') && isObject v); cbn [lookupProp];
        rewrite String.eqb_refl; reflexivity.
    + apply String.eqb_neq in Hk.
      destruct (negb (skipKey k') && isObject v); cbn [lookupProp];
        rewrite Hk; exact IH.
Qed.

(** An object is turned into a string, an array or a plain object. *)
Lemma transformIds_object (v : value) :
  isObject v = true ->
  (exists x, transformIds toStringOf v = VString (toStringOf x))
  \/ (exists items, transformIds toStringOf v = VArray items)
  \/ (exists props, transformIds toStringOf v = VObject props).
Proof.
  intros H. rewrite transformIds_eq.
  destruct v; try discriminate; cbn [transformStep]; eauto;
    destruct (bsonObjectId props); eauto.
Qed.

Lemma transformIds_primitive (v : value) :
  isObject v = false -> transformIds toStringOf v = v.
Proof.
  intros H. rewrite transformIds_eq. destruct v; try discriminate; reflexivity.
Qed.

Lemma transformIds_defined (v : value) :
  isUndefinedValue (transformIds toStringOf v) = isUndefinedValue v.
Proof.
  destruct (isObject v) eqn:E.
  - destruct (transformIds_object v E) as [[x ->] | [[l ->] | [p ->]]];
      destruct v; try discriminate; reflexivity.
  - rewrite transformIds_primitive by assumption. reflexivity.
Qed.

Lemma plain_primitive (v : value) : isObject v = false -> plain v = true.
Proof. destruct v; try discriminate; reflexivity. Qed.

Lemma withId_internals (props : list (string * value)) :
  lookupProp "$__" (withId toStringOf props) = lookupProp "$__" props
  /\ lookupProp "schema" (withId toStringOf props) = lookupProp "schema" props.
Proof.
  unfold withId.
  destruct (isUndefinedValue (lookupProp "_id" props)); cbn [negb]; [tauto|].
  destruct (_ && _);
    rewrite ?lookupProp_deleteProp_other, ?lookupProp_setProp_other by discriminate;
    tauto.
Qed.

(** The copy has no defined [_id] unless the object has a true [$__] or
    [schema]. *)
Lemma withId_no_id (props : list (string * value)) :
  isUndefinedValue (lookupProp "_id" (withId toStringOf props))
  || truthyValue (lookupProp "$__" props)
  || truthyValue (lookupProp "schema" props) = true.
Proof.
  unfold withId.
  destruct (isUndefinedValue (lookupProp "_id" props)) eqn:Eu; cbn [negb].
  - rewrite Eu. reflexivity.
  - rewrite !lookupProp_setProp_other by discriminate.
    destruct (truthyValue (lookupProp "$__" props));
      destruct (truthyValue (lookupProp "schema" props)); cbn [negb andb];
      rewrite ?lookupProp_deleteProp, ?orb_true_r; reflexivity.
Qed.

Lemma transformIds_plain_props (props : list (string * value)) :
  (forall c, depth c < depth (VObject props) -> plain (transformIds toStringOf c) = true) ->
  plain (VObject (List.map entry (withId toStringOf props))) = true.
Proof.
  intros IH. cbn [plain]. apply andb_true_iff. split.
  - rewrite !lookupProp_map. cbn [skipKey String.eqb Ascii.eqb Bool.eqb orb negb andb].
    change (skipKey "_id") with false. change (skipKey "$__") with true.
    change (skipKey "schema") with true. cbn [negb andb].
    destruct (withId_internals props) as [-> ->].
    pose proof (withId_no_id props) as H.
    destruct (isObject (lookupProp "_id" (withId toStringOf props)));
      rewrite ?transformIds_defined; exact H.
  - apply forallb_forall. intros [k c'] Hin.
    apply in_map_iff in Hin. destruct Hin as ([k0 c] & Heq & Hin).
    unfold entry in Heq.
    destruct (skipKey k0) eqn:Es; cbn [negb andb] in Heq.
    + injection Heq as <- <-. rewrite Es. reflexivity.
    + destruct (isObject c) eqn:Eo; injection Heq as <- <-; rewrite Es; cbn [orb].
      * apply IH. eapply depth_In_props, withId_In; eauto.
      * apply plain_primitive, Eo.
Qed.

(** X26 — Whatever value is sent, what [transformIds] returns is plain
    data: outside the properties [$__], [schema] and [errors] it holds no
    ObjectId, no Date and no Mongoose document, and an object keeps a
    defined [_id] only when it has a true [$__] or [schema] property. *)
Theorem transformIds_plain (data : value) :
  plain (transformIds toStringOf data) = true.
Proof.
  induction data as [v IH] using value_depth_ind.
  rewrite transformIds_eq.
  destruct v as [| | b | n | s | id | d | items | props | props];
    try reflexivity; cbn [transformStep].
  - cbn [plain]. apply forallb_forall. intros c' Hin.
    apply in_map_iff in Hin. destruct Hin as (c & <- & Hin).
    apply IH, depth_In_items, Hin.
  - destruct (bsonObjectId props); [reflexivity|].
    apply transformIds_plain_props, IH.
  - destruct (bsonObjectId props); [reflexivity|].
    apply transformIds_plain_props. intros c Hc. apply IH. exact Hc.
Qed.

Lemma withId_other (k : string) (props : list (string * value)) :
  k <> "id" -> k <> "_id" ->
  lookupProp k (withId toStringOf props) = lookupProp k props.
Proof.
  intros H1 H2. unfold withId.
  destruct (isUndefinedValue (lookupProp "_id" props)); cbn [negb]; [reflexivity|].
  destruct (_ && _);
    rewrite ?lookupProp_deleteProp_other, ?lookupProp_setProp_other by assumption;
    reflexivity.
Qed.

(** X27 — A Mongoose document whose [_id] is an ObjectId comes out as a
    plain object with [id] the string of that ObjectId and no [_id]; every
    other property keeps its name, with its value transformed in turn when
    it is an object. So a Date property, such as [createdAt], comes out as
    the empty object. *)
Theorem transformIds_document (props : list (string * value)) (i : ObjectId) :
  bsonObjectId props = false ->
  truthyValue (lookupProp "$__" props) = false ->
  truthyValue (lookupProp "schema" props) = false ->
  lookupProp "_id" props = VObjectId i ->
  exists props',
    transformIds toStringOf (VDocument props) = VObject props'
    /\ lookupProp "id" props' = VString (toStringOf (VObjectId i))
    /\ lookupProp "_id" props' = VUndefined
    /\ (forall k, k <> "id" -> k <> "_id" ->
        lookupProp k props'
        = if negb (skipKey k) && isObject (lookupProp k props)
          then transformIds toStringOf (lookupProp k props)
          else lookupProp k props)
    /\ (forall k d, k <> "id" -> skipKey k = false -> lookupProp k props = VDate d ->
        lookupProp k props' = VObject []).
Proof.
  intros Hb H1 H2 Hid. eexists. split.
  { rewrite transformIds_eq. cbn [transformStep]. rewrite Hb. reflexivity. }
  assert (Hw : withId toStringOf props
               = deleteProp "_id" (setProp "id" (VString (toStringOf (VObjectId i))) props)).
  { unfold withId. rewrite Hid. cbn [isUndefinedValue negb isObject].
    rewrite !lookupProp_setProp_other by discriminate. rewrite H1, H2. reflexivity. }
  assert (Hother : forall k, k <> "id" -> k <> "_id" ->
            lookupProp k (List.map entry (withId toStringOf props))
            = if negb (skipKey k) && isObject (lookupProp k props)
              then transformIds toStringOf (lookupProp k props)
              else lookupProp k props).
  { intros k Hk1 Hk2. rewrite lookupProp_map, withId_other by assumption. reflexivity. }
  split; [|split; [|split]].
  - rewrite lookupProp_map, Hw, lookupProp_deleteProp_other by discriminate.
    rewrite lookupProp_setProp. rewrite andb_false_r. reflexivity.
  - rewrite lookupProp_map, Hw, lookupProp_deleteProp. rewrite andb_false_r.
    reflexivity.
  - exact Hother.
  - intros k d Hk Hs Hd.
    assert (Hk2 : k <> "_id") by (intros ->; congruence).
    unfold entry in Hother. rewrite (Hother k Hk Hk2), Hd, Hs. cbn [negb isObject andb].
    rewrite transformIds_eq. reflexivity.
Qed.

Lemma settled_primitive (v : value) : isObject v = false -> settled v = true.
Proof. destruct v; try discriminate; reflexivity. Qed.

Lemma settled_fixed (w : value) :
  settled w = true -> transformIds toStringOf w = w.
Proof.
  induction w as [w IH] using value_depth_ind. intros Hs.
  rewrite transformIds_eq.
  destruct w as [| | b | n | s | id | d | items | props | props];
    try reflexivity; try discriminate; cbn [transformStep].
  - f_equal. cbn [settled] in Hs.
    rewrite <- (List.map_id items) at 2. apply map_ext_In_props.
    intros c Hc. apply IH; [apply depth_In_items, Hc|].
    eapply forallb_forall in Hs; eauto.
  - cbn [settled] in Hs. apply andb_true_iff in Hs. destruct Hs as [Hs Hall].
    apply andb_true_iff in Hs. destruct Hs as [Hid Hb].
    apply negb_true_iff in Hb. rewrite Hb. f_equal.
    unfold withId. rewrite Hid. cbn [negb].
    rewrite <- (List.map_id props) at 2. apply map_ext_In_props.
    intros [k c] Hc.
    destruct (negb (skipKey k) && isObject c) eqn:E; [|reflexivity].
    apply andb_true_iff in E. destruct E as [Es Eo]. apply negb_true_iff in Es.
    f_equal. apply IH; [eapply depth_In_props, Hc|].
    eapply forallb_forall in Hall; [|exact Hc]. cbn beta iota in Hall.
    rewrite Es in Hall. exact Hall.
Qed.

Lemma transformIds_settled_props (props : list (string * value)) :
  (forall x, toStringOf x <> "ObjectId") ->
  bsonObjectId props = false ->
  noInternals (VObject props) = true ->
  (forall c, depth c < depth (VObject props) -> noInternals c = true ->
             settled (transformIds toStringOf c) = true) ->
  settled (VObject (List.map entry (withId toStringOf props))) = true.
Proof.
  intros Hstr Hb Hn IH. cbn [noInternals] in Hn.
  apply andb_true_iff in Hn. destruct Hn as [Hn Hall].
  apply andb_true_iff in Hn. destruct Hn as [H1 H2].
  apply negb_true_iff in H1, H2.
  cbn [settled]. apply andb_true_iff. split; [apply andb_true_iff; split|].
  - rewrite lookupProp_map. change (skipKey "_id") with false. cbn [negb andb].
    pose proof (withId_no_id props) as H. rewrite H1, H2, !orb_false_r in H.
    destruct (lookupProp "_id" (withId toStringOf props)); try discriminate.
    reflexivity.
  - apply negb_true_iff. unfold bsonObjectId in *.
    rewrite lookupProp_map, withId_other by discriminate.
    change (skipKey "_bsontype") with false. cbn [negb andb].
    destruct (isObject (lookupProp "_bsontype" props)) eqn:Eo; [|exact Hb].
    destruct (transformIds_object _ Eo) as [[x ->] | [[l ->] | [p ->]]];
      try reflexivity.
    apply String.eqb_neq, Hstr.
  - apply forallb_forall. intros [k c'] Hin.
    apply in_map_iff in Hin. destruct Hin as ([k0 c] & Heq & Hin).
    unfold entry in Heq.
    destruct (skipKey k0) eqn:Es; cbn [negb andb] in Heq.
    + injection Heq as <- <-. rewrite Es. reflexivity.
    + destruct (isObject c) eqn:Eo; injection Heq as <- <-; rewrite Es; cbn [orb].
      * pose proof (withId_In toStringOf _ _ _ Hin Eo) as Hp.
        apply IH; [eapply depth_In_props, Hp|].
        eapply forallb_forall in Hall; [|exact Hp]. cbn beta iota in Hall.
        rewrite Es in Hall. exact Hall.
      * apply settled_primitive, Eo.
Qed.

Lemma transformIds_settled (v : value) :
  (forall x, toStringOf x <> "ObjectId") ->
  noInternals v = true -> settled (transformIds toStringOf v) = true.
Proof.
  intros Hstr. induction v as [v IH] using value_depth_ind. intros Hn.
  rewrite transformIds_eq.
  destruct v as [| | b | n | s | id | d | items | props | props];
    try reflexivity; cbn [transformStep].
  - cbn [settled]. apply forallb_forall. intros c' Hin.
    apply in_map_iff in Hin. destruct Hin as (c & <- & Hin).
    apply IH; [apply depth_In_items, Hin|].
    cbn [noInternals] in Hn. eapply forallb_forall in Hn; eauto.
  - destruct (bsonObjectId props) eqn:Hb; [reflexivity|].
    apply transformIds_settled_props; assumption.
  - destruct (bsonObjectId props) eqn:Hb; [reflexivity|].
    apply transformIds_settled_props; try assumption.
Qed.

(** X28 — Transforming twice is transforming once, for a value in which no
    object has a true [$__] or [schema] and a [toString] that never gives
    the text ObjectId. *)
Theorem transformIds_idempotent (data : value) :
  (forall x, toStringOf x <> "ObjectId") ->
  noInternals data = true ->
  transformIds toStringOf (transformIds toStringOf data) = transformIds toStringOf data.
Proof.
  intros Hstr Hn. apply settled_fixed, transformIds_settled; assumption.
Qed.

End TransformIdsFacts.

Lemma toStringExample_not_ObjectId (x : value) : toStringExample x <> "ObjectId".
Proof.
  destruct x; try discriminate. unfold toStringExample, toString.
  destruct (Nat.to_uint id); discriminate.
Qed.

Lemma transformIds_document_witness :
  exists props',
    transformIds toStringExample saleDocument = VObject props'
    /\ lookupProp "id" props' = VString "100"
    /\ lookupProp "_id" props' = VUndefined
    /\ lookupProp "saleNumber" props' = VString "V2024-001"
    /\ lookupProp "createdAt" props' = VObject [].
Proof.
  destruct (transformIds_document toStringExample
              [("_id", VObjectId 100);
               ("saleNumber", VString "V2024-001");
               ("items",
                  VArray [VObject [("_id", VObjectId 501); ("product", VObjectId 1);
                                   ("quantity", VNumber (Fin 2))]]);
               ("seller", VObject [("_id", VObjectId 7); ("username", VString "ana")]);
               ("createdAt", VDate (mkDate 2024 5 17 36000000))] 100)
    as (props' & Heq & Hid & Hno & Hother & Hdate); try reflexivity.
  exists props'. split; [exact Heq|]. split; [exact Hid|]. split; [exact Hno|]. split.
  - rewrite (Hother "saleNumber") by discriminate. reflexivity.
  - apply (Hdate "createdAt" (mkDate 2024 5 17 36000000)); [discriminate | |];
      reflexivity.
Defined.

Lemma transformIds_idempotent_witness :
  transformIds toStringExample (transformIds toStringExample saleDocument)
  = transformIds toStringExample saleDocument
  /\ transformIds toStringExample saleDocument <> saleDocument.
Proof.
  split.
  - apply (transformIds_idempotent toStringExample saleDocument
             toStringExample_not_ObjectId).
    vm_compute. reflexivity.
  - vm_compute. discriminate.
Defined.
